(** * ai-test-automation: the reply parsers, the prompt digest and the save paths

    A shallow embedding of
      - [TestCaseGenerator] (src/test_case_generator.py):
        [_process_ai_response], [save_test_cases], [_format_elements_for_prompt],
        [generate_test_cases];
      - [TestScriptGenerator] (src/test_script_generator.py):
        [_extract_code_from_response], [save_scripts], [generate_scripts];
      - src/utils.py: [get_user_input], [load_template],
        [create_default_templates];
      - main.py: the statements of the task generate_tests;
    together with the Python [str] methods they call.

    Text is a Rocq [string]; a character is a code point below 256 (Latin-1),
    which is where [str.strip], [str.isdigit] and [str.lower] are modelled.
    The console is the list of the lines still to be read and the list of
    the lines printed; the file system of the templates is a map from paths
    to directories and text files. *)

From Stdlib Require Import String Ascii List Bool Arith Lia.
From Stdlib Require Import Decimal DecimalString.
Import ListNotations.

Local Open Scope list_scope.
Local Open Scope string_scope.

(** ** Python's [str] methods *)

Module PyStr.

(** The line feed, Python's ['\n']. *)
Definition LF : ascii := ascii_of_nat 10.
Definition nl : string := String LF EmptyString.

(** [c.isspace()] on code points below 256: TAB..CR, FS..US, space, NEL, NBSP. *)
Definition isspace (c : ascii) : bool :=
  let n := nat_of_ascii c in
  (((9 <=? n) && (n <=? 13)) || ((28 <=? n) && (n <=? 32))
   || (n =? 133) || (n =? 160))%nat.

(** [c.isdigit()] on code points below 256: '0'..'9' and the superscripts
    two, three and one. *)
Definition isdigit (c : ascii) : bool :=
  let n := nat_of_ascii c in
  (((48 <=? n) && (n <=? 57)) || (n =? 178) || (n =? 179) || (n =? 185))%nat.

(** [c.lower()] on code points below 256. *)
Definition lower_char (c : ascii) : ascii :=
  let n := nat_of_ascii c in
  if (((65 <=? n) && (n <=? 90))
      || ((192 <=? n) && (n <=? 222) && negb (n =? 215)))%nat
  then ascii_of_nat (n + 32) else c.

Fixpoint lower (s : string) : string :=
  match s with
  | EmptyString => EmptyString
  | String c s' => String (lower_char c) (lower s')
  end.

(** [s.lstrip()], [s.rstrip()], [s.strip()]. *)
Fixpoint lstrip (s : string) : string :=
  match s with
  | EmptyString => EmptyString
  | String c s' => if isspace c then lstrip s' else s
  end.

Fixpoint rstrip (s : string) : string :=
  match s with
  | EmptyString => EmptyString
  | String c s' =>
      match rstrip s' with
      | EmptyString => if isspace c then EmptyString else String c EmptyString
      | r => String c r
      end
  end.

Definition strip (s : string) : string := lstrip (rstrip s).

(** [s.startswith(p)]. *)
Definition startswith (p s : string) : bool := String.prefix p s.

(** [sub in s]. *)
Fixpoint contains (sub s : string) : bool :=
  startswith sub s
  || match s with
     | EmptyString => false
     | String _ s' => contains sub s'
     end.

(** [s.split(sep)] for a one-character separator. *)
Fixpoint split (sep : ascii) (s : string) : list string :=
  match s with
  | EmptyString => [EmptyString]
  | String c s' =>
      if Ascii.eqb c sep then EmptyString :: split sep s'
      else match split sep s' with
           | l :: ls => String c l :: ls
           | [] => [String c EmptyString]
           end
  end.

(** [s.split(sep, 1)] for a one-character separator: the text before the
    first separator and, when there is one, the text after it. *)
Fixpoint split1 (sep : ascii) (s : string) : string * option string :=
  match s with
  | EmptyString => (EmptyString, None)
  | String c s' =>
      if Ascii.eqb c sep then (EmptyString, Some s')
      else let (h, t) := split1 sep s' in (String c h, t)
  end.

(** [s.split(sep)[0]] for a non-empty separator string: the text before the
    first occurrence of [sep], or all of [s]. *)
Fixpoint split_head (sep s : string) : string :=
  if startswith sep s then EmptyString
  else match s with
       | EmptyString => EmptyString
       | String c s' => String c (split_head sep s')
       end.

(** The slice [s[n:]]. *)
Fixpoint slice_from (n : nat) (s : string) : string :=
  match n, s with
  | 0, _ => s
  | S _, EmptyString => EmptyString
  | S n', String _ s' => slice_from n' s'
  end.

(** [sep.join(l)]. *)
Definition join (sep : string) (l : list string) : string := String.concat sep l.

(** [str(n)] for a natural number. *)
Definition str_of_nat (n : nat) : string := NilEmpty.string_of_uint (Nat.to_uint n).

(** Truthiness of a string: [bool(s)]. *)
Definition nonempty (s : string) : bool :=
  match s with EmptyString => false | String _ _ => true end.

End PyStr.
Import PyStr.

(** ** Exceptions and results *)

(** The exceptions the modelled code can meet.  [KeyboardInterrupt] stands for
    the classes that derive from [BaseException] only; the others derive from
    [Exception]. *)
Inductive exn : Type :=
| IndexError (msg : string)
| KeyError (msg : string)
| OSError (msg : string)
| ValueError (msg : string)
| FileNotFoundError (msg : string)
| KeyboardInterrupt.

(** [isinstance(e, Exception)]. *)
Definition is_Exception (e : exn) : bool :=
  match e with KeyboardInterrupt => false | _ => true end.

(** [str(e)]. *)
Definition str_of_exn (e : exn) : string :=
  match e with
  | IndexError m | KeyError m | OSError m | ValueError m | FileNotFoundError m => m
  | KeyboardInterrupt => EmptyString
  end.

Inductive result (A : Type) : Type :=
| Ok (a : A)
| Raise (e : exn).
Arguments Ok {A} a.
Arguments Raise {A} e.

Definition bind {A B : Type} (m : result A) (k : A -> result B) : result B :=
  match m with
  | Ok a => k a
  | Raise e => Raise e
  end.

Notation "x <- m ;; k" := (bind m (fun x => k))
  (at level 61, m at next level, right associativity).

(** A [for] loop whose body may raise. *)
Fixpoint for_each {S A : Type} (body : S -> A -> result S) (l : list A) (s : S)
  : result S :=
  match l with
  | [] => Ok s
  | a :: l' => s' <- body s a ;; for_each body l' s'
  end.

(** [s[0]]: raises [IndexError] on the empty string. *)
Definition index0 (s : string) : result ascii :=
  match s with
  | EmptyString => Raise (IndexError "string index out of range")
  | String c _ => Ok c
  end.

(** [d.get(key, default)] on a field that may be absent. *)
Definition get_or {A : Type} (field : option A) (default : A) : A :=
  match field with
  | Some v => v
  | None => default
  end.

(** Truthiness of a list field that may be absent: [key in d and d[key]]. *)
Definition present_nonempty {A : Type} (field : option (list A)) : bool :=
  match field with
  | Some (_ :: _) => true
  | _ => false
  end.

(** [enumerate(l, start)]. *)
Fixpoint enumerate {A : Type} (start : nat) (l : list A) : list (nat * A) :=
  match l with
  | [] => []
  | a :: l' => (start, a) :: enumerate (S start) l'
  end.

(** ** The Element Record (elements.json) *)

(** Each mapping is a record of the keys the generator reads; [None] is an
    absent key.  The values are what the spec's data model gives them:
    strings, flags and nested sequences. *)
Record button_el : Type := {
  button_text : option string;
  button_element_type : option string;
  button_id : option string;
  button_class : option string
}.

Record link_el : Type := {
  link_text : option string;
  link_href : option string;
  link_target : option string
}.

Record option_el : Type := {
  option_text : option string
}.

Record input_el : Type := {
  input_element_type : option string;
  input_type : option string;
  input_name : option string;
  input_placeholder : option string;
  input_required : option bool;
  input_rows : option string;
  input_options : option (list option_el)
}.

Record form_input_el : Type := {
  form_input_element_type : option string;
  form_input_type : option string;
  form_input_name : option string
}.

Record form_el : Type := {
  form_id : option string;
  form_method : option string;
  form_action : option string;
  form_inputs : option (list form_input_el)
}.

Record header_el : Type := {
  header_level : option string;
  header_text : option string
}.

Record nav_item_el : Type := {
  nav_item_text : option string;
  nav_item_href : option string
}.

Record nav_el : Type := {
  nav_id : option string;
  nav_items : option (list nav_item_el)
}.

Record page_structure_el : Type := {
  ps_headers : option (list header_el);
  ps_navigation : option (list nav_el)
}.

Record metadata_el : Type := {
  meta_description : option string;
  meta_title : option string;
  meta_url : option string;
  meta_page_structure : option page_structure_el
}.

(** The top-level mapping; [el_other_keys] are its keys that the generator
    never reads. *)
Record elements_record : Type := {
  el_metadata : option metadata_el;
  el_buttons : option (list button_el);
  el_links : option (list link_el);
  el_inputs : option (list input_el);
  el_forms : option (list form_el);
  el_other_keys : list string
}.

(** Truthiness of the loaded mapping: [bool(self.elements)], false for the
    mapping without keys. *)
Definition elements_truthy (e : elements_record) : bool :=
  match el_metadata e, el_buttons e, el_links e, el_inputs e, el_forms e,
        el_other_keys e with
  | None, None, None, None, None, [] => false
  | _, _, _, _, _, _ => true
  end.

(** ** TestCaseGenerator *)

Record test_case : Type := {
  tc_id : string;
  tc_scenario : string;
  tc_steps : list string;
  tc_expected : string
}.

Record TestCaseGenerator : Type := {
  elements_json_path : string;
  elements : elements_record;
  test_cases : list test_case
}.

Definition set_test_cases (self : TestCaseGenerator) (l : list test_case)
  : TestCaseGenerator :=
  {| elements_json_path := elements_json_path self;
     elements := elements self;
     test_cases := l |}.

(** *** _format_elements_for_prompt *)

Module Format.

Definition format_button (entry : nat * button_el) : string :=
  let (idx, button) := entry in
  let text := get_or (button_text button) "[No text]" in
  let element_type := get_or (button_element_type button) "button" in
  let element_id := get_or (button_id button) "[No ID]" in
  let css_class := get_or (button_class button) "[No class]" in
  "  " ++ str_of_nat idx ++ ". " ++ text ++ " (" ++ element_type
  ++ ", id=" ++ element_id ++ ", class=" ++ css_class ++ ")".

Definition format_link (entry : nat * link_el) : string :=
  let (idx, link) := entry in
  let text := get_or (link_text link) "[No text]" in
  let href := get_or (link_href link) "[No href]" in
  let target := get_or (link_target link) "_self" in
  "  " ++ str_of_nat idx ++ ". " ++ text ++ " (href=" ++ href
  ++ ", target=" ++ target ++ ")".

(** The [options_text] of a select element. *)
Definition options_text (options : list option_el) : string :=
  let options_count := List.length options in
  let shown :=
    join ", " (map (fun opt => get_or (option_text opt) "Option") (firstn 5 options)) in
  if (5 <? options_count)%nat
  then shown ++ ", ... (" ++ str_of_nat (options_count - 5) ++ " more)"
  else shown.

(** One pass of the loop over the input fields: the lines it appends. *)
Definition format_input (entry : nat * input_el) : list string :=
  let (idx, input_field) := entry in
  let element_type := get_or (input_element_type input_field) "input" in
  if (element_type =? "input")%string then
    let field_type := get_or (input_type input_field) "text" in
    let name := get_or (input_name input_field) "[No name]" in
    let placeholder := get_or (input_placeholder input_field) "[No placeholder]" in
    let required :=
      if get_or (input_required input_field) false then "required" else "optional" in
    ["  " ++ str_of_nat idx ++ ". " ++ field_type ++ " input (name=" ++ name
     ++ ", placeholder=" ++ placeholder ++ ", " ++ required ++ ")"]
  else if (element_type =? "textarea")%string then
    let name := get_or (input_name input_field) "[No name]" in
    let placeholder := get_or (input_placeholder input_field) "[No placeholder]" in
    let rows := get_or (input_rows input_field) "default" in
    ["  " ++ str_of_nat idx ++ ". textarea (name=" ++ name
     ++ ", placeholder=" ++ placeholder ++ ", rows=" ++ rows ++ ")"]
  else if (element_type =? "select")%string then
    let name := get_or (input_name input_field) "[No name]" in
    let options := get_or (input_options input_field) [] in
    ["  " ++ str_of_nat idx ++ ". select dropdown (name=" ++ name
     ++ ", options: " ++ options_text options ++ ")"]
  else [].

Definition format_form_input (entry : nat * form_input_el) : string :=
  let (i, input_field) := entry in
  let element_type := get_or (form_input_element_type input_field) "input" in
  let field_type :=
    if (element_type =? "input")%string
    then get_or (form_input_type input_field) "text"
    else element_type in
  let name := get_or (form_input_name input_field) "[No name]" in
  "    " ++ str_of_nat i ++ ". " ++ field_type ++ " (name=" ++ name ++ ")".

(** One pass of the loop over the forms. *)
Definition format_form (entry : nat * form_el) : list string :=
  let (idx, form) := entry in
  let fid := get_or (form_id form) "[No ID]" in
  let method := get_or (form_method form) "get" in
  let action := get_or (form_action form) "[No action]" in
  let inputs_count := List.length (get_or (form_inputs form) []) in
  ("  " ++ str_of_nat idx ++ ". form (id=" ++ fid ++ ", method=" ++ method
   ++ ", action=" ++ action ++ ", " ++ str_of_nat inputs_count ++ " inputs)")
  :: (if present_nonempty (form_inputs form)
      then map format_form_input (enumerate 1 (get_or (form_inputs form) []))
      else []).

Definition format_header (header : header_el) : string :=
  let level := get_or (header_level header) "h" in
  let text := get_or (header_text header) "[No text]" in
  "  - " ++ level ++ ": " ++ text.

Definition format_nav_item (entry : nat * nav_item_el) : string :=
  let (i, item) := entry in
  let text := get_or (nav_item_text item) "[No text]" in
  let href := get_or (nav_item_href item) "[No href]" in
  "    " ++ str_of_nat i ++ ". " ++ text ++ " (href=" ++ href ++ ")".

(** One pass of the loop over the navigation menus. *)
Definition format_nav (nav : nav_el) : list string :=
  let nid := get_or (nav_id nav) "[No ID]" in
  let items := get_or (nav_items nav) [] in
  let items_count := List.length items in
  ("  - Navigation (id=" ++ nid ++ ", " ++ str_of_nat items_count ++ " items)")
  :: (map format_nav_item (enumerate 1 (firstn 5 items))
      ++ (if (5 <? items_count)%nat
          then [("    ... (" ++ str_of_nat (items_count - 5) ++ " more items)")%string]
          else []))%list.

Definition description_part (e : elements_record) : list string :=
  match el_metadata e with
  | Some meta =>
      match meta_description meta with
      | Some d => ["SITE DESCRIPTION: " ++ d ++ nl]
      | None => []
      end
  | None => []
  end.

Definition buttons_part (e : elements_record) : list string :=
  if present_nonempty (el_buttons e)
  then "BUTTONS:" :: map format_button (enumerate 1 (get_or (el_buttons e) []))
  else [].

Definition links_part (e : elements_record) : list string :=
  if present_nonempty (el_links e)
  then (nl ++ "LINKS:") :: map format_link (enumerate 1 (get_or (el_links e) []))
  else [].

Definition inputs_part (e : elements_record) : list string :=
  if present_nonempty (el_inputs e)
  then (nl ++ "INPUT FIELDS:")
       :: flat_map format_input (enumerate 1 (get_or (el_inputs e) []))
  else [].

Definition forms_part (e : elements_record) : list string :=
  if present_nonempty (el_forms e)
  then (nl ++ "FORMS:") :: flat_map format_form (enumerate 1 (get_or (el_forms e) []))
  else [].

Definition headers_part (ps : page_structure_el) : list string :=
  if present_nonempty (ps_headers ps)
  then (nl ++ "PAGE HEADERS:") :: map format_header (get_or (ps_headers ps) [])
  else [].

Definition navigation_part (ps : page_structure_el) : list string :=
  if present_nonempty (ps_navigation ps)
  then (nl ++ "NAVIGATION MENUS:")
       :: flat_map format_nav (get_or (ps_navigation ps) [])
  else [].

Definition page_structure_part (e : elements_record) : list string :=
  match el_metadata e with
  | Some meta =>
      match meta_page_structure meta with
      | Some ps => (headers_part ps ++ navigation_part ps)%list
      | None => []
      end
  | None => []
  end.

(** The list [formatted_elements] when the method returns. *)
Definition formatted_elements (e : elements_record) : list string :=
  (description_part e ++ buttons_part e ++ links_part e ++ inputs_part e
   ++ forms_part e ++ page_structure_part e)%list.

End Format.

Definition _format_elements_for_prompt (self : TestCaseGenerator) : string :=
  join nl (Format.formatted_elements (elements self)).

(** The local [lines] of both parsers: [response.strip().split('\n')]. *)
Definition response_lines (response : string) : list string :=
  split LF (strip response).

(** *** _process_ai_response *)

(** The local [section]: [None], ['Steps to Execute'] or ['Expected Result']. *)
Inductive section_name : Type :=
| Steps_to_Execute
| Expected_Result.

(** The variables the loop over the lines reads and writes. *)
Record loop_state : Type := {
  current_test_case : option test_case;
  section : option section_name;
  self_test_cases : list test_case
}.

(** The test of the header branch. *)
Definition is_header (line : string) : bool :=
  (startswith "Test Case" line && contains ":" line)
  || (startswith "TC-" line && contains ":" line).

Definition is_steps_heading (line : string) : bool :=
  startswith "steps to execute" (lower line) || (lower line =? "steps").

Definition is_expected_heading (line : string) : bool :=
  startswith "expected result" (lower line) || (lower line =? "expected").

(** The record a header line opens. *)
Definition open_test_case (line : string) : test_case :=
  let (part0, part1) := split1 ":" line in
  let test_id := strip part0 in
  let test_scenario :=
    match part1 with
    | Some p => strip p
    | None => EmptyString
    end in
  {| tc_id := test_id; tc_scenario := test_scenario;
     tc_steps := []; tc_expected := EmptyString |}.

(** [l[-1] += x] on a non-empty list. *)
Fixpoint append_to_last (l : list string) (x : string) : list string :=
  match l with
  | [] => []
  | [a] => [a ++ x]
  | a :: l' => a :: append_to_last l' x
  end.

(** The steps branch: the new value of [current_test_case['Steps to Execute']]. *)
Definition add_step_line (steps : list string) (line : string)
  : result (list string) :=
  c <- index0 line ;;
  if isdigit c && contains ". " line then
    let step_number := split_head ". " line in
    let step_text := strip (slice_from (String.length step_number + 2) line) in
    Ok (steps ++ [step_text])%list
  else
    match steps with
    | _ :: _ =>
        c' <- index0 line ;;
        if negb (isdigit c') || negb (contains ". " line)
        then Ok (append_to_last steps (" " ++ line))
        else Ok (steps ++ [line])%list
    | [] => Ok (steps ++ [line])%list
    end.

(** The expected-result branch: the new value of
    [current_test_case['Expected Result']]. *)
Definition add_expected_line (expected line : string) : string :=
  if nonempty expected then expected ++ " " ++ line else line.

(** The body of [for line in lines]. *)
Definition process_line (st : loop_state) (raw : string) : result loop_state :=
  let line := strip raw in
  if negb (nonempty line) then Ok st
  else if is_header line then
    let saved :=
      match current_test_case st with
      | Some tc => (self_test_cases st ++ [tc])%list
      | None => self_test_cases st
      end in
    Ok {| current_test_case := Some (open_test_case line);
          section := None;
          self_test_cases := saved |}
  else if is_steps_heading line then
    Ok {| current_test_case := current_test_case st;
          section := Some Steps_to_Execute;
          self_test_cases := self_test_cases st |}
  else if is_expected_heading line then
    Ok {| current_test_case := current_test_case st;
          section := Some Expected_Result;
          self_test_cases := self_test_cases st |}
  else
    match section st, current_test_case st with
    | Some Steps_to_Execute, Some tc =>
        steps <- add_step_line (tc_steps tc) line ;;
        Ok {| current_test_case :=
                Some {| tc_id := tc_id tc; tc_scenario := tc_scenario tc;
                        tc_steps := steps; tc_expected := tc_expected tc |};
              section := section st;
              self_test_cases := self_test_cases st |}
    | Some Expected_Result, Some tc =>
        Ok {| current_test_case :=
                Some {| tc_id := tc_id tc; tc_scenario := tc_scenario tc;
                        tc_steps := tc_steps tc;
                        tc_expected := add_expected_line (tc_expected tc) line |};
              section := section st;
              self_test_cases := self_test_cases st |}
    | _, _ => Ok st
    end.

(** The statement after the loop: the open record, if any, is appended. *)
Definition flush (st : loop_state) : list test_case :=
  match current_test_case st with
  | Some tc => (self_test_cases st ++ [tc])%list
  | None => self_test_cases st
  end.

(** What a call leaves behind: the lines printed, the generator afterwards and
    the value returned. *)
Record processed : Type := {
  printed : list string;
  self_after : TestCaseGenerator;
  returned : list test_case
}.

Definition empty_response_warning : string :=
  "Warning: Empty AI response received.".

Definition _process_ai_response (self : TestCaseGenerator) (response : string)
  : result processed :=
  if negb (nonempty (strip response)) then
    Ok {| printed := [empty_response_warning];
          self_after := self;
          returned := [] |}
  else
    let lines := response_lines response in
    st <- for_each process_line lines
            {| current_test_case := None; section := None;
               self_test_cases := test_cases self |} ;;
    let final := flush st in
    Ok {| printed := []; self_after := set_test_cases self final;
          returned := final |}.

(** *** _process_ai_response with the records as objects in a store *)

(** The same loop once more, now with [current_test_case] and the entries of
    [self.test_cases] as references to dict objects: a header line creates a
    new dict, the steps and expected-result branches change the current dict
    in place, and [self.test_cases.append] stores a reference. *)

(** A reference names a dict object; the store gives the object behind every
    reference handed out so far. *)
Definition ref : Type := nat.

Record store : Type := {
  object_at : ref -> test_case;
  next_ref : ref
}.

(** A new dict object. *)
Definition store_alloc (objs : store) (tc : test_case) : store * ref :=
  ({| object_at := fun r => if Nat.eqb r (next_ref objs) then tc else object_at objs r;
      next_ref := S (next_ref objs) |},
   next_ref objs).

(** A dict object changed in place. *)
Definition store_update (objs : store) (r : ref) (tc : test_case) : store :=
  {| object_at := fun r' => if Nat.eqb r' r then tc else object_at objs r';
     next_ref := next_ref objs |}.

(** The variables of the loop, the records being references. *)
Record ref_state : Type := {
  objects : store;
  current_ref : option ref;
  section_ref : option section_name;
  self_refs : list ref
}.

Definition process_line_on_store (st : ref_state) (raw : string)
  : result ref_state :=
  let line := strip raw in
  if negb (nonempty line) then Ok st
  else if is_header line then
    let saved :=
      match current_ref st with
      | Some r => (self_refs st ++ [r])%list
      | None => self_refs st
      end in
    let (objs, r) := store_alloc (objects st) (open_test_case line) in
    Ok {| objects := objs; current_ref := Some r; section_ref := None;
          self_refs := saved |}
  else if is_steps_heading line then
    Ok {| objects := objects st; current_ref := current_ref st;
          section_ref := Some Steps_to_Execute; self_refs := self_refs st |}
  else if is_expected_heading line then
    Ok {| objects := objects st; current_ref := current_ref st;
          section_ref := Some Expected_Result; self_refs := self_refs st |}
  else
    match section_ref st, current_ref st with
    | Some Steps_to_Execute, Some r =>
        let tc := object_at (objects st) r in
        steps <- add_step_line (tc_steps tc) line ;;
        Ok {| objects :=
                store_update (objects st) r
                  {| tc_id := tc_id tc; tc_scenario := tc_scenario tc;
                     tc_steps := steps; tc_expected := tc_expected tc |};
              current_ref := current_ref st; section_ref := section_ref st;
              self_refs := self_refs st |}
    | Some Expected_Result, Some r =>
        let tc := object_at (objects st) r in
        Ok {| objects :=
                store_update (objects st) r
                  {| tc_id := tc_id tc; tc_scenario := tc_scenario tc;
                     tc_steps := tc_steps tc;
                     tc_expected := add_expected_line (tc_expected tc) line |};
              current_ref := current_ref st; section_ref := section_ref st;
              self_refs := self_refs st |}
    | _, _ => Ok st
    end.

Definition flush_refs (st : ref_state) : list ref :=
  match current_ref st with
  | Some r => (self_refs st ++ [r])%list
  | None => self_refs st
  end.

(** The call on a store: the store and [self.test_cases] afterwards. *)
Definition process_ai_response_on_store (objs : store) (refs : list ref)
    (response : string) : result (store * list ref) :=
  if negb (nonempty (strip response)) then Ok (objs, refs)
  else
    st <- for_each process_line_on_store (response_lines response)
            {| objects := objs; current_ref := None; section_ref := None;
               self_refs := refs |} ;;
    Ok (objects st, flush_refs st).

(** *** save_test_cases *)

(** A spreadsheet as [pd.DataFrame] receives it: rows of (column, cell). *)
Definition row : Type := list (string * string).
Definition table : Type := list row.

(** The operating-system and spreadsheet calls of the save paths. *)
Record os_calls : Type := {
  os_path_abspath : string -> string;
  os_path_dirname : string -> string;
  os_makedirs : string -> result unit;
  to_excel : table -> string -> result unit
}.

(** The loop that numbers the steps, followed by [.strip()]. *)
Definition steps_text (steps : list string) : string :=
  strip
    (fold_left
       (fun acc (entry : nat * string) =>
          let (i, step) := entry in acc ++ str_of_nat i ++ ". " ++ step ++ nl)
       (enumerate 1 steps) EmptyString).

(** [processed_case]: the copy of a record with its steps turned into text. *)
Definition processed_case (tc : test_case) : row :=
  [("Test Case ID", tc_id tc);
   ("Test Scenario", tc_scenario tc);
   ("Steps to Execute", steps_text (tc_steps tc));
   ("Expected Result", tc_expected tc)].

(** [try: ... except Exception as e: handler]: classes outside [Exception]
    pass through. *)
Definition try_except_Exception {A : Type} (body : list string * result A)
    (handler : exn -> list string * result A) : list string * result A :=
  match body with
  | (out, Ok a) => (out, Ok a)
  | (out, Raise e) =>
      if is_Exception e
      then let (out', r) := handler e in ((out ++ out')%list, r)
      else (out, Raise e)
  end.

Definition save_test_cases (os : os_calls) (self : TestCaseGenerator)
    (output_path : string) : list string * result bool :=
  match test_cases self with
  | [] => (["Error: No test cases to save."], Ok false)
  | _ :: _ =>
      try_except_Exception
        (match os_makedirs os (os_path_dirname os (os_path_abspath os output_path)) with
         | Raise e => ([], Raise e)
         | Ok _ =>
             let processed_test_cases := map processed_case (test_cases self) in
             match to_excel os processed_test_cases output_path with
             | Raise e => ([], Raise e)
             | Ok _ =>
                 ([nl ++ "Test cases successfully saved to: " ++ output_path],
                  Ok true)
             end
         end)
        (fun e =>
           (["Error saving test cases to Excel: " ++ str_of_exn e], Ok false))
  end.

(** ** TestScriptGenerator *)

Record test_script : Type := {
  ts_id : string;
  ts_scenario : string;
  ts_code : string
}.

Record TestScriptGenerator : Type := {
  test_cases_path : string;
  loaded_test_cases : table;
  test_scripts : list test_script
}.

Definition script_row (s : test_script) : row :=
  [("Test Case ID", ts_id s);
   ("Test Scenario", ts_scenario s);
   ("Python Selenium Code", ts_code s)].

(** *** _extract_code_from_response *)

Definition fence_python : string := "```python".
Definition fence : string := "```".

Definition is_fence_open (line : string) : bool :=
  startswith fence_python (strip line) || (strip line =? fence_python).

Definition is_fence_close (line : string) : bool :=
  (strip line =? fence).

Definition is_import_line (line : string) : bool :=
  startswith "import " (strip line) || startswith "from " (strip line).

(** The body of the first loop, on the pair [(code_lines, in_code_block)]. *)
Definition fence_step (st : list string * bool) (line : string)
  : list string * bool :=
  let (code_lines, in_code_block) := st in
  if is_fence_open line then (code_lines, true)
  else if is_fence_close line && in_code_block then (code_lines, false)
  else if in_code_block then ((code_lines ++ [line])%list, in_code_block)
  else (code_lines, in_code_block).

(** The body of the second loop, on the pair [(code_lines, in_code)]. *)
Definition import_step (st : list string * bool) (line : string)
  : list string * bool :=
  let (code_lines, in_code) := st in
  let in_code := if is_import_line line then true else in_code in
  if in_code then ((code_lines ++ [line])%list, in_code)
  else (code_lines, in_code).

(** [code_lines] after the first loop. *)
Definition fenced_code_lines (lines : list string) : list string :=
  fst (fold_left fence_step lines ([], false)).

(** [code_lines] after the second loop, entered with [code_lines] empty. *)
Definition import_code_lines (lines : list string) : list string :=
  fst (fold_left import_step lines ([], false)).

Definition _extract_code_from_response (response : string) : string :=
  let lines := response_lines response in
  let code_lines := fenced_code_lines lines in
  let code_lines :=
    match code_lines with
    | [] => import_code_lines lines
    | _ :: _ => code_lines
    end in
  let code_lines :=
    match code_lines with
    | [] => lines
    | _ :: _ => code_lines
    end in
  join nl code_lines.

(** *** save_scripts *)

Definition save_scripts (os : os_calls) (self : TestScriptGenerator)
    (output_path : string) : result unit :=
  let df := map script_row (test_scripts self) in
  to_excel os df output_path.

(** ** get_user_input (src/utils.py) *)

(** The [while True] loop over [input()]: [stdin] holds the lines still to be
    read, and running out of them is [EOFError]. *)
Fixpoint read_reply (stdin : list string) (lines : list string)
  : list string * list string :=
  match stdin with
  | [] => (lines, [])
  | line :: rest =>
      if negb (nonempty (strip line))
         && match lines with [] => false | _ :: _ => true end
         && negb (nonempty (strip (last lines EmptyString)))
      then (lines, rest)
      else read_reply rest (lines ++ [line])%list
  end.

(** Returns the lines printed, the text read and the input left over. *)
Definition get_user_input (prompt : string) (stdin : list string)
  : list string * string * list string :=
  let (lines, rest) := read_reply stdin [] in
  ([prompt], join nl lines, rest).

(** ** generate_test_cases *)

(** [s * n]. *)
Fixpoint str_mul (s : string) (n : nat) : string :=
  match n with
  | 0 => EmptyString
  | S n' => s ++ str_mul s n'
  end.

(** The template calls: [load_template] of src/utils.py, which prints and may
    raise, and [str.format] on the template with the three named fields. *)
Record template_calls : Type := {
  load_template : string -> list string * result string;
  format_template : string -> string -> string -> string -> result string
}.

Record generated : Type := {
  gen_printed : list string;
  gen_stdin : list string;
  gen_self : TestCaseGenerator;
  gen_result : result (list test_case)
}.

Definition test_case_prompt_template : string :=
  "templates/ai_prompts/test_case_prompt_template.txt".

Definition paste_prompt : string :=
  "Paste the AI's response here (press Enter twice to finish):" ++ nl.

Definition no_test_cases_warning : list string :=
  [nl ++ "Warning: No test cases were extracted from the AI response.";
   "Please check the AI response format or modify the processing logic."].

Definition generate_test_cases (tpl : template_calls) (self : TestCaseGenerator)
    (stdin : list string) : generated :=
  let stop out e :=
    {| gen_printed := out; gen_stdin := stdin; gen_self := self;
       gen_result := Raise e |} in
  if negb (elements_truthy (elements self)) then
    stop [] (ValueError
      "No elements data available. Please check the elements JSON file.")
  else
    match load_template tpl test_case_prompt_template with
    | (out0, Raise (FileNotFoundError _)) =>
        stop out0 (FileNotFoundError
          "Test case prompt template not found. Please check the templates directory.")
    | (out0, Raise e) => stop out0 e
    | (out0, Ok prompt_template) =>
        let elements_summary := _format_elements_for_prompt self in
        let '(site_name, site_url, out1) :=
          match el_metadata (elements self) with
          | Some meta =>
              match meta_title meta, meta_url meta with
              | Some title, Some url => (title, url, [])
              | _, _ =>
                  ("Unknown Website", "Unknown URL",
                   ["Warning: Website metadata missing from elements file."])
              end
          | None =>
              ("Unknown Website", "Unknown URL",
               ["Warning: Website metadata missing from elements file."])
          end in
        match format_template tpl prompt_template site_name site_url
                elements_summary with
        | Raise e => stop (out0 ++ out1)%list e
        | Ok prompt =>
            let out2 :=
              [nl ++ str_mul "=" 80;
               "STEP 2: GENERATING TEST CASES";
               str_mul "=" 80;
               nl ++ "Please provide the following prompt to your preferred GenAI tool (GPT-4, Claude, etc.):";
               nl ++ str_mul "-" 40 ++ " PROMPT START " ++ str_mul "-" 40;
               prompt;
               str_mul "-" 40 ++ " PROMPT END " ++ str_mul "-" 41 ++ nl] in
            let '(out3, ai_response, stdin') :=
              get_user_input paste_prompt stdin in
            match _process_ai_response self ai_response with
            | Raise e =>
                {| gen_printed := (out0 ++ out1 ++ out2 ++ out3)%list;
                   gen_stdin := stdin'; gen_self := self; gen_result := Raise e |}
            | Ok p =>
                let self' := self_after p in
                let out4 :=
                  match test_cases self' with
                  | [] => no_test_cases_warning
                  | _ :: _ =>
                      [nl ++ "Successfully generated "
                       ++ str_of_nat (List.length (test_cases self'))
                       ++ " test cases."]
                  end in
                {| gen_printed :=
                     (out0 ++ out1 ++ out2 ++ out3 ++ printed p ++ out4)%list;
                   gen_stdin := stdin'; gen_self := self';
                   gen_result := Ok (test_cases self') |}
            end
        end
    end.

(** ** generate_scripts *)

(** [test_case[key]] on a row of [self.test_cases], the records read from the
    workbook: the cells are text, and a column the workbook lacks is a
    [KeyError] whose text is the key in quotes. *)
Fixpoint getitem (r : row) (key : string) : result string :=
  match r with
  | [] => Raise (KeyError ("'" ++ key ++ "'"))
  | (k, v) :: r' => if (k =? key)%string then Ok v else getitem r' key
  end.

(** The template calls of the script generator: [load_template] of
    src/utils.py, which prints and may raise, and [str.format] on the template
    with the four named fields [test_id], [test_scenario], [steps] and
    [expected_result]. *)
Record script_template_calls : Type := {
  load_script_template : string -> list string * result string;
  format_script_template :
    string -> string -> string -> string -> string -> result string
}.

(** What a call has done when it returns or raises: the lines printed, the
    input left over, the generator, and the exception if one was raised. *)
Record scripting : Type := {
  scr_printed : list string;
  scr_stdin : list string;
  scr_self : TestScriptGenerator;
  scr_raised : option exn
}.

Definition test_script_prompt_template : string :=
  "ai_prompts/test_script_prompt_template.txt".

Definition script_paste_prompt (test_id : string) : string :=
  "Paste the AI's response for " ++ test_id
  ++ " (press Enter twice to finish):" ++ nl.

(** [self.test_scripts.append(script)]. *)
Definition append_script (self : TestScriptGenerator) (script : test_script)
  : TestScriptGenerator :=
  {| test_cases_path := test_cases_path self;
     loaded_test_cases := loaded_test_cases self;
     test_scripts := (test_scripts self ++ [script])%list |}.

(** The body of [for i, test_case in enumerate(self.test_cases, 1)], with
    [total] for [len(self.test_cases)]. *)
Definition script_for_row (tpl : script_template_calls) (prompt_template : string)
    (total : nat) (st : scripting) (entry : nat * row) : scripting :=
  let (i, test_case) := entry in
  let prepared :=
    test_id <- getitem test_case "Test Case ID" ;;
    test_scenario <- getitem test_case "Test Scenario" ;;
    steps <- getitem test_case "Steps to Execute" ;;
    expected_result <- getitem test_case "Expected Result" ;;
    prompt <- format_script_template tpl prompt_template test_id test_scenario
                steps expected_result ;;
    Ok (test_id, test_scenario, prompt) in
  match prepared with
  | Raise e =>
      {| scr_printed := scr_printed st; scr_stdin := scr_stdin st;
         scr_self := scr_self st; scr_raised := Some e |}
  | Ok (test_id, test_scenario, prompt) =>
      let out1 :=
        [nl ++ "Generating script for " ++ test_id ++ ": " ++ test_scenario
         ++ " (" ++ str_of_nat i ++ "/" ++ str_of_nat total ++ ")";
         nl ++ str_mul "-" 40 ++ " PROMPT START " ++ str_mul "-" 40;
         prompt;
         str_mul "-" 40 ++ " PROMPT END " ++ str_mul "-" 41 ++ nl] in
      let '(out2, ai_response, stdin') :=
        get_user_input (script_paste_prompt test_id) (scr_stdin st) in
      let script_code := _extract_code_from_response ai_response in
      {| scr_printed :=
           (scr_printed st ++ out1 ++ out2
            ++ [("Script for " ++ test_id ++ " generated successfully.")%string])%list;
         scr_stdin := stdin';
         scr_self :=
           append_script (scr_self st)
             {| ts_id := test_id; ts_scenario := test_scenario;
                ts_code := script_code |};
         scr_raised := None |}
  end.

(** A [for] loop that an exception leaves, with what was done before it. *)
Fixpoint script_loop (body : scripting -> nat * row -> scripting)
    (entries : list (nat * row)) (st : scripting) : scripting :=
  match entries with
  | [] => st
  | entry :: rest =>
      let st' := body st entry in
      match scr_raised st' with
      | Some _ => st'
      | None => script_loop body rest st'
      end
  end.

Definition generate_scripts (tpl : script_template_calls)
    (self : TestScriptGenerator) (stdin : list string) : scripting :=
  match load_script_template tpl test_script_prompt_template with
  | (out0, Raise e) =>
      {| scr_printed := out0; scr_stdin := stdin; scr_self := self;
         scr_raised := Some e |}
  | (out0, Ok prompt_template) =>
      let out1 :=
        [nl ++ str_mul "=" 80;
         "STEP 2: GENERATING SELENIUM SCRIPTS";
         str_mul "=" 80] in
      let st :=
        script_loop
          (script_for_row tpl prompt_template
             (List.length (loaded_test_cases self)))
          (enumerate 1 (loaded_test_cases self))
          {| scr_printed := (out0 ++ out1)%list; scr_stdin := stdin;
             scr_self := self; scr_raised := None |} in
      match scr_raised st with
      | Some _ => st
      | None =>
          {| scr_printed :=
               (scr_printed st
                ++ [(nl ++ "All "
                     ++ str_of_nat (List.length (test_scripts (scr_self st)))
                     ++ " scripts generated successfully.")%string])%list;
             scr_stdin := scr_stdin st; scr_self := scr_self st;
             scr_raised := None |}
      end
  end.

(** ** The template files (src/utils.py) *)

Module Utils.

(** The file system as the functions of src/utils.py meet it: which paths are
    directories, and the text files with their content.  A file is known
    under one spelling of its path; there are no links and no permissions. *)
Record file_system : Type := {
  is_dir : string -> bool;
  file_at : string -> option string
}.

(** [s.endswith(c)] for one character. *)
Fixpoint endswith_char (c : ascii) (s : string) : bool :=
  match s with
  | EmptyString => false
  | String a EmptyString => Ascii.eqb a c
  | String _ s' => endswith_char c s'
  end.

(** [os.path.join(a, b)] of posixpath. *)
Definition os_path_join (a b : string) : string :=
  if startswith "/" b then b
  else if negb (nonempty a) || endswith_char "/" a then a ++ b
  else a ++ "/" ++ b.

(** [p[:p.rfind('/') + 1]]. *)
Fixpoint head_of (p : string) : string :=
  match p with
  | EmptyString => EmptyString
  | String c p' =>
      if contains "/" (String c p') then String c (head_of p') else EmptyString
  end.

(** [s.rstrip('/')]. *)
Fixpoint rstrip_sep (s : string) : string :=
  match s with
  | EmptyString => EmptyString
  | String c s' =>
      match rstrip_sep s' with
      | EmptyString =>
          if Ascii.eqb c "/" then EmptyString else String c EmptyString
      | r => String c r
      end
  end.

(** [os.path.dirname(p)] of posixpath: the head up to the last slash, without
    its trailing slashes unless it consists of slashes. *)
Definition dirname (p : string) : string :=
  let head := head_of p in
  match rstrip_sep head with
  | EmptyString => head
  | stripped => stripped
  end.

Definition os_path_exists (fs : file_system) (path : string) : bool :=
  is_dir fs path
  || match file_at fs path with Some _ => true | None => false end.

(** The directory that holds [path] exists; the empty name is the working
    directory. *)
Definition parent_exists (fs : file_system) (path : string) : bool :=
  negb (nonempty (dirname path)) || is_dir fs (dirname path).

(** Above [path], the first name that exists is a regular file: the walk goes
    up from the directory that holds [path], and [fuel] bounds it by the
    length of the path. *)
Fixpoint below_a_file (fuel : nat) (fs : file_system) (path : string) : bool :=
  match fuel with
  | 0 => false
  | S fuel' =>
      let d := dirname path in
      if negb (nonempty d) || is_dir fs d then false
      else
        match file_at fs d with
        | Some _ => true
        | None =>
            if (d =? path)%string then false else below_a_file fuel' fs d
        end
  end.

(** The [OSError] of opening [path] when nothing can be opened there:
    [NotADirectoryError] below a regular file, [FileNotFoundError]
    otherwise. *)
Definition cannot_open (fs : file_system) (path : string) : exn :=
  if below_a_file (String.length path) fs path
  then OSError ("[Errno 20] Not a directory: '" ++ path ++ "'")
  else FileNotFoundError
         ("[Errno 2] No such file or directory: '" ++ path ++ "'").

(** [with open(path, 'r') as f: return f.read()]. *)
Definition open_read (fs : file_system) (path : string) : result string :=
  match file_at fs path with
  | Some text => Ok text
  | None =>
      if is_dir fs path
      then Raise (OSError ("[Errno 21] Is a directory: '" ++ path ++ "'"))
      else Raise (cannot_open fs path)
  end.

(** [with open(path, 'w') as f: f.write(text)]: the file is created in the
    directory that holds it, which must exist; a file already there is
    replaced. *)
Definition open_write (fs : file_system) (path text : string)
  : result file_system :=
  if is_dir fs path
  then Raise (OSError ("[Errno 21] Is a directory: '" ++ path ++ "'"))
  else if parent_exists fs path
  then Ok {| is_dir := is_dir fs;
             file_at := fun p =>
               if (p =? path)%string then Some text else file_at fs p |}
  else Raise (cannot_open fs path).

(** The double-quote character, which the templates contain. *)
Definition dquote : string := String (ascii_of_nat 34) EmptyString.

(** The text written to test_case_prompt_template.txt. *)
Definition default_test_case_prompt : string :=
  join nl
    [("I need to generate test cases for a website called " ++ dquote
      ++ "{site_name}" ++ dquote ++ " ({site_url}).")%string;
     "I've extracted the following UI elements from the site:";
     EmptyString;
     "{elements_summary}";
     EmptyString;
     ("Based on these elements, please generate 3-5 comprehensive test "
      ++ "cases that would effectively test the key functionality of this "
      ++ "website.")%string;
     EmptyString;
     "For each test case, provide:";
     "1. A Test Case ID and brief description";
     "2. Steps to execute (numbered)";
     "3. Expected results";
     EmptyString;
     ("Format each test case clearly, making sure each one tests a "
      ++ "specific functionality of the website.")%string;
     EmptyString].

(** The text written to test_script_prompt_template.txt. *)
Definition default_test_script_prompt : string :=
  join nl
    [("Please create a Python Selenium script for the following test "
      ++ "case:")%string;
     EmptyString;
     "Test Case ID: {test_id}";
     "Test Scenario: {test_scenario}";
     EmptyString;
     "Steps to Execute:";
     "{steps}";
     EmptyString;
     "Expected Result:";
     "{expected_result}";
     EmptyString;
     ("Generate a complete, executable Python script using Selenium "
      ++ "WebDriver that follows these steps exactly. Include proper "
      ++ "waits, assertions, and exception handling. The script should be "
      ++ "well-commented and follow best practices for Selenium "
      ++ "automation.")%string;
     EmptyString;
     "Please use the following imports and structure:";
     "```python";
     "from selenium import webdriver";
     "from selenium.webdriver.chrome.service import Service";
     "from selenium.webdriver.chrome.options import Options";
     "from selenium.webdriver.common.by import By";
     "from selenium.webdriver.support.ui import WebDriverWait";
     "from selenium.webdriver.support import expected_conditions as EC";
     "from selenium.common.exceptions import TimeoutException";
     "import unittest";
     "import time";
     EmptyString;
     "class TestCase(unittest.TestCase):";
     "    def setUp(self):";
     "        # Setup code here";
     "        pass";
     "        ";
     "    def tearDown(self):";
     "        # Cleanup code here";
     "        pass";
     "        ";
     "    def test_scenario(self):";
     "        # Test implementation here";
     "        pass";
     "        ";
     ("if __name__ == " ++ dquote ++ "__main__" ++ dquote ++ ":")%string;
     "    unittest.main()";
     "```";
     EmptyString].

(** [os.path.join(os.path.dirname(os.path.dirname(__file__)), 'templates')],
    with [project_root] for the directory two levels above src/utils.py. *)
Definition templates_dir (project_root : string) : string :=
  os_path_join project_root "templates".

Definition test_case_prompt_path (project_root : string) : string :=
  os_path_join (os_path_join (templates_dir project_root) "ai_prompts")
    "test_case_prompt_template.txt".

Definition test_script_prompt_path (project_root : string) : string :=
  os_path_join (os_path_join (templates_dir project_root) "ai_prompts")
    "test_script_prompt_template.txt".

(** [if not os.path.exists(path): with open(path, 'w') ...: f.write(text)]. *)
Definition write_if_missing (fs : file_system) (path text : string)
  : result file_system :=
  if negb (os_path_exists fs path) then open_write fs path text else Ok fs.

(** Returns the file system it leaves and whether it raised. *)
Definition create_default_templates (project_root : string) (fs : file_system)
  : file_system * result unit :=
  match write_if_missing fs (test_case_prompt_path project_root)
          default_test_case_prompt with
  | Raise e => (fs, Raise e)
  | Ok fs1 =>
      match write_if_missing fs1 (test_script_prompt_path project_root)
              default_test_script_prompt with
      | Raise e => (fs1, Raise e)
      | Ok fs2 => (fs2, Ok tt)
      end
  end.

(** Returns the lines printed, the file system it leaves and the content or
    the exception. *)
Definition load_template (project_root : string) (fs : file_system)
    (template_name : string) : list string * file_system * result string :=
  let template_path := os_path_join (templates_dir project_root) template_name in
  match open_read fs template_path with
  | Raise (FileNotFoundError _) =>
      let out :=
        ["Template file not found: " ++ template_path;
         "Creating default templates..."] in
      match create_default_templates project_root fs with
      | (fs', Raise e) => (out, fs', Raise e)
      | (fs', Ok _) => (out, fs', open_read fs' template_path)
      end
  | r => ([], fs, r)
  end.

End Utils.

(** The template calls of [generate_test_cases] on a file system. *)
Definition template_calls_on (project_root : string) (fs : Utils.file_system)
    (format : string -> string -> string -> string -> result string)
  : template_calls :=
  {| load_template := fun template_name =>
       let '(out, _, r) := Utils.load_template project_root fs template_name in
       (out, r);
     format_template := format |}.

(** The template calls of [generate_scripts] on a file system. *)
Definition script_template_calls_on (project_root : string)
    (fs : Utils.file_system)
    (format : string -> string -> string -> string -> string -> result string)
  : script_template_calls :=
  {| load_script_template := fun template_name =>
       let '(out, _, r) := Utils.load_template project_root fs template_name in
       (out, r);
     format_script_template := format |}.

(** ** main (main.py), the task generate_tests *)

(** The three statements of [main] that follow the construction of the
    generator: [generate_test_cases()], [save_test_cases(test_cases_path)],
    whose value is not used, and the final [print].  Returns the lines printed
    and whether an exception left the task. *)
Definition main_generate_tests (tpl : template_calls) (os : os_calls)
    (test_generator : TestCaseGenerator) (stdin : list string)
    (test_cases_path : string) : list string * result unit :=
  let g := generate_test_cases tpl test_generator stdin in
  match gen_result g with
  | Raise e => (gen_printed g, Raise e)
  | Ok _ =>
      match save_test_cases os (gen_self g) test_cases_path with
      | (out, Raise e) => ((gen_printed g ++ out)%list, Raise e)
      | (out, Ok _) =>
          ((gen_printed g ++ out
            ++ [("Test cases saved to " ++ test_cases_path)%string])%list,
           Ok tt)
      end
  end.

(** ** Vocabulary of the statements *)

(** *** The parser *)

(** Every character of [s] is whitespace (so is the empty string). *)
Fixpoint all_whitespace (s : string) : bool :=
  match s with
  | EmptyString => true
  | String c s' => isspace c && all_whitespace s'
  end.

(** The header lines among [lines], as the loop sees them: stripped. *)
Definition header_lines (lines : list string) : list string :=
  filter is_header (map strip lines).

(** [tc] carries the two halves of the header [line]: its ID is the text
    before the first colon and its scenario the text after it, both without
    surrounding whitespace. *)
Definition header_of (line : string) (tc : test_case) : Prop :=
  exists before after,
    line = before ++ ":" ++ after
    /\ contains ":" before = false
    /\ tc_id tc = strip before
    /\ tc_scenario tc = strip after.

(** The steps numbered from 1 by position: ["1. s1\n2. s2\n..."], stripped. *)
Definition numbered_line (entry : nat * string) : string :=
  str_of_nat (fst entry) ++ ". " ++ snd entry ++ nl.

Definition numbered_from_1 (steps : list string) : string :=
  strip (String.concat EmptyString
           (map numbered_line (combine (seq 1 (List.length steps)) steps))).

(** The cell of a column in a row. *)
Fixpoint cell (column : string) (r : row) : option string :=
  match r with
  | [] => None
  | (k, v) :: r' => if (k =? column)%string then Some v else cell column r'
  end.

Definition no_elements : elements_record :=
  {| el_metadata := None; el_buttons := None; el_links := None;
     el_inputs := None; el_forms := None; el_other_keys := [] |}.

(** A generator as [__init__] leaves it. *)
Definition new_generator (path : string) (e : elements_record) : TestCaseGenerator :=
  {| elements_json_path := path; elements := e; test_cases := [] |}.

(** The record of the worked example. *)
Definition login_case : test_case :=
  {| tc_id := "Test Case 1"; tc_scenario := "Login";
     tc_steps := ["Open page"; "Enter credentials"];
     tc_expected := "User is logged in" |}.

(** The reply of the worked example. *)
Definition login_reply : string :=
  "Test Case 1: Login" ++ nl ++ "Steps to Execute" ++ nl ++ "1. Open page" ++ nl
  ++ "2. Enter credentials" ++ nl ++ "Expected Result" ++ nl ++ "User is logged in".

(** The loop state with another [self.test_cases]. *)
Definition rebase (st : loop_state) (base : list test_case) : loop_state :=
  {| current_test_case := current_test_case st;
     section := section st;
     self_test_cases := base |}.

(** The ID and the scenario of a record. *)
Definition ids (tc : test_case) : string * string := (tc_id tc, tc_scenario tc).

(** The records a reply parses to on a generator that holds none yet. *)
Definition records_of (response : string) : list test_case :=
  match _process_ai_response (new_generator EmptyString no_elements) response with
  | Ok p => test_cases (self_after p)
  | Raise _ => []
  end.

(** The loop state when the loop starts. *)
Definition loop_start (self : TestCaseGenerator) : loop_state :=
  {| current_test_case := None; section := None;
     self_test_cases := test_cases self |}.

(** The loop state just after a header line opened a record. *)
Definition opened (header : string) (saved : list test_case) : loop_state :=
  {| current_test_case := Some (open_test_case header); section := None;
     self_test_cases := saved |}.

(** The steps branch as the spec words it: a line is a new step exactly when
    it starts with digits immediately followed by [". "], and the new step is
    the line without that prefix; any other line continues the last step, or
    is the first step. *)
Fixpoint skip_digits (s : string) : string :=
  match s with
  | EmptyString => EmptyString
  | String c s' => if isdigit c then skip_digits s' else s
  end.

Definition numbered_step_text (line : string) : option string :=
  match line with
  | EmptyString => None
  | String c _ =>
      if isdigit c && startswith ". " (skip_digits line)
      then Some (slice_from 2 (skip_digits line))
      else None
  end.

Definition add_step_line_as_specified (steps : list string) (line : string)
  : list string :=
  match numbered_step_text line with
  | Some text => (steps ++ [text])%list
  | None =>
      match steps with
      | [] => [line]
      | _ :: _ => append_to_last steps (" " ++ line)
      end
  end.

(** A reply whose second step line starts with a digit and has [". "] only
    further on. *)
Definition fruit_reply : string :=
  "Test Case 1: Fruit" ++ nl ++ "Steps" ++ nl ++ "1. Open the basket" ++ nl
  ++ "2 apples remain. Count them" ++ nl ++ "Expected" ++ nl ++ "Two apples".

(** No line feed inside a line. *)
Fixpoint one_line (l : string) : bool :=
  match l with
  | EmptyString => true
  | String c l' => negb (Ascii.eqb c LF) && one_line l'
  end.

(** A text without surrounding whitespace and without a line feed, not empty. *)
Definition plain (s : string) : Prop :=
  nonempty s = true /\ lstrip s = s /\ rstrip s = s /\ one_line s = true.

Fixpoint all_digits (s : string) : bool :=
  match s with
  | EmptyString => true
  | String c s' => isdigit c && all_digits s'
  end.

(** A test case as a well-formed reply writes it. *)
Record case_text : Type := {
  ct_number : string;
  ct_scenario : string;
  ct_steps : list (string * string);
  ct_expected : string
}.

Definition step_line (step : string * string) : string :=
  fst step ++ ". " ++ snd step.

Definition render_case (c : case_text) : list string :=
  ("Test Case " ++ ct_number c ++ ": " ++ ct_scenario c)
  :: "Steps to Execute"
  :: (map step_line (ct_steps c) ++ ["Expected Result"; ct_expected c])%list.

Definition render_reply (cs : list case_text) : string :=
  join nl (flat_map render_case cs).

Definition well_formed_step (step : string * string) : Prop :=
  nonempty (fst step) = true /\ all_digits (fst step) = true /\ plain (snd step).

Definition well_formed_case (c : case_text) : Prop :=
  plain (ct_number c)
  /\ contains ":" (ct_number c) = false
  /\ plain (ct_scenario c)
  /\ Forall well_formed_step (ct_steps c)
  /\ plain (ct_expected c)
  /\ is_header (ct_expected c) = false
  /\ is_steps_heading (ct_expected c) = false
  /\ is_expected_heading (ct_expected c) = false.

Definition record_of_case (c : case_text) : test_case :=
  {| tc_id := "Test Case " ++ ct_number c;
     tc_scenario := ct_scenario c;
     tc_steps := map snd (ct_steps c);
     tc_expected := ct_expected c |}.

(** A text that [rstrip] leaves alone and that is not empty. *)
Definition ends_well (s : string) : Prop := nonempty s = true /\ rstrip s = s.

(** The worked example with other numbers on its step lines. *)
Definition renumbered_login : case_text :=
  {| ct_number := "1"; ct_scenario := "Login";
     ct_steps := [("5", "Open page"); ("9", "Enter credentials")];
     ct_expected := "User is logged in" |}.

(** *** The extractor *)

(** A python-fenced block inside a reply: the lines before it that open no
    block, its opening marker, the lines it wraps, its closing marker. *)
Record fenced_block : Type := {
  fb_before : list string;
  fb_open : string;
  fb_body : list string;
  fb_close : string
}.

Definition block_lines (b : fenced_block) : list string :=
  (fb_before b ++ fb_open b :: fb_body b ++ [fb_close b])%list.

Definition well_fenced (b : fenced_block) : Prop :=
  (forall l, In l (fb_before b) -> is_fence_open l = false)
  /\ is_fence_open (fb_open b) = true
  /\ (forall l, In l (fb_body b) -> is_fence_open l = false /\ is_fence_close l = false)
  /\ is_fence_close (fb_close b) = true.

(** A reply with two python-fenced blocks, both empty, and text between them. *)
Definition empty_blocks_reply : string :=
  "```python" ++ nl ++ "```" ++ nl ++ "x" ++ nl ++ "```python" ++ nl ++ "```".

(** A reply whose open block holds a second opening marker. *)
Definition reopened_reply : string :=
  "```python" ++ nl ++ "a" ++ nl ++ "```python" ++ nl ++ "b".

(** A reply without fences or imports, as [get_user_input] returns it: the
    text ends with the line feed before the closing blank line. *)
Definition plain_reply : string := "x = 1" ++ nl.

(** A reply that wraps two lines of code in one python-fenced block, as
    [get_user_input] returns it: the text ends with a line feed. *)
Definition fenced_reply : string :=
  "Here is the script:" ++ nl ++ "```python" ++ nl ++ "import time" ++ nl
  ++ "  time.sleep(1)" ++ nl ++ "```" ++ nl ++ "Done." ++ nl.

(** A reply whose block is never closed, after one closed block. *)
Definition unclosed_reply : string :=
  "```python" ++ nl ++ "a = 1" ++ nl ++ "```" ++ nl ++ "then" ++ nl
  ++ "```python" ++ nl ++ "b = 2" ++ nl ++ "c = 3".

(** The two blocks of [empty_blocks_reply]. *)
Definition empty_block : fenced_block :=
  {| fb_before := []; fb_open := "```python"; fb_body := []; fb_close := "```" |}.

Definition empty_block_after_x : fenced_block :=
  {| fb_before := ["x"]; fb_open := "```python"; fb_body := [];
     fb_close := "```" |}.

(** The closed block of [unclosed_reply]. *)
Definition first_block : fenced_block :=
  {| fb_before := []; fb_open := "```python"; fb_body := ["a = 1"];
     fb_close := "```" |}.

(** *** The digest *)

(** The categories of the digest, their header lines and their sequences. *)
Inductive category : Type :=
| Buttons | Links | Inputs | Forms | Headers | Navigation.

Definition category_header (c : category) : string :=
  match c with
  | Buttons => "BUTTONS:"
  | Links => nl ++ "LINKS:"
  | Inputs => nl ++ "INPUT FIELDS:"
  | Forms => nl ++ "FORMS:"
  | Headers => nl ++ "PAGE HEADERS:"
  | Navigation => nl ++ "NAVIGATION MENUS:"
  end.

Definition page_structure_of (e : elements_record) : option page_structure_el :=
  match el_metadata e with
  | Some meta => meta_page_structure meta
  | None => None
  end.

(** The category's sequence is present and holds at least one entry. *)
Definition category_nonempty (e : elements_record) (c : category) : bool :=
  match c with
  | Buttons => present_nonempty (el_buttons e)
  | Links => present_nonempty (el_links e)
  | Inputs => present_nonempty (el_inputs e)
  | Forms => present_nonempty (el_forms e)
  | Headers =>
      match page_structure_of e with
      | Some ps => present_nonempty (ps_headers ps)
      | None => false
      end
  | Navigation =>
      match page_structure_of e with
      | Some ps => present_nonempty (ps_navigation ps)
      | None => false
      end
  end.


(** A navigation menu with six items, and a record that holds only it. *)
Definition nav_item_named (text : string) : nav_item_el :=
  {| nav_item_text := Some text; nav_item_href := Some ("/" ++ text) |}.

Definition six_item_nav : nav_el :=
  {| nav_id := Some "main";
     nav_items := Some (map nav_item_named ["a"; "b"; "c"; "d"; "e"; "f"]) |}.

Definition six_item_record : elements_record :=
  {| el_metadata :=
       Some {| meta_description := None; meta_title := Some "Shop";
               meta_url := Some "https://shop.example";
               meta_page_structure :=
                 Some {| ps_headers := Some []; ps_navigation := Some [six_item_nav] |} |};
     el_buttons := Some []; el_links := None; el_inputs := None; el_forms := None;
     el_other_keys := [] |}.

(** A digest line that starts with two spaces, as every line of an entry does. *)
Definition indented (x : string) : Prop := startswith "  " x = true.


(** *** The save paths and the console *)

(** Operating-system calls on a disk that is full: directories exist, every
    spreadsheet write raises [OSError]. *)
Definition full_disk : os_calls :=
  {| os_path_abspath := fun path => "/work/" ++ path;
     os_path_dirname := fun _ => "/work/output";
     os_makedirs := fun _ => Ok tt;
     to_excel := fun _ _ => Raise (OSError "No space left on device") |}.

(** A generator that holds the record of the worked example. *)
Definition login_generator : TestCaseGenerator :=
  {| elements_json_path := "output/elements.json"; elements := six_item_record;
     test_cases := [login_case] |}.

Definition login_scripts : TestScriptGenerator :=
  {| test_cases_path := "output/test_cases.xlsx";
     loaded_test_cases := [processed_case login_case];
     test_scripts :=
       [{| ts_id := "Test Case 1"; ts_scenario := "Login";
           ts_code := "import time" |}] |}.

(** Template calls that succeed: the template is the digest placeholder and
    formatting fills it in. *)
Definition plain_templates : template_calls :=
  {| load_template := fun _ => ([], Ok "{elements_summary}");
     format_template := fun _ _ _ summary => Ok summary |}.

(** An operator who pastes one blank line and ends the input. *)
Definition blank_stdin : list string := [" "; EmptyString].

(** *** Lines before and after [response.strip()] *)

(** The lines the loop acts on: stripped, blank ones left out. *)
Definition nonblank_lines (lines : list string) : list string :=
  filter nonempty (map strip lines).

(** Every line of [ls'] has the stripped text of some line of [ls]. *)
Definition strips_within (ls' ls : list string) : Prop :=
  forall a', In a' ls' -> exists a, In a ls /\ strip a' = strip a.

(** *** The store *)

(** The values behind the references. *)
Definition values (st : ref_state) : loop_state :=
  {| current_test_case := option_map (object_at (objects st)) (current_ref st);
     section := section_ref st;
     self_test_cases := map (object_at (objects st)) (self_refs st) |}.

(** Every reference in use was handed out, and the open record is not yet in
    [self.test_cases]. *)
Definition refs_ok (st : ref_state) : Prop :=
  (forall r, In r (self_refs st) -> r < next_ref (objects st))
  /\ (forall r, current_ref st = Some r ->
        r < next_ref (objects st) /\ ~ In r (self_refs st)).

(** A store in which no object has been created. *)
Definition empty_store : store :=
  {| object_at := fun _ => login_case; next_ref := 0 |}.

(** *** Selections of lines *)

(** [sub] keeps some of the elements of [l], in the order they have in [l]. *)
Inductive kept_in_order {A : Type} : list A -> list A -> Prop :=
| kept_nil : kept_in_order [] []
| kept_skip (x : A) (sub l : list A) :
    kept_in_order sub l -> kept_in_order sub (x :: l)
| kept_take (x : A) (sub l : list A) :
    kept_in_order sub l -> kept_in_order (x :: sub) (x :: l).

(** A reply without fences whose code starts at an import line. *)
Definition import_reply : string :=
  "Sure, here it is:" ++ nl ++ "from selenium import webdriver" ++ nl
  ++ "driver = webdriver.Chrome()" ++ nl ++ "Good luck!".

(** *** The lines typed at the console *)

(** [not line.strip()]. *)
Definition blank (line : string) : bool := negb (nonempty (strip line)).

(** No blank line directly follows a blank line. *)
Fixpoint no_blank_pair (lines : list string) : bool :=
  match lines with
  | [] => true
  | a :: rest =>
      match rest with
      | [] => true
      | b :: _ => negb (blank a && blank b) && no_blank_pair rest
      end
  end.

(** Two functions pasted with the two blank lines between them that the
    Python style guide asks for. *)
Definition two_functions_pasted : list string :=
  ["def f():"; "    pass"; EmptyString; EmptyString; "def g():"; "    pass"].

(** *** What the records depend on *)

(** The records of a reply, from its lines. *)
Definition records_of_lines (lines : list string) : list test_case :=
  match for_each process_line lines
          (loop_start (new_generator EmptyString no_elements)) with
  | Ok st => flush st
  | Raise _ => []
  end.

(** Two loop states that go on to the same records: the same
    [self.test_cases] and the same open record, and the same section unless
    no record is open. *)
Definition same_records (st st' : loop_state) : Prop :=
  current_test_case st = current_test_case st'
  /\ self_test_cases st = self_test_cases st'
  /\ (current_test_case st = None \/ section st = section st').

(** The worked example with a preamble, a note under the header, indentation
    and blank lines. *)
Definition chatty_login_reply : string :=
  "Here are your test cases:" ++ nl ++ "Steps" ++ nl ++ nl
  ++ "  Test Case 1: Login" ++ nl ++ "Priority: high" ++ nl
  ++ "Steps to Execute" ++ nl ++ "   1. Open page" ++ nl ++ nl
  ++ "   2. Enter credentials" ++ nl ++ "Expected Result" ++ nl
  ++ "User is logged in" ++ nl.

(** The same reply without the preamble. *)
Definition noted_login_reply : string :=
  "  Test Case 1: Login" ++ nl ++ "Priority: high" ++ nl
  ++ "Steps to Execute" ++ nl ++ "   1. Open page" ++ nl ++ nl
  ++ "   2. Enter credentials" ++ nl ++ "Expected Result" ++ nl
  ++ "User is logged in" ++ nl.

(** The same reply without the note either. *)
Definition spaced_login_reply : string :=
  "  Test Case 1: Login" ++ nl
  ++ "Steps to Execute" ++ nl ++ "   1. Open page" ++ nl ++ nl
  ++ "   2. Enter credentials" ++ nl ++ "Expected Result" ++ nl
  ++ "User is logged in" ++ nl.

(** *** The skeleton of the digest *)

(** The categories in the order of the method's blocks. *)
Definition all_categories : list category :=
  [Buttons; Links; Inputs; Forms; Headers; Navigation].

(** The lines of the digest that do not start with two spaces. *)
Definition unindented_lines (lines : list string) : list string :=
  filter (fun x => negb (startswith "  " x)) lines.

(** *** The replies pasted for the scripts *)

(** One reply as the operator types it: the lines that make up the text, and
    the line that ends the input. *)
Record paste : Type := {
  typed : list string;
  sentinel : string
}.

(** The text ends with a blank line, holds no other blank line after a blank
    line, and the line typed after it is blank. *)
Definition well_ended (p : paste) : Prop :=
  no_blank_pair (typed p) = true
  /\ typed p <> []
  /\ blank (last (typed p) EmptyString) = true
  /\ blank (sentinel p) = true.

Definition keystrokes (p : paste) : list string :=
  (typed p ++ [sentinel p])%list.

(** The columns [generate_scripts] reads, in the order it reads them. *)
Definition script_columns : list string :=
  ["Test Case ID"; "Test Scenario"; "Steps to Execute"; "Expected Result"].

Definition has_script_columns (r : row) : Prop :=
  forall c, In c script_columns -> cell c r <> None.

(** The script of a row and of the reply pasted for it. *)
Definition script_of (entry : row * paste) : test_script :=
  {| ts_id := get_or (cell "Test Case ID" (fst entry)) EmptyString;
     ts_scenario := get_or (cell "Test Scenario" (fst entry)) EmptyString;
     ts_code := _extract_code_from_response (join nl (typed (snd entry))) |}.

(** Template calls that succeed: formatting returns the steps. *)
Definition plain_script_templates : script_template_calls :=
  {| load_script_template := fun _ => ([], Ok "{steps}");
     format_script_template := fun _ _ _ steps _ => Ok steps |}.

(** A generator that has loaded two rows and holds no script yet. *)
Definition logout_row : row :=
  [("Test Case ID", "Test Case 2"); ("Test Scenario", "Logout");
   ("Steps to Execute", "1. Click logout"); ("Expected Result", "Login page")].

Definition two_row_scripts : TestScriptGenerator :=
  {| test_cases_path := "output/test_cases.xlsx";
     loaded_test_cases := [processed_case login_case; logout_row];
     test_scripts := [] |}.

(** The replies pasted for the two rows. *)
Definition login_paste : paste :=
  {| typed := ["```python"; "import time"; "```"; EmptyString];
     sentinel := EmptyString |}.

Definition logout_paste : paste :=
  {| typed := ["x = 1"; EmptyString]; sentinel := " " |}.

(** A workbook whose second row lacks the steps column. *)
Definition short_row : row :=
  [("Test Case ID", "Test Case 2"); ("Test Scenario", "Logout")].

Definition short_row_scripts : TestScriptGenerator :=
  {| test_cases_path := "output/test_cases.xlsx";
     loaded_test_cases := [processed_case login_case; short_row];
     test_scripts := [] |}.

(** *** The paths of the templates *)

(** The directory [create_default_templates] writes to. *)
Definition ai_prompts_dir (project_root : string) : string :=
  Utils.os_path_join (Utils.templates_dir project_root) "ai_prompts".

(** The path [load_template] opens for the name [generate_test_cases] gives
    it. *)
Definition requested_test_case_prompt_path (project_root : string) : string :=
  Utils.os_path_join (Utils.templates_dir project_root)
    test_case_prompt_template.

(** A project in /srv/app whose templates directory holds an empty ai_prompts
    directory, and the same project with both default templates. *)
Definition no_templates_yet : Utils.file_system :=
  {| Utils.is_dir := fun p =>
       (p =? "/srv/app")%string || (p =? "/srv/app/templates")%string
       || (p =? "/srv/app/templates/ai_prompts")%string;
     Utils.file_at := fun _ => None |}.

Definition default_templates_in_place : Utils.file_system :=
  {| Utils.is_dir := Utils.is_dir no_templates_yet;
     Utils.file_at := fun p =>
       if (p =? Utils.test_case_prompt_path "/srv/app")%string
       then Some Utils.default_test_case_prompt
       else if (p =? Utils.test_script_prompt_path "/srv/app")%string
       then Some Utils.default_test_script_prompt
       else None |}.

(** The same project with a regular file named templates. *)
Definition templates_is_a_file : Utils.file_system :=
  {| Utils.is_dir := fun p => (p =? "/srv/app")%string;
     Utils.file_at := fun p =>
       if (p =? "/srv/app/templates")%string then Some "notes" else None |}.

(** The same project with an empty templates directory. *)
Definition empty_templates_directory : Utils.file_system :=
  {| Utils.is_dir := fun p =>
       (p =? "/srv/app")%string || (p =? "/srv/app/templates")%string;
     Utils.file_at := fun _ => None |}.

(** The exceptions of the file system are [FileNotFoundError] and other
    [OSError]s. *)
Definition file_error (e : exn) : Prop :=
  (exists msg, e = FileNotFoundError msg) \/ (exists msg, e = OSError msg).

(** *** Headings and expected results *)

(** A reply whose expected result stands on the heading line. *)
Definition inline_login_reply : string :=
  "Test Case 1: Login" ++ nl ++ "Expected Result: User is logged in".

(** A reply whose expected result runs over three lines. *)
Definition long_expected_reply : string :=
  "Test Case 1: Login" ++ nl ++ "Expected Result:" ++ nl
  ++ "  User is logged in" ++ nl ++ nl ++ "and sees the dashboard  " ++ nl
  ++ "within 2 seconds".

(** *** The task generate_tests *)

(** An operator who pastes a reply without a header line. *)
Definition no_header_stdin : list string :=
  ["I could not find any test cases."; EmptyString; EmptyString].

(** A navigation menu with five items. *)
Definition five_item_nav : nav_el :=
  {| nav_id := Some "main";
     nav_items := Some (map nav_item_named ["a"; "b"; "c"; "d"; "e"]) |}.

(** *** Scripts at the end of the input *)

(** The script of a row for which the input had ended. *)
Definition empty_script_of (r : row) : test_script :=
  {| ts_id := get_or (cell "Test Case ID" r) EmptyString;
     ts_scenario := get_or (cell "Test Scenario" r) EmptyString;
     ts_code := EmptyString |}.

(** *** The digest as text *)

(** The lines that [entries] take in the text that joins them by line feeds. *)
Definition lines_of (entries : list string) : list string :=
  flat_map (split LF) entries.

(** The header of a category as a line of the digest, without the line feed
    that the entry of every header but the first begins with. *)
Definition header_line (c : category) : string :=
  match c with
  | Buttons => "BUTTONS:"
  | Links => "LINKS:"
  | Inputs => "INPUT FIELDS:"
  | Forms => "FORMS:"
  | Headers => "PAGE HEADERS:"
  | Navigation => "NAVIGATION MENUS:"
  end.

(** A text field that holds no line feed; an absent field holds none. *)
Definition one_line_field (field : option string) : bool :=
  match field with
  | Some s => one_line s
  | None => true
  end.

(** No text of the Element Record holds a line feed. *)
Definition single_line_button (b : button_el) : bool :=
  one_line_field (button_text b) && one_line_field (button_element_type b)
  && one_line_field (button_id b) && one_line_field (button_class b).

Definition single_line_link (l : link_el) : bool :=
  one_line_field (link_text l) && one_line_field (link_href l)
  && one_line_field (link_target l).

Definition single_line_input (f : input_el) : bool :=
  one_line_field (input_type f) && one_line_field (input_name f)
  && one_line_field (input_placeholder f) && one_line_field (input_rows f)
  && forallb (fun opt => one_line_field (option_text opt))
       (get_or (input_options f) []).

Definition single_line_form_input (f : form_input_el) : bool :=
  one_line_field (form_input_element_type f)
  && one_line_field (form_input_type f) && one_line_field (form_input_name f).

Definition single_line_form (f : form_el) : bool :=
  one_line_field (form_id f) && one_line_field (form_method f)
  && one_line_field (form_action f)
  && forallb single_line_form_input (get_or (form_inputs f) []).

Definition single_line_header (h : header_el) : bool :=
  one_line_field (header_level h) && one_line_field (header_text h).

Definition single_line_nav_item (item : nav_item_el) : bool :=
  one_line_field (nav_item_text item) && one_line_field (nav_item_href item).

Definition single_line_nav (nav : nav_el) : bool :=
  one_line_field (nav_id nav)
  && forallb single_line_nav_item (get_or (nav_items nav) []).

Definition single_line_page_structure (ps : page_structure_el) : bool :=
  forallb single_line_header (get_or (ps_headers ps) [])
  && forallb single_line_nav (get_or (ps_navigation ps) []).

Definition single_line_record (e : elements_record) : bool :=
  match el_metadata e with
  | Some meta =>
      one_line_field (meta_description meta)
      && match meta_page_structure meta with
         | Some ps => single_line_page_structure ps
         | None => true
         end
  | None => true
  end
  && forallb single_line_button (get_or (el_buttons e) [])
  && forallb single_line_link (get_or (el_links e) [])
  && forallb single_line_input (get_or (el_inputs e) [])
  && forallb single_line_form (get_or (el_forms e) []).

(** What an entry of [formatted_elements] is when no text of the record holds
    a line feed: the header of a category that is not empty, one indented
    line, or the site description followed by a line feed. *)
Definition digest_entry (e : elements_record) (x : string) : Prop :=
  (exists c, x = category_header c /\ category_nonempty e c = true)
  \/ (indented x /\ one_line x = true)
  \/ (exists d, x = "SITE DESCRIPTION: " ++ d ++ nl /\ one_line d = true).


(** A record without buttons whose site description holds a line feed followed
    by the text of a header. *)
Definition described_record : elements_record :=
  {| el_metadata :=
       Some {| meta_description := Some ("Shop" ++ nl ++ "BUTTONS:");
               meta_title := Some "Shop"; meta_url := Some "https://shop.example";
               meta_page_structure := None |};
     el_buttons := Some []; el_links := None; el_inputs := None; el_forms := None;
     el_other_keys := [] |}.

(** *** The workbook of the test cases *)

(** The row a record is saved as, in the words of the spec: its steps are
    numbered 1..len(steps) by position. *)
Definition numbered_row (tc : test_case) : row :=
  [("Test Case ID", tc_id tc);
   ("Test Scenario", tc_scenario tc);
   ("Steps to Execute", numbered_from_1 (tc_steps tc));
   ("Expected Result", tc_expected tc)].

Definition table_eq_dec (t t' : table) : {t = t'} + {t <> t'} :=
  list_eq_dec
    (list_eq_dec
       (fun (a b : string * string) =>
          match string_dec (fst a) (fst b), string_dec (snd a) (snd b) with
          | left Hk, left Hv =>
              left (eq_trans (surjective_pairing a)
                      (eq_trans (f_equal2 pair Hk Hv)
                         (eq_sym (surjective_pairing b))))
          | right Hk, _ => right (fun H => Hk (f_equal fst H))
          | _, right Hv => right (fun H => Hv (f_equal snd H))
          end))
    t t'.

(** Operating-system calls that write a workbook only when it is the table
    [expected]. *)
Definition accepts_only (expected : table) : os_calls :=
  {| os_path_abspath := fun path => "/work/" ++ path;
     os_path_dirname := fun _ => "/work/output";
     os_makedirs := fun _ => Ok tt;
     to_excel := fun t _ =>
       if table_eq_dec t expected then Ok tt
       else Raise (OSError "not the table that was expected") |}.

(** The generator after it parsed the worked example written with other
    numbers on its step lines. *)
Definition renumbered_generator : TestCaseGenerator :=
  {| elements_json_path := "output/elements.json"; elements := six_item_record;
     test_cases := records_of (render_reply [renumbered_login]) |}.

(** *** The outline of the returned digest *)

(** The lines that stand out in a text: not empty and not indented. *)
Definition outline (lines : list string) : list string :=
  filter (fun l => nonempty l && negb (startswith "  " l)) lines.

(** The line of the site description, when the record has one. *)
Definition description_line (e : elements_record) : list string :=
  match el_metadata e with
  | Some meta =>
      match meta_description meta with
      | Some d => ["SITE DESCRIPTION: " ++ d]
      | None => []
      end
  | None => []
  end.

(** A record that holds one select element with two options and one
    navigation menu with five items. *)
Definition two_option_select : input_el :=
  {| input_element_type := Some "select"; input_type := None;
     input_name := Some "size"; input_placeholder := None;
     input_required := None; input_rows := None;
     input_options :=
       Some [{| option_text := Some "S" |}; {| option_text := Some "M" |}] |}.

Definition small_record : elements_record :=
  {| el_metadata :=
       Some {| meta_description := None; meta_title := Some "Shop";
               meta_url := Some "https://shop.example";
               meta_page_structure :=
                 Some {| ps_headers := None;
                         ps_navigation := Some [five_item_nav] |} |};
     el_buttons := None; el_links := None;
     el_inputs := Some [two_option_select]; el_forms := None;
     el_other_keys := [] |}.

(** * Properties *)

(** ** Tactics *)

(** Membership in a list that is written out, one element at a time. *)
Ltac each_in H :=
  repeat (destruct H as [<-|H]); try (destruct H).

(** A branch of the loop body that appends nothing to [self.test_cases]. *)
Ltac appends_nothing :=
  intros [= <-]; exists []; cbn; split; [now rewrite app_nil_r|];
  intros base; now rewrite app_nil_r.

(** A closed fact about strings, by evaluation. *)
Ltac by_evaluation := vm_compute; reflexivity.

(** ** Strings *)

Lemma split_not_nil (sep : ascii) (s : string) : split sep s <> [].
Proof.
  destruct s as [|c s']; simpl; [discriminate|].
  destruct (Ascii.eqb c sep); [discriminate|].
  destruct (split sep s'); discriminate.
Qed.

Lemma join_split (sep : ascii) (s : string) :
  join (String sep EmptyString) (split sep s) = s.
Proof.
  unfold join. induction s as [|c s' IH]; simpl; [reflexivity|].
  destruct (Ascii.eqb_spec c sep) as [->|Hne].
  - pose proof (split_not_nil sep s') as Hnil.
    destruct (split sep s') as [|l ls]; [contradiction|].
    simpl in *. now rewrite IH.
  - pose proof (split_not_nil sep s') as Hnil.
    destruct (split sep s') as [|l ls]; [contradiction|].
    destruct ls as [|l' ls']; simpl in *; now rewrite <- IH.
Qed.

Lemma rstrip_all_whitespace (s : string) :
  all_whitespace s = true -> rstrip s = EmptyString.
Proof.
  induction s as [|c s' IH]; simpl; [reflexivity|].
  intros H. apply andb_true_iff in H as [Hc Hs].
  now rewrite (IH Hs), Hc.
Qed.

Lemma strip_all_whitespace (s : string) :
  all_whitespace s = true -> strip s = EmptyString.
Proof.
  intros H. unfold strip. now rewrite rstrip_all_whitespace.
Qed.

Lemma isspace_LF : isspace LF = true.
Proof. reflexivity. Qed.

Lemma not_space_not_LF (c : ascii) : isspace c = false -> Ascii.eqb c LF = false.
Proof.
  intros H. destruct (Ascii.eqb_spec c LF) as [->|]; [discriminate|reflexivity].
Qed.

Lemma rstrip_empty_all_whitespace (s : string) :
  rstrip s = EmptyString -> all_whitespace s = true.
Proof.
  induction s as [|c s IH]; [reflexivity|]. cbn [rstrip all_whitespace].
  destruct (rstrip s); [|discriminate].
  destruct (isspace c); [|discriminate]. intros _. now rewrite IH.
Qed.

Lemma rstrip_rstrip (s : string) : rstrip (rstrip s) = rstrip s.
Proof.
  induction s as [|c s IH]; [reflexivity|]. cbn [rstrip].
  destruct (rstrip s) as [|a r] eqn:E.
  - destruct (isspace c) eqn:Hc; [reflexivity|]. cbn [rstrip]. now rewrite Hc.
  - cbn [rstrip] in *. rewrite IH. reflexivity.
Qed.

Lemma strip_cons_space (c : ascii) (s : string) :
  isspace c = true -> strip (String c s) = strip s.
Proof.
  intros Hc. unfold strip. cbn [rstrip].
  destruct (rstrip s) as [|a r]; rewrite ?Hc; cbn [lstrip]; now rewrite ?Hc.
Qed.

Lemma strip_lstrip (s : string) : strip (lstrip s) = strip s.
Proof.
  induction s as [|c s IH]; [reflexivity|]. cbn [lstrip].
  destruct (isspace c) eqn:Hc; [|reflexivity].
  now rewrite IH, strip_cons_space.
Qed.

Lemma strip_rstrip (s : string) : strip (rstrip s) = strip s.
Proof. unfold strip. now rewrite rstrip_rstrip. Qed.

Lemma strip_strip (s : string) : strip (strip s) = strip s.
Proof. unfold strip at 2. now rewrite strip_lstrip, strip_rstrip. Qed.

Lemma split_singleton (s y : string) : split LF s = [y] -> s = y.
Proof.
  intros H. rewrite <- (join_split LF s), H. reflexivity.
Qed.

(** The lines of [s.lstrip()]: the leading all-whitespace lines are gone and
    the first line left has lost its leading whitespace. *)
Lemma split_lstrip (s : string) :
  exists ws l back,
    split LF s = (ws ++ l :: back)%list
    /\ split LF (lstrip s) = lstrip l :: back
    /\ Forall (fun w => all_whitespace w = true) ws.
Proof.
  induction s as [|c s IH].
  - exists [], EmptyString, []. repeat split. constructor.
  - destruct IH as (ws & l & back & Hs & Hl & Hws).
    cbn [lstrip split]. destruct (isspace c) eqn:Hc.
    + destruct (Ascii.eqb c LF) eqn:Hlf.
      * exists (EmptyString :: ws), l, back. rewrite Hs, Hl.
        repeat split. now constructor.
      * rewrite Hs. destruct ws as [|w ws]; cbn [app].
        -- exists [], (String c l), back. cbn [lstrip]. rewrite Hc, Hl.
           repeat split. constructor.
        -- exists (String c w :: ws), l, back. rewrite Hl.
           inversion Hws; subst. repeat split. constructor; [|assumption].
           cbn. now rewrite Hc.
    + cbn [split]. rewrite (not_space_not_LF c Hc).
      pose proof (split_not_nil LF s) as Hnil.
      destruct (split LF s) as [|hd tl]; [contradiction|].
      exists [], (String c hd), tl. cbn [lstrip app]. rewrite Hc.
      repeat split. constructor.
Qed.

Lemma split_cons_LF (c : ascii) (s : string) :
  Ascii.eqb c LF = true -> split LF (String c s) = EmptyString :: split LF s.
Proof. intros H. cbn [split]. now rewrite H. Qed.

Lemma split_cons_other (c : ascii) (s hd : string) (tl : list string) :
  Ascii.eqb c LF = false -> split LF s = hd :: tl ->
  split LF (String c s) = String c hd :: tl.
Proof. intros H E. cbn [split]. now rewrite H, E. Qed.

Lemma rstrip_cons (c : ascii) (s : string) :
  rstrip (String c s)
  = match rstrip s with
    | EmptyString => if isspace c then EmptyString else String c EmptyString
    | r => String c r
    end.
Proof. reflexivity. Qed.

(** The lines of [s.rstrip()]: the trailing all-whitespace lines are gone and
    the last line left has lost its trailing whitespace. *)
Lemma split_rstrip (s : string) :
  exists front l ws,
    split LF s = (front ++ l :: ws)%list
    /\ split LF (rstrip s) = (front ++ [rstrip l])%list
    /\ Forall (fun w => all_whitespace w = true) ws.
Proof.
  induction s as [|c s IH].
  - exists [], EmptyString, []. repeat split. constructor.
  - destruct IH as (front & l & ws & Hs & Hr & Hws).
    rewrite rstrip_cons. destruct (rstrip s) as [|a r] eqn:E.
    + (* the rest is all whitespace *)
      destruct front as [|f front]; [|destruct front; discriminate Hr].
      cbn [app] in *. injection Hr as Hrl. symmetry in Hrl.
      destruct (isspace c) eqn:Hc.
      * destruct (Ascii.eqb c LF) eqn:Hlf.
        -- exists [], EmptyString, (l :: ws).
           rewrite (split_cons_LF c s Hlf), Hs. repeat split.
           constructor; [now apply rstrip_empty_all_whitespace|assumption].
        -- exists [], (String c l), ws.
           rewrite (split_cons_other c s l ws Hlf Hs), rstrip_cons, Hrl, Hc.
           repeat split. assumption.
      * pose proof (not_space_not_LF c Hc) as Hlf.
        exists [], (String c l), ws.
        rewrite (split_cons_other c s l ws Hlf Hs), rstrip_cons, Hrl, Hc.
        cbn [app]. rewrite (split_cons_other c EmptyString EmptyString [] Hlf eq_refl).
        repeat split. assumption.
    + destruct (Ascii.eqb c LF) eqn:Hlf.
      * exists (EmptyString :: front), l, ws.
        rewrite !(split_cons_LF c _ Hlf), Hs, Hr. repeat split. assumption.
      * destruct front as [|f front]; cbn [app] in *.
        -- exists [], (String c l), ws.
           rewrite (split_cons_other c s l ws Hlf Hs).
           rewrite (split_cons_other c _ _ _ Hlf Hr).
           apply split_singleton in Hr. rewrite rstrip_cons, <- Hr.
           repeat split. assumption.
        -- exists (String c f :: front), l, ws.
           rewrite (split_cons_other c s _ _ Hlf Hs).
           rewrite (split_cons_other c _ _ _ Hlf Hr).
           repeat split. assumption.
Qed.

Lemma startswith_app (p s : string) : startswith p (p ++ s) = true.
Proof.
  unfold startswith. induction p as [|a p IH]; cbn [append prefix].
  - now destruct s.
  - destruct (ascii_dec a a); [exact IH|contradiction].
Qed.

Lemma split_one_line (s l : string) : In l (split LF s) -> one_line l = true.
Proof.
  revert l. induction s as [|c s' IH]; intros l; cbn [split].
  - intros [<-|[]]. reflexivity.
  - destruct (Ascii.eqb c LF) eqn:Hc.
    + intros [<-|Hin]; [reflexivity|now apply IH].
    + pose proof (split_not_nil LF s') as Hnil.
      destruct (split LF s') as [|l0 ls]; [contradiction|].
      intros [<-|Hin].
      * cbn [one_line]. rewrite Hc. cbn [negb andb]. apply IH. now left.
      * apply IH. now right.
Qed.

Lemma split_line_then (l rest : string) :
  one_line l = true ->
  split LF (l ++ String LF rest) = l :: split LF rest.
Proof.
  induction l as [|c l' IH]; intros H.
  - cbn. reflexivity.
  - cbn [one_line] in H. apply andb_true_iff in H as [Hc Hl].
    apply negb_true_iff in Hc.
    cbn [append split]. rewrite Hc, (IH Hl). reflexivity.
Qed.

Lemma split_single_line (l : string) : one_line l = true -> split LF l = [l].
Proof.
  induction l as [|c l' IH]; intros H; [reflexivity|].
  cbn [one_line] in H. apply andb_true_iff in H as [Hc Hl].
  apply negb_true_iff in Hc. cbn [split]. now rewrite Hc, (IH Hl).
Qed.

Lemma split_join (ls : list string) :
  ls <> [] ->
  (forall l, In l ls -> one_line l = true) ->
  split LF (join nl ls) = ls.
Proof.
  unfold join, nl. induction ls as [|l ls IH]; intros Hne H; [contradiction|].
  destruct ls as [|l' ls'].
  - cbn. apply split_single_line. apply H. now left.
  - cbn [String.concat].
    change (String LF EmptyString ++ ?x) with (String LF x).
    rewrite split_line_then by (apply H; now left).
    f_equal. apply IH; [discriminate|]. intros x Hx. apply H. now right.
Qed.

Lemma response_lines_one_line (response l : string) :
  In l (response_lines response) -> one_line l = true.
Proof. apply split_one_line. Qed.

(** ** The lines of a reply and of the stripped reply *)

Lemma nonblank_lines_app (a b : list string) :
  nonblank_lines (a ++ b) = (nonblank_lines a ++ nonblank_lines b)%list.
Proof. unfold nonblank_lines. now rewrite map_app, filter_app. Qed.

Lemma nonblank_lines_blank (ws : list string) :
  Forall (fun w => all_whitespace w = true) ws -> nonblank_lines ws = [].
Proof.
  induction 1 as [|w ws Hw _ IH]; [reflexivity|].
  unfold nonblank_lines in *. cbn [map filter].
  now rewrite (strip_all_whitespace w Hw).
Qed.

Lemma nonblank_lines_cons_nonblank (l : string) (rest : list string) :
  nonempty (strip l) = true ->
  nonblank_lines (l :: rest) = strip l :: nonblank_lines rest.
Proof. intros H. unfold nonblank_lines. cbn [map filter]. now rewrite H. Qed.

Lemma nonblank_lines_cons_strip (a b : string) (rest : list string) :
  strip a = strip b -> nonblank_lines (a :: rest) = nonblank_lines (b :: rest).
Proof. intros H. unfold nonblank_lines. cbn [map]. now rewrite H. Qed.

(** Stripping the reply first only removes blank lines and whitespace that
    the loop strips anyway. *)
Lemma nonblank_lines_strip (s : string) :
  nonblank_lines (split LF (strip s)) = nonblank_lines (split LF s).
Proof.
  unfold strip.
  destruct (split_lstrip (rstrip s)) as (ws & l & back & Hs & Hl & Hws).
  destruct (split_rstrip s) as (front & l' & ws' & Hs' & Hr & Hws').
  rewrite Hl, (nonblank_lines_cons_strip _ l back (strip_lstrip l)).
  transitivity (nonblank_lines (split LF (rstrip s))).
  - rewrite Hs, nonblank_lines_app, (nonblank_lines_blank ws Hws). reflexivity.
  - rewrite Hr, Hs', !nonblank_lines_app.
    rewrite (nonblank_lines_cons_strip _ l' [] (strip_rstrip l')).
    change (l' :: ws') with ([l'] ++ ws')%list.
    rewrite nonblank_lines_app, (nonblank_lines_blank ws' Hws'), app_nil_r.
    reflexivity.
Qed.

(** Two ways of cutting one list around an element that [P] rejects, when
    one side of the other cut holds only elements that [P] accepts. *)
Lemma align_left {A : Type} (P : A -> Prop) (xs ws : list A) (x l : A)
    (ys back : list A) :
  (xs ++ x :: ys = ws ++ l :: back)%list ->
  Forall P ws -> ~ P x ->
  (xs = ws /\ x = l /\ ys = back)
  \/ exists mid, xs = (ws ++ l :: mid)%list /\ back = (mid ++ x :: ys)%list.
Proof.
  intros E Hws Hx. revert xs E.
  induction Hws as [|w ws Hw _ IH]; intros xs E.
  - destruct xs as [|a xs]; cbn in E; injection E as -> E.
    + left. auto.
    + right. exists xs. auto.
  - destruct xs as [|a xs]; cbn in E; injection E as -> E.
    + contradiction.
    + destruct (IH xs E) as [(-> & -> & ->)|(mid & -> & ->)].
      * left. auto.
      * right. exists mid. auto.
Qed.

Lemma align_right {A : Type} (P : A -> Prop) (xs front : list A) (x l : A)
    (ys ws : list A) :
  (xs ++ x :: ys = front ++ l :: ws)%list ->
  Forall P ws -> ~ P x ->
  (xs = front /\ x = l /\ ys = ws)
  \/ exists mid, ys = (mid ++ l :: ws)%list /\ front = (xs ++ x :: mid)%list.
Proof.
  intros E Hws Hx. revert front E.
  induction xs as [|a xs IH]; intros front E.
  - destruct front as [|f front]; cbn in E; injection E as -> E.
    + left. auto.
    + right. exists front. auto.
  - destruct front as [|f front]; cbn in E; injection E as -> E.
    + exfalso. apply Hx. rewrite Forall_forall in Hws. apply Hws.
      rewrite <- E. apply in_or_app. right. now left.
    + destruct (IH front E) as [(-> & -> & ->)|(mid & -> & ->)].
      * left. auto.
      * right. exists mid. auto.
Qed.

Lemma not_blank_not_all_whitespace (x : string) :
  nonempty (strip x) = true -> ~ (all_whitespace x = true).
Proof. intros H Hw. now rewrite (strip_all_whitespace x Hw) in H. Qed.

(** The lines of [s.rstrip()] around a line that is not blank. *)
Lemma split_rstrip_around (s : string) (xs : list string) (x : string)
    (ys : list string) :
  split LF s = (xs ++ x :: ys)%list ->
  nonempty (strip x) = true ->
  exists x' ys',
    split LF (rstrip s) = (xs ++ x' :: ys')%list
    /\ strip x' = strip x
    /\ strips_within ys' ys.
Proof.
  intros E Hx.
  destruct (split_rstrip s) as (front & l & ws & Hs & Hr & Hws).
  rewrite Hs in E. symmetry in E.
  destruct (align_right _ xs front x l ys ws E Hws
              (not_blank_not_all_whitespace x Hx))
    as [(-> & -> & ->)|(mid & -> & ->)].
  - exists (rstrip l), []. rewrite Hr. repeat split.
    + apply strip_rstrip.
    + intros a' [].
  - exists x, (mid ++ [rstrip l])%list. rewrite Hr, <- app_assoc. repeat split.
    intros a' Ha. apply in_app_or in Ha as [Ha|[<-|[]]].
    + exists a'. split; [apply in_or_app; now left|reflexivity].
    + exists l. split; [apply in_or_app; right; now left|apply strip_rstrip].
Qed.

(** The lines of [s.lstrip()] around a line that is not blank. *)
Lemma split_lstrip_around (s : string) (xs : list string) (x : string)
    (ys : list string) :
  split LF s = (xs ++ x :: ys)%list ->
  nonempty (strip x) = true ->
  exists xs' x',
    split LF (lstrip s) = (xs' ++ x' :: ys)%list
    /\ strip x' = strip x
    /\ strips_within xs' xs.
Proof.
  intros E Hx.
  destruct (split_lstrip s) as (ws & l & back & Hs & Hl & Hws).
  rewrite Hs in E. symmetry in E.
  destruct (align_left _ xs ws x l ys back E Hws
              (not_blank_not_all_whitespace x Hx))
    as [(-> & -> & ->)|(mid & -> & ->)].
  - exists [], (lstrip l). rewrite Hl. repeat split.
    + apply strip_lstrip.
    + intros a' [].
  - exists (lstrip l :: mid), x. rewrite Hl. repeat split.
    intros a' [<-|Ha].
    + exists l. split; [apply in_or_app; right; now left|apply strip_lstrip].
    + exists a'. split; [apply in_or_app; right; now right|reflexivity].
Qed.

(** The lines of the stripped reply between two lines that are not blank are
    the lines of the reply between them. *)
Lemma response_lines_between (response : string) (xs : list string) (x : string)
    (mid : list string) (y : string) (ys : list string) :
  split LF response = (xs ++ x :: mid ++ y :: ys)%list ->
  nonempty (strip x) = true ->
  nonempty (strip y) = true ->
  exists xs' x' y' ys',
    response_lines response = (xs' ++ x' :: mid ++ y' :: ys')%list
    /\ strip x' = strip x /\ strip y' = strip y
    /\ strips_within xs' xs /\ strips_within ys' ys.
Proof.
  intros E Hx Hy. unfold response_lines, strip at 1.
  assert (E' : split LF response = ((xs ++ x :: mid) ++ y :: ys)%list)
    by (rewrite E, <- app_assoc; reflexivity).
  destruct (split_rstrip_around _ _ _ _ E' Hy) as (y' & ys' & Er & Sy & Wy).
  rewrite <- app_assoc in Er. cbn [app] in Er.
  destruct (split_lstrip_around _ _ _ _ Er Hx) as (xs' & x' & El & Sx & Wx).
  exists xs', x', y', ys'. auto.
Qed.

(** Every line of the stripped reply has the stripped text of a line of the
    reply. *)
Lemma response_lines_strips (response : string) :
  strips_within (response_lines response) (split LF response).
Proof.
  unfold response_lines, strip.
  destruct (split_lstrip (rstrip response)) as (ws & l & back & Hs & Hl & _).
  destruct (split_rstrip response) as (front & l' & ws' & Hs' & Hr & _).
  assert (W : strips_within (split LF (rstrip response)) (split LF response)).
  { rewrite Hr, Hs'. intros a' Ha. apply in_app_or in Ha as [Ha|[<-|[]]].
    - exists a'. split; [apply in_or_app; now left|reflexivity].
    - exists l'. split; [apply in_or_app; right; now left|apply strip_rstrip]. }
  rewrite Hl. intros a' [<-|Ha].
  - destruct (W l) as (a & Ha & Sa).
    + rewrite Hs. apply in_or_app. right. now left.
    + exists a. split; [exact Ha|]. now rewrite strip_lstrip.
  - apply W. rewrite Hs. apply in_or_app. right. now right.
Qed.

Lemma contains_char_cons (a c : ascii) (s : string) :
  contains (String a EmptyString) (String c s)
  = Ascii.eqb c a || contains (String a EmptyString) s.
Proof.
  simpl. unfold startswith. simpl.
  destruct (ascii_dec a c) as [->|Hne].
  - rewrite Ascii.eqb_refl. now destruct s.
  - destruct (Ascii.eqb_spec c a) as [->|_]; [contradiction|reflexivity].
Qed.

Lemma contains_char_nil (a : ascii) :
  contains (String a EmptyString) EmptyString = false.
Proof. reflexivity. Qed.

(** [split(sep, 1)] cuts at the first separator. *)
Lemma split1_spec (sep : ascii) (s : string) :
  contains (String sep EmptyString) s = true ->
  exists before after,
    split1 sep s = (before, Some after)
    /\ s = before ++ String sep EmptyString ++ after
    /\ contains (String sep EmptyString) before = false.
Proof.
  induction s as [|c s' IH]; intros H.
  - discriminate.
  - rewrite contains_char_cons in H. simpl.
    destruct (Ascii.eqb_spec c sep) as [->|Hne].
    + exists EmptyString, s'. repeat split; reflexivity.
    + simpl in H. destruct (IH H) as (b & a & Hs & Heq & Hno).
      exists (String c b), a. rewrite Hs. repeat split.
      * simpl. now rewrite Heq at 1.
      * rewrite contains_char_cons, Hno.
        destruct (Ascii.eqb_spec c sep); [contradiction|reflexivity].
Qed.

Lemma is_header_contains_colon (line : string) :
  is_header line = true -> contains ":" line = true.
Proof.
  unfold is_header. intros H.
  apply orb_true_iff in H as [H|H]; apply andb_true_iff in H; tauto.
Qed.

Lemma is_header_nonempty (line : string) :
  is_header line = true -> nonempty line = true.
Proof. destruct line; [discriminate|reflexivity]. Qed.

Lemma open_test_case_header_of (line : string) :
  is_header line = true -> header_of line (open_test_case line).
Proof.
  intros H. apply is_header_contains_colon in H.
  destruct (split1_spec ":" line H) as (b & a & Hs & Heq & Hno).
  exists b, a. unfold open_test_case. rewrite Hs. simpl. auto.
Qed.

(** ** The parser never raises *)

Lemma index0_nonempty (s : string) :
  nonempty s = true -> exists c, index0 s = Ok c.
Proof. destruct s as [|c s']; [discriminate|]. now exists c. Qed.

Lemma add_step_line_total (steps : list string) (line : string) :
  nonempty line = true -> exists steps', add_step_line steps line = Ok steps'.
Proof.
  intros H. destruct line as [|c s]; [discriminate|].
  unfold add_step_line. cbn [index0 bind].
  destruct (isdigit c && contains ". " (String c s)); [eauto|].
  destruct steps; [eauto|].
  destruct (negb (isdigit c) || negb (contains ". " (String c s))); eauto.
Qed.

Lemma process_line_total (st : loop_state) (raw : string) :
  exists st', process_line st raw = Ok st'.
Proof.
  unfold process_line.
  destruct (nonempty (strip raw)) eqn:Hne; cbn [negb]; [|eauto].
  destruct (is_header (strip raw)); [eauto|].
  destruct (is_steps_heading (strip raw)); [eauto|].
  destruct (is_expected_heading (strip raw)); [eauto|].
  destruct (section st) as [[|]|]; destruct (current_test_case st) as [tc|]; eauto.
  destruct (add_step_line_total (tc_steps tc) _ Hne) as [steps' ->].
  cbn [bind]. eauto.
Qed.

Lemma for_each_process_line_total (lines : list string) (st : loop_state) :
  exists st', for_each process_line lines st = Ok st'.
Proof.
  revert st. induction lines as [|l ls IH]; intros st; cbn [for_each].
  - eauto.
  - destruct (process_line_total st l) as [st1 ->]. cbn [bind]. apply IH.
Qed.

Lemma for_each_app {S A : Type} (body : S -> A -> result S) (l1 l2 : list A) (s : S) :
  for_each body (l1 ++ l2) s = (s' <- for_each body l1 s ;; for_each body l2 s').
Proof.
  revert s. induction l1 as [|a l1 IH]; intros s; simpl.
  - reflexivity.
  - destruct (body s a); simpl; [apply IH|reflexivity].
Qed.

(** ** Blank lines and surrounding whitespace do not matter to the loop *)

Lemma process_line_strip (st : loop_state) (raw : string) :
  process_line st (strip raw) = process_line st raw.
Proof. unfold process_line. now rewrite strip_strip. Qed.

Lemma for_each_nonblank_lines (lines : list string) (st : loop_state) :
  for_each process_line (nonblank_lines lines) st = for_each process_line lines st.
Proof.
  revert st. induction lines as [|l ls IH]; intros st; [reflexivity|].
  unfold nonblank_lines in *. cbn [map filter for_each].
  destruct (nonempty (strip l)) eqn:Hne.
  - cbn [for_each]. rewrite process_line_strip.
    destruct (process_line st l); cbn [bind]; [apply IH|reflexivity].
  - rewrite IH. unfold process_line at 2. rewrite Hne. reflexivity.
Qed.

(** The loop over the lines of the stripped reply is the loop over the lines
    of the reply. *)
Lemma for_each_response_lines (response : string) (st : loop_state) :
  for_each process_line (response_lines response) st
  = for_each process_line (split LF response) st.
Proof.
  unfold response_lines.
  now rewrite <- for_each_nonblank_lines, nonblank_lines_strip,
    for_each_nonblank_lines.
Qed.

Lemma header_lines_nonblank (lines : list string) :
  header_lines lines = filter is_header (nonblank_lines lines).
Proof.
  unfold header_lines, nonblank_lines.
  induction (map strip lines) as [|x xs IH]; [reflexivity|].
  cbn [filter]. destruct (is_header x) eqn:Hh.
  - rewrite (is_header_nonempty x Hh). cbn [filter]. now rewrite Hh, IH.
  - destruct (nonempty x); cbn [filter]; now rewrite ?Hh, IH.
Qed.

Lemma header_lines_response_lines (response : string) :
  header_lines (response_lines response) = header_lines (split LF response).
Proof.
  unfold response_lines. now rewrite !header_lines_nonblank, nonblank_lines_strip.
Qed.

(** ** The loop only appends to [self.test_cases] *)

Lemma process_line_frame (st st' : loop_state) (raw : string) :
  process_line st raw = Ok st' ->
  exists delta,
    self_test_cases st' = (self_test_cases st ++ delta)%list
    /\ forall base,
         process_line (rebase st base) raw = Ok (rebase st' (base ++ delta)%list).
Proof.
  destruct st as [cur sec acc].
  unfold process_line, rebase. cbn [current_test_case section self_test_cases].
  destruct (nonempty (strip raw)); cbn [negb]; [|appends_nothing].
  destruct (is_header (strip raw)).
  { intros [= <-]. cbn [current_test_case section self_test_cases].
    destruct cur as [tc|].
    - exists [tc]. split; reflexivity.
    - exists []. split; [now rewrite app_nil_r|].
      intros base. now rewrite app_nil_r. }
  destruct (is_steps_heading (strip raw)); [appends_nothing|].
  destruct (is_expected_heading (strip raw)); [appends_nothing|].
  destruct sec as [[|]|]; destruct cur as [tc|]; try appends_nothing.
  destruct (add_step_line (tc_steps tc) (strip raw)) as [steps'|e]; cbn [bind];
    [|discriminate].
  appends_nothing.
Qed.

Lemma for_each_process_line_frame (lines : list string) (st st' : loop_state) :
  for_each process_line lines st = Ok st' ->
  exists delta,
    self_test_cases st' = (self_test_cases st ++ delta)%list
    /\ forall base,
         for_each process_line lines (rebase st base)
         = Ok (rebase st' (base ++ delta)%list).
Proof.
  revert st. induction lines as [|l ls IH]; intros st; cbn [for_each].
  - intros [= <-]. exists []. split; [now rewrite app_nil_r|].
    intros base. now rewrite app_nil_r.
  - destruct (process_line st l) as [st1|e] eqn:H1; cbn [bind]; [|discriminate].
    intros H2.
    destruct (process_line_frame _ _ _ H1) as (d1 & E1 & F1).
    destruct (IH _ H2) as (d2 & E2 & F2).
    exists (d1 ++ d2)%list. split.
    + now rewrite E2, E1, app_assoc.
    + intros base. rewrite F1. cbn [bind]. rewrite F2. now rewrite app_assoc.
Qed.

(** ** One record per header line, in order *)

Lemma process_line_headers (st st' : loop_state) (raw : string) :
  process_line st raw = Ok st' ->
  map ids (flush st')
  = (map ids (flush st) ++ map (fun h => ids (open_test_case h)) (header_lines [raw]))%list.
Proof.
  destruct st as [cur sec acc].
  unfold process_line, header_lines, flush.
  cbn [map filter current_test_case section self_test_cases].
  destruct (nonempty (strip raw)) eqn:Hne; cbn [negb].
  2:{ intros [= <-]. destruct (strip raw); [|discriminate].
      cbn. now rewrite app_nil_r. }
  destruct (is_header (strip raw)).
  { intros [= <-]. cbn. now rewrite map_app. }
  cbn [map]. rewrite app_nil_r.
  destruct (is_steps_heading (strip raw)); [now intros [= <-]|].
  destruct (is_expected_heading (strip raw)); [now intros [= <-]|].
  destruct sec as [[|]|]; destruct cur as [tc|];
    try (now intros [= <-]).
  - destruct (add_step_line (tc_steps tc) (strip raw)) as [steps'|e]; cbn [bind];
      [|discriminate].
    intros [= <-]. cbn. now rewrite !map_app.
  - intros [= <-]. cbn. now rewrite !map_app.
Qed.

Lemma header_lines_cons (l : string) (ls : list string) :
  header_lines (l :: ls) = (header_lines [l] ++ header_lines ls)%list.
Proof.
  unfold header_lines. cbn [map filter].
  now destruct (is_header (strip l)).
Qed.

Lemma for_each_process_line_headers (lines : list string) (st st' : loop_state) :
  for_each process_line lines st = Ok st' ->
  map ids (flush st')
  = (map ids (flush st)
     ++ map (fun h => ids (open_test_case h)) (header_lines lines))%list.
Proof.
  revert st. induction lines as [|l ls IH]; intros st; cbn [for_each].
  - intros [= <-]. cbn. now rewrite app_nil_r.
  - destruct (process_line st l) as [st1|e] eqn:H1; cbn [bind]; [|discriminate].
    intros H2. rewrite (header_lines_cons l ls), map_app, app_assoc.
    now rewrite (IH _ H2), (process_line_headers _ _ _ H1).
Qed.

Lemma header_lines_are_headers (lines : list string) :
  Forall (fun h => is_header h = true) (header_lines lines).
Proof.
  unfold header_lines. apply Forall_forall. intros h Hin.
  now apply filter_In in Hin.
Qed.

Lemma ids_header_of (hs : list string) (new : list test_case) :
  Forall (fun h => is_header h = true) hs ->
  map ids new = map (fun h => ids (open_test_case h)) hs ->
  Forall2 header_of hs new.
Proof.
  intros Hhs. revert new. induction Hhs as [|h hs Hh _ IH]; intros new Hmap.
  - destruct new; [constructor|discriminate].
  - destruct new as [|tc new]; [discriminate|].
    cbn [map] in Hmap. unfold ids at 1 3 in Hmap.
    injection Hmap as Hid1 Hid2 Hrest.
    constructor; [|now apply IH].
    destruct (open_test_case_header_of h Hh) as (b & a & E & Hno & Hi & Hs).
    exists b, a. repeat split; congruence.
Qed.

(** ** The calls as a whole *)

Lemma process_blank (self : TestCaseGenerator) (response : string) :
  nonempty (strip response) = false ->
  _process_ai_response self response
  = Ok {| printed := [empty_response_warning];
          self_after := self; returned := [] |}.
Proof. intros H. unfold _process_ai_response. now rewrite H. Qed.

Lemma process_nonblank (self : TestCaseGenerator) (response : string) :
  nonempty (strip response) = true ->
  exists st,
    for_each process_line (response_lines response) (loop_start self) = Ok st
    /\ _process_ai_response self response
       = Ok {| printed := []; self_after := set_test_cases self (flush st);
               returned := flush st |}.
Proof.
  intros H. unfold _process_ai_response. rewrite H. cbn [negb].
  destruct (for_each_process_line_total (response_lines response) (loop_start self))
    as [st Hst].
  exists st. split; [exact Hst|].
  unfold loop_start in Hst. now rewrite Hst.
Qed.

Lemma header_lines_blank (response : string) :
  nonempty (strip response) = false -> header_lines (response_lines response) = [].
Proof.
  unfold response_lines. destruct (strip response); [|discriminate].
  intros _. reflexivity.
Qed.

(** The loop and the final append together add [flush] of the end state
    without the records held at the start. *)
Lemma flush_frame (lines : list string) (st st' : loop_state) :
  for_each process_line lines st = Ok st' ->
  exists new,
    flush st' = (self_test_cases st ++ new)%list
    /\ forall base st'',
         for_each process_line lines (rebase st base) = Ok st'' ->
         flush st'' = (base ++ new)%list.
Proof.
  intros H. destruct (for_each_process_line_frame _ _ _ H) as (delta & E & F).
  exists (delta ++ match current_test_case st' with
                   | Some tc => [tc] | None => [] end)%list.
  split.
  - unfold flush. rewrite E.
    destruct (current_test_case st'); [now rewrite app_assoc|now rewrite app_nil_r].
  - intros base st'' H''. rewrite F in H''. injection H'' as <-.
    unfold flush, rebase. cbn.
    destruct (current_test_case st'); [now rewrite app_assoc|now rewrite app_nil_r].
Qed.

(** Every call leaves [self.test_cases] as it was, followed by the records of
    the reply. *)
Lemma process_appends_records (self : TestCaseGenerator) (response : string) :
  exists p,
    _process_ai_response self response = Ok p
    /\ test_cases (self_after p) = (test_cases self ++ records_of response)%list.
Proof.
  unfold records_of.
  destruct (nonempty (strip response)) eqn:Hne.
  - destruct (process_nonblank self response Hne) as (st & Hst & ->).
    destruct (process_nonblank (new_generator EmptyString no_elements) response Hne)
      as (st0 & Hst0 & ->).
    eexists. split; [reflexivity|]. cbn.
    destruct (flush_frame _ _ _ Hst0) as (new & E0 & F0).
    cbn in E0. rewrite E0.
    apply (F0 (test_cases self) st). exact Hst.
  - rewrite !(process_blank _ _ Hne). eexists. split; [reflexivity|].
    cbn. now rewrite app_nil_r.
Qed.

Lemma records_of_headers (response : string) :
  Forall2 header_of (header_lines (split LF response)) (records_of response).
Proof.
  rewrite <- header_lines_response_lines. unfold records_of.
  destruct (nonempty (strip response)) eqn:Hne.
  - destruct (process_nonblank (new_generator EmptyString no_elements) response Hne)
      as (st0 & Hst0 & ->).
    cbn [self_after set_test_cases test_cases].
    apply ids_header_of; [apply header_lines_are_headers|].
    now rewrite (for_each_process_line_headers _ _ _ Hst0).
  - rewrite (process_blank _ _ Hne), (header_lines_blank _ Hne). constructor.
Qed.

(** ** The numbering of the steps on save *)

Lemma append_nil_r (s : string) : s ++ EmptyString = s.
Proof. induction s as [|c s IH]; simpl; [reflexivity|now rewrite IH]. Qed.

Lemma append_assoc (a b c : string) : (a ++ b) ++ c = a ++ (b ++ c).
Proof. induction a as [|x a IH]; simpl; [reflexivity|now rewrite IH]. Qed.

Lemma concat_empty_cons (x : string) (xs : list string) :
  String.concat EmptyString (x :: xs) = x ++ String.concat EmptyString xs.
Proof.
  destruct xs as [|y ys]; simpl; [now rewrite append_nil_r|reflexivity].
Qed.

Lemma enumerate_combine {A : Type} (k : nat) (l : list A) :
  enumerate k l = combine (seq k (List.length l)) l.
Proof.
  revert k. induction l as [|a l IH]; intros k; simpl; [reflexivity|].
  now rewrite IH.
Qed.

Lemma numbering_loop (entries : list (nat * string)) (acc : string) :
  fold_left
    (fun acc (entry : nat * string) =>
       let (i, step) := entry in acc ++ str_of_nat i ++ ". " ++ step ++ nl)
    entries acc
  = acc ++ String.concat EmptyString (map numbered_line entries).
Proof.
  revert acc. induction entries as [|[i step] es IH]; intros acc.
  - simpl. now rewrite append_nil_r.
  - cbn [fold_left map]. rewrite IH, concat_empty_cons.
    unfold numbered_line at 2. cbn [fst snd]. now rewrite append_assoc.
Qed.

Lemma steps_text_numbered (steps : list string) :
  steps_text steps = numbered_from_1 steps.
Proof.
  unfold steps_text, numbered_from_1.
  now rewrite numbering_loop, enumerate_combine.
Qed.

(** ** The record that is open at the end of the input *)

Lemma process_line_header (st : loop_state) (raw : string) :
  is_header (strip raw) = true ->
  process_line st raw = Ok (opened (strip raw) (flush st)).
Proof.
  intros H. unfold process_line.
  now rewrite (is_header_nonempty _ H), H.
Qed.

(** A line that is no header leaves [self.test_cases] alone and keeps the
    open record's ID and scenario. *)
Lemma process_line_no_header (st st' : loop_state) (raw : string) :
  is_header (strip raw) = false ->
  process_line st raw = Ok st' ->
  self_test_cases st' = self_test_cases st
  /\ forall tc, current_test_case st = Some tc ->
       exists tc', current_test_case st' = Some tc' /\ ids tc' = ids tc.
Proof.
  intros Hh. destruct st as [cur sec acc]. unfold process_line. rewrite Hh.
  cbn [current_test_case section self_test_cases].
  destruct (nonempty (strip raw)); cbn [negb].
  2:{ intros [= <-]. cbn. eauto. }
  destruct (is_steps_heading (strip raw)); [intros [= <-]; cbn; eauto|].
  destruct (is_expected_heading (strip raw)); [intros [= <-]; cbn; eauto|].
  destruct sec as [[|]|]; destruct cur as [tc0|];
    try (intros [= <-]; cbn; eauto; fail).
  - destruct (add_step_line (tc_steps tc0) (strip raw)) as [steps'|e]; cbn [bind];
      [|discriminate].
    intros [= <-]. cbn. split; [reflexivity|].
    intros tc [= <-]. eauto.
  - intros [= <-]. cbn. split; [reflexivity|].
    intros tc [= <-]. eauto.
Qed.

Lemma for_each_no_header (lines : list string) (st st' : loop_state) :
  (forall l, In l lines -> is_header (strip l) = false) ->
  for_each process_line lines st = Ok st' ->
  self_test_cases st' = self_test_cases st
  /\ forall tc, current_test_case st = Some tc ->
       exists tc', current_test_case st' = Some tc' /\ ids tc' = ids tc.
Proof.
  revert st. induction lines as [|l ls IH]; intros st Hno; cbn [for_each].
  - intros [= <-]. eauto.
  - destruct (process_line st l) as [st1|e] eqn:H1; cbn [bind]; [|discriminate].
    intros H2.
    destruct (process_line_no_header _ _ _ (Hno l (or_introl eq_refl)) H1)
      as [E1 C1].
    destruct (IH st1 (fun x Hx => Hno x (or_intror Hx)) H2) as [E2 C2].
    split; [congruence|].
    intros tc Htc. destruct (C1 tc Htc) as (tc1 & Htc1 & I1).
    destruct (C2 tc1 Htc1) as (tc2 & Htc2 & I2).
    exists tc2. split; [exact Htc2|congruence].
Qed.

Lemma header_of_ids (line : string) (tc tc' : test_case) :
  ids tc' = ids tc -> header_of line tc -> header_of line tc'.
Proof.
  unfold ids. intros [= Hi Hs] (b & a & E & Hno & Hid & Hsc).
  exists b, a. repeat split; congruence.
Qed.

(** C3.  When the last header line of a reply is followed by no other header
    line, the record it opened is still emitted: it is the last element of
    the list the call returns and leaves in [self.test_cases], it carries that
    header's ID and scenario, and it is the record the lines after the header
    filled in. *)
Theorem C3_trailing_record_is_emitted :
  forall (self : TestCaseGenerator) (response : string)
         (pre : list string) (h : string) (post : list string),
    split LF response = (pre ++ h :: post)%list ->
    is_header (strip h) = true ->
    (forall l, In l post -> is_header (strip l) = false) ->
    exists p front tc st_end,
      _process_ai_response self response = Ok p
      /\ returned p = (test_cases self ++ front ++ [tc])%list
      /\ test_cases (self_after p) = returned p
      /\ List.length front = List.length (header_lines pre)
      /\ header_of (strip h) tc
      /\ for_each process_line post (opened (strip h) []) = Ok st_end
      /\ current_test_case st_end = Some tc.
Proof.
  intros self response pre h post Hlines Hh Hpost.
  assert (Hne : nonempty (strip response) = true).
  { destruct (nonempty (strip response)) eqn:E; [reflexivity|]. exfalso.
    pose proof (nonblank_lines_strip response) as N.
    destruct (strip response); [|discriminate].
    rewrite Hlines, nonblank_lines_app in N.
    unfold nonblank_lines at 3 in N. cbn [map filter] in N.
    rewrite (is_header_nonempty _ Hh) in N.
    destruct (nonblank_lines pre); discriminate N. }
  destruct (process_nonblank self response Hne) as (st & Hst & Hp).
  rewrite for_each_response_lines, Hlines, for_each_app in Hst.
  destruct (for_each_process_line_total pre (loop_start self)) as [st1 H1].
  rewrite H1 in Hst. cbn [bind for_each] in Hst.
  rewrite (process_line_header st1 h Hh) in Hst. cbn [bind] in Hst.
  destruct (for_each_process_line_total post (opened (strip h) [])) as [st_end Hend].
  destruct (for_each_process_line_frame _ _ _ Hend) as (delta & Ed & Fd).
  destruct (for_each_no_header _ _ _ Hpost Hend) as [Eself Hcur].
  destruct (Hcur (open_test_case (strip h)) eq_refl) as (tc & Htc & Hids).
  specialize (Fd (flush st1)). unfold rebase in Fd. cbn in Fd.
  unfold opened in Hst. rewrite Fd in Hst. injection Hst as <-.
  rewrite Eself in Ed. cbn in Ed. destruct delta; [|discriminate].
  destruct (flush_frame _ _ _ H1) as (front & Efront & _).
  cbn in Efront.
  exists {| printed := []; self_after := set_test_cases self
                                           (flush st1 ++ [tc])%list;
            returned := (flush st1 ++ [tc])%list |}, front, tc, st_end.
  split; [|split; [|split; [|split; [|split; [|split]]]]].
  - rewrite Hp. unfold flush at 1 3. cbn. rewrite Htc, app_nil_r. reflexivity.
  - cbn. rewrite Efront. now rewrite app_assoc.
  - reflexivity.
  - pose proof (for_each_process_line_headers _ _ _ H1) as Hm.
    apply (f_equal (@List.length _)) in Hm.
    rewrite Efront in Hm. cbn in Hm.
    rewrite !length_app, !length_map, length_app in Hm. lia.
  - apply (header_of_ids _ (open_test_case (strip h))); [exact Hids|].
    now apply open_test_case_header_of.
  - exact Hend.
  - exact Htc.
Qed.

(** ** The steps branch *)

Lemma isdigit_startswith_dot (c : ascii) (s : string) :
  isdigit c = true -> startswith ". " (String c s) = false.
Proof.
  intros Hd. unfold startswith. cbn [prefix].
  destruct (ascii_dec "." c) as [<-|_]; [discriminate|reflexivity].
Qed.

Lemma numbered_prefix_cut (s : string) :
  startswith ". " (skip_digits s) = true ->
  contains ". " s = true
  /\ slice_from (String.length (split_head ". " s) + 2) s
     = slice_from 2 (skip_digits s).
Proof.
  induction s as [|c s' IH]; [discriminate|].
  cbn [skip_digits]. destruct (isdigit c) eqn:Hd.
  - intros H. destruct (IH H) as [Hc Hs].
    cbn [contains split_head]. rewrite (isdigit_startswith_dot c s' Hd).
    cbn [orb String.length Nat.add slice_from]. now split.
  - intros H. cbn [contains split_head]. rewrite H.
    cbn [orb String.length Nat.add]. now split.
Qed.

(** A line that starts with digits immediately followed by [". "] is
    appended as a new step: the text after that prefix, stripped. *)
Lemma add_step_line_numbered (steps : list string) (line text : string) :
  numbered_step_text line = Some text ->
  add_step_line steps line = Ok (steps ++ [strip text])%list.
Proof.
  destruct line as [|c s]; [discriminate|].
  unfold numbered_step_text, add_step_line. cbn [index0 bind].
  destruct (isdigit c) eqn:Hd; [|discriminate]. cbn [andb].
  destruct (startswith ". " (skip_digits (String c s))) eqn:Hp; [|discriminate].
  intros [= <-].
  destruct (numbered_prefix_cut _ Hp) as [-> ->]. reflexivity.
Qed.

(** A line that does not start with a digit, or holds no [". "], continues
    the last step, or is the first step. *)
Lemma add_step_line_continuation (steps : list string) (c : ascii) (s : string) :
  isdigit c = false \/ contains ". " (String c s) = false ->
  add_step_line steps (String c s)
  = Ok match steps with
       | [] => [String c s]
       | _ :: _ => append_to_last steps (" " ++ String c s)
       end.
Proof.
  intros H. unfold add_step_line. cbn [index0 bind].
  assert (E : isdigit c && contains ". " (String c s) = false).
  { destruct H as [-> | ->]; [reflexivity|apply andb_false_r]. }
  rewrite E. destruct steps; [reflexivity|].
  apply andb_false_iff in E.
  destruct E as [-> | ->]; cbn [negb orb]; [reflexivity|].
  now rewrite orb_true_r.
Qed.

(** C2.  In the steps section the code takes every line that starts with a
    digit and holds [". "] anywhere as a numbered step and drops the text up
    to the first [". "]: the line "2 apples remain. Count them" becomes the
    step "Count them", where the rule as specified joins the whole line onto
    the step before it. *)
Theorem C2_digit_line_with_later_dot_is_cut :
  add_step_line ["Open the basket"] "2 apples remain. Count them"
  = Ok ["Open the basket"; "Count them"]
  /\ add_step_line_as_specified ["Open the basket"] "2 apples remain. Count them"
     = ["Open the basket 2 apples remain. Count them"]
  /\ records_of fruit_reply
     = [{| tc_id := "Test Case 1"; tc_scenario := "Fruit";
           tc_steps := ["Open the basket"; "Count them"];
           tc_expected := "Two apples" |}].
Proof. split; [|split]; by_evaluation. Qed.

(** ** A well-formed reply parses back to its test cases *)

Lemma rstrip_app_fixed (p s : string) :
  nonempty s = true -> rstrip s = s -> rstrip (p ++ s) = p ++ s.
Proof.
  intros Hne Hs. induction p as [|c p IH]; [exact Hs|].
  cbn [append]. rewrite rstrip_cons, IH.
  destruct (p ++ s) eqn:E; [|reflexivity].
  destruct p; cbn in E; [subst s|]; discriminate.
Qed.

Lemma strip_fixed (c : ascii) (s : string) :
  isspace c = false -> rstrip (String c s) = String c s ->
  strip (String c s) = String c s.
Proof. intros Hc Hr. unfold strip. rewrite Hr. cbn [lstrip]. now rewrite Hc. Qed.

Lemma plain_strip (s : string) : plain s -> strip s = s.
Proof. intros (_ & Hl & Hr & _). unfold strip. now rewrite Hr. Qed.

Lemma one_line_app (a b : string) :
  one_line (a ++ b) = one_line a && one_line b.
Proof.
  induction a as [|c a IH]; [reflexivity|]. cbn [append one_line].
  now rewrite IH, andb_assoc.
Qed.

Lemma contains_colon_app (a b : string) :
  contains ":" (a ++ String ":" b) = true.
Proof.
  induction a as [|c a IH]; cbn [append]; rewrite contains_char_cons.
  - reflexivity.
  - rewrite IH. apply orb_true_r.
Qed.

Lemma split1_app (a b : string) :
  contains ":" a = false -> split1 ":" (a ++ String ":" b) = (a, Some b).
Proof.
  induction a as [|c a IH]; intros H; [reflexivity|].
  rewrite contains_char_cons in H. apply orb_false_iff in H as [Hc Ha].
  cbn [append split1]. now rewrite Hc, (IH Ha).
Qed.

Lemma ends_well_app (p s : string) : ends_well s -> ends_well (p ++ s).
Proof.
  intros [Hne Hs]. split.
  - destruct p; [exact Hne|reflexivity].
  - now apply rstrip_app_fixed.
Qed.

Lemma plain_ends_well (s : string) : plain s -> ends_well s.
Proof. intros (Hne & _ & Hr & _). now split. Qed.

Lemma strip_starts_ends_well (c : ascii) (s : string) :
  isspace c = false -> ends_well (String c s) -> strip (String c s) = String c s.
Proof. intros Hc [_ Hr]. now apply strip_fixed. Qed.

Lemma contains_char_app (x : ascii) (a b : string) :
  contains (String x EmptyString) (a ++ b)
  = contains (String x EmptyString) a || contains (String x EmptyString) b.
Proof.
  induction a as [|c a IH]; [reflexivity|].
  cbn [append]. rewrite !contains_char_cons, IH. now rewrite orb_assoc.
Qed.

Lemma isdigit_not_space (c : ascii) : isdigit c = true -> isspace c = false.
Proof.
  destruct c as [[] [] [] [] [] [] [] []]; intros H;
    first [reflexivity | discriminate H].
Qed.

Lemma isdigit_lower_char (c : ascii) : isdigit c = true -> lower_char c = c.
Proof.
  destruct c as [[] [] [] [] [] [] [] []]; intros H;
    first [reflexivity | discriminate H].
Qed.

Lemma startswith_other_char (p0 c : ascii) (p s : string) :
  p0 <> c -> startswith (String p0 p) (String c s) = false.
Proof.
  intros H. unfold startswith. cbn [prefix].
  destruct (ascii_dec p0 c); [contradiction|reflexivity].
Qed.

Lemma digit_line_is_no_heading (d : ascii) (s : string) :
  isdigit d = true ->
  is_header (String d s) = false
  /\ is_steps_heading (String d s) = false
  /\ is_expected_heading (String d s) = false.
Proof.
  intros Hd.
  assert (Hneq : forall x, isdigit x = false -> x <> d)
    by (intros x Hx ->; congruence).
  unfold is_header, is_steps_heading, is_expected_heading.
  cbn [lower]. rewrite (isdigit_lower_char d Hd).
  rewrite !startswith_other_char by (apply Hneq; reflexivity).
  repeat split; cbn [andb orb]; cbn [String.eqb];
    destruct (Ascii.eqb_spec d "s"); destruct (Ascii.eqb_spec d "e");
    subst; try discriminate Hd; reflexivity.
Qed.

Lemma skip_digits_app (n rest : string) :
  all_digits n = true -> skip_digits (n ++ String "." rest) = String "." rest.
Proof.
  induction n as [|d n IH]; intros H; [reflexivity|].
  cbn [all_digits] in H. apply andb_true_iff in H as [Hd Hn].
  cbn [append skip_digits]. now rewrite Hd, (IH Hn).
Qed.

(** The facts about a well-formed step line. *)
Lemma step_line_facts (step : string * string) :
  well_formed_step step ->
  strip (step_line step) = step_line step
  /\ nonempty (step_line step) = true
  /\ is_header (step_line step) = false
  /\ is_steps_heading (step_line step) = false
  /\ is_expected_heading (step_line step) = false
  /\ numbered_step_text (step_line step) = Some (snd step).
Proof.
  destruct step as [n t]. unfold well_formed_step, step_line. cbn [fst snd].
  intros (Hne & Hdig & Ht).
  destruct n as [|d n]; [discriminate|].
  cbn [all_digits] in Hdig. apply andb_true_iff in Hdig as [Hd Hn].
  destruct (digit_line_is_no_heading d (n ++ ". " ++ t) Hd) as (H1 & H2 & H3).
  cbn [append]. repeat split; try assumption.
  - apply strip_starts_ends_well; [now apply isdigit_not_space|].
    apply (ends_well_app (String d n) (". " ++ t)).
    apply (ends_well_app ". " t), plain_ends_well, Ht.
  - unfold numbered_step_text. rewrite Hd. cbn [andb skip_digits]. rewrite Hd.
    change (n ++ ". " ++ t) with (n ++ String "." (String " " t)).
    rewrite (skip_digits_app n _ Hn).
    rewrite (startswith_app ". " t : startswith ". " (String "." (String " " t)) = true).
    reflexivity.
Qed.

(** The facts about a well-formed header line. *)
Lemma header_line_facts (k scen : string) :
  plain k -> contains ":" k = false -> plain scen ->
  let h := "Test Case " ++ k ++ ": " ++ scen in
  strip h = h
  /\ is_header h = true
  /\ open_test_case h
     = {| tc_id := "Test Case " ++ k; tc_scenario := scen;
          tc_steps := []; tc_expected := EmptyString |}.
Proof.
  intros Hk Hcolon Hscen h.
  assert (Hassoc : h = ("Test Case " ++ k) ++ String ":" (" " ++ scen)).
  { unfold h. now rewrite append_assoc. }
  assert (Hstrip : strip h = h).
  { unfold h. apply strip_starts_ends_well; [reflexivity|].
    apply (ends_well_app "Test Case " (k ++ ": " ++ scen)).
    apply (ends_well_app k (": " ++ scen)).
    apply (ends_well_app ": " scen), plain_ends_well, Hscen. }
  split; [exact Hstrip|]. split.
  - unfold is_header. rewrite Hassoc at 2. rewrite contains_colon_app.
    unfold h. change ("Test Case " ++ k ++ ": " ++ scen)
      with ("Test Case" ++ (" " ++ k ++ ": " ++ scen)).
    now rewrite startswith_app.
  - unfold open_test_case. rewrite Hassoc, split1_app.
    + f_equal.
      * apply strip_starts_ends_well; [reflexivity|].
        apply (ends_well_app "Test Case " k), plain_ends_well, Hk.
      * change (" " ++ scen) with (String " " scen).
        rewrite strip_cons_space by reflexivity. now apply plain_strip.
    + rewrite contains_char_app, Hcolon. reflexivity.
Qed.

Lemma process_steps_heading (st : loop_state) :
  process_line st "Steps to Execute"
  = Ok {| current_test_case := current_test_case st;
          section := Some Steps_to_Execute;
          self_test_cases := self_test_cases st |}.
Proof. reflexivity. Qed.

Lemma process_expected_heading (st : loop_state) :
  process_line st "Expected Result"
  = Ok {| current_test_case := current_test_case st;
          section := Some Expected_Result;
          self_test_cases := self_test_cases st |}.
Proof. reflexivity. Qed.

Lemma run_steps (steps : list (string * string)) :
  Forall well_formed_step steps ->
  forall (id scen : string) (done_steps : list string) (saved : list test_case),
    for_each process_line (map step_line steps)
      {| current_test_case :=
           Some {| tc_id := id; tc_scenario := scen; tc_steps := done_steps;
                   tc_expected := EmptyString |};
         section := Some Steps_to_Execute;
         self_test_cases := saved |}
    = Ok {| current_test_case :=
              Some {| tc_id := id; tc_scenario := scen;
                      tc_steps := (done_steps ++ map snd steps)%list;
                      tc_expected := EmptyString |};
            section := Some Steps_to_Execute;
            self_test_cases := saved |}.
Proof.
  induction 1 as [|step steps Hstep _ IH]; intros id scen done_steps saved.
  - cbn. now rewrite app_nil_r.
  - destruct (step_line_facts step Hstep) as (Hs & Hne & Hh & Hsh & Heh & Hnum).
    destruct Hstep as (_ & _ & Ht).
    cbn [map for_each]. unfold process_line at 1.
    rewrite Hs, Hne, Hh, Hsh, Heh.
    cbn [negb section current_test_case tc_steps tc_id tc_scenario tc_expected
         self_test_cases].
    rewrite (add_step_line_numbered _ _ _ Hnum), (plain_strip _ Ht).
    cbn [bind]. rewrite IH. now rewrite <- app_assoc.
Qed.

Lemma run_case (c : case_text) (st : loop_state) :
  well_formed_case c ->
  for_each process_line (render_case c) st
  = Ok {| current_test_case := Some (record_of_case c);
          section := Some Expected_Result;
          self_test_cases := flush st |}.
Proof.
  intros (Hk & Hcolon & Hscen & Hsteps & He & Heh & Hes & Hee).
  destruct (header_line_facts _ _ Hk Hcolon Hscen) as (Hs & Hh & Hopen).
  unfold render_case. cbn [for_each].
  rewrite process_line_header by now rewrite Hs.
  cbn [bind]. rewrite Hs. unfold opened. rewrite Hopen.
  rewrite process_steps_heading. cbn [bind current_test_case self_test_cases].
  rewrite for_each_app, (run_steps _ Hsteps). cbn [bind app for_each].
  rewrite process_expected_heading.
  cbn [bind current_test_case self_test_cases].
  unfold process_line. rewrite (plain_strip _ He), Heh, Hes, Hee.
  destruct He as (Hne & _). rewrite Hne.
  cbn [negb section current_test_case bind tc_id tc_scenario tc_steps tc_expected
       self_test_cases add_expected_line nonempty].
  reflexivity.
Qed.

Lemma run_cases (cs : list case_text) :
  Forall well_formed_case cs ->
  forall st, exists st',
    for_each process_line (flat_map render_case cs) st = Ok st'
    /\ flush st' = (flush st ++ map record_of_case cs)%list.
Proof.
  induction 1 as [|c cs Hc _ IH]; intros st.
  - exists st. cbn. now rewrite app_nil_r.
  - cbn [flat_map map]. rewrite for_each_app, (run_case c st Hc). cbn [bind].
    destruct (IH {| current_test_case := Some (record_of_case c);
                    section := Some Expected_Result;
                    self_test_cases := flush st |}) as (st' & Hst' & Hf).
    exists st'. split; [exact Hst'|]. rewrite Hf. unfold flush at 1. cbn.
    now rewrite <- app_assoc.
Qed.

Lemma all_digits_one_line (n : string) : all_digits n = true -> one_line n = true.
Proof.
  induction n as [|d n IH]; [reflexivity|]. cbn [all_digits one_line].
  intros H. apply andb_true_iff in H as [Hd Hn]. rewrite (IH Hn), andb_true_r.
  destruct (Ascii.eqb_spec d LF) as [->|]; [discriminate Hd|reflexivity].
Qed.

Lemma render_case_one_line (c : case_text) (l : string) :
  well_formed_case c -> In l (render_case c) -> one_line l = true.
Proof.
  intros (Hk & _ & Hscen & Hsteps & He & _) Hin.
  destruct Hk as (_ & _ & _ & Hk). destruct Hscen as (_ & _ & _ & Hscen).
  destruct He as (_ & _ & _ & He).
  unfold render_case in Hin. destruct Hin as [<-|[<-|Hin]].
  - rewrite !one_line_app, Hk, Hscen. reflexivity.
  - reflexivity.
  - apply in_app_or in Hin as [Hin|[<-|[<-|[]]]]; [|reflexivity|exact He].
    apply in_map_iff in Hin as ([n t] & <- & Hin).
    rewrite Forall_forall in Hsteps.
    destruct (Hsteps _ Hin) as (_ & Hn & (_ & _ & _ & Ht)).
    unfold step_line. cbn [fst snd] in *.
    rewrite !one_line_app, (all_digits_one_line n Hn), Ht. reflexivity.
Qed.

Lemma render_case_not_nil (c : case_text) : render_case c <> [].
Proof. discriminate. Qed.

(** A well-formed reply parses back to its test cases: the records carry the
    IDs, the scenarios, the step texts without their numbers, and the
    expected results. *)
Lemma well_formed_reply_round_trip (cs : list case_text) :
  Forall well_formed_case cs ->
  records_of (render_reply cs) = map record_of_case cs.
Proof.
  intros Hwf. destruct cs as [|c cs]; [by_evaluation|].
  set (r := render_reply (c :: cs)).
  assert (Hlines : split LF r = flat_map render_case (c :: cs)).
  { unfold r, render_reply. apply split_join.
    - cbn [flat_map]. discriminate.
    - rewrite Forall_forall in Hwf. intros l Hl.
      apply in_flat_map in Hl as (c' & Hc' & Hl).
      exact (render_case_one_line c' l (Hwf c' Hc') Hl). }
  assert (Hne : nonempty (strip r) = true).
  { destruct (nonempty (strip r)) eqn:E; [reflexivity|]. exfalso.
    pose proof (nonblank_lines_strip r) as N.
    destruct (strip r); [|discriminate].
    rewrite Hlines in N. cbn [flat_map] in N. unfold render_case at 1 in N.
    inversion Hwf as [|? ? (Hk & Hcolon & Hscen & _) _]; subst.
    destruct (header_line_facts _ _ Hk Hcolon Hscen) as (Hs & Hh & _).
    rewrite <- app_comm_cons, nonblank_lines_cons_nonblank in N
      by (rewrite Hs; exact (is_header_nonempty _ Hh)).
    discriminate N. }
  unfold records_of.
  destruct (process_nonblank (new_generator EmptyString no_elements) r Hne)
    as (st & Hst & ->).
  rewrite for_each_response_lines, Hlines in Hst.
  destruct (run_cases _ Hwf (loop_start (new_generator EmptyString no_elements)))
    as (st' & Hst' & Hf).
  rewrite Hst in Hst'. injection Hst' as <-.
  cbn [self_after set_test_cases test_cases]. exact Hf.
Qed.

Lemma processed_case_numbered (tc : test_case) :
  processed_case tc = numbered_row tc.
Proof. unfold processed_case, numbered_row. now rewrite steps_text_numbered. Qed.

(** What [save_test_cases] hands to [to_excel], and what it makes of the
    result. *)
Lemma save_test_cases_writes_numbered_rows (os : os_calls)
    (self : TestCaseGenerator) (output_path : string) :
  test_cases self <> [] ->
  os_makedirs os (os_path_dirname os (os_path_abspath os output_path)) = Ok tt ->
  save_test_cases os self output_path
  = match to_excel os (map numbered_row (test_cases self)) output_path with
    | Ok _ =>
        ([nl ++ "Test cases successfully saved to: " ++ output_path], Ok true)
    | Raise e =>
        if is_Exception e
        then (["Error saving test cases to Excel: " ++ str_of_exn e], Ok false)
        else ([], Raise e)
    end.
Proof.
  intros Hne Hmk. unfold save_test_cases.
  destruct (test_cases self) as [|tc tcs] eqn:E; [contradiction|].
  rewrite Hmk.
  replace (map processed_case (tc :: tcs)) with (map numbered_row (tc :: tcs))
    by (apply map_ext; intros a; symmetry; apply processed_case_numbered).
  destruct (to_excel os _ output_path) as [u|e]; [reflexivity|].
  unfold try_except_Exception. now destruct (is_Exception e).
Qed.

(** C1.  A reply is parsed into one record per header line of the reply, in
    the order of the header lines; each record's ID is the header text before
    the first colon and its scenario the text after it; a reply made of
    well-formed test cases, each a header, a Steps section of numbered lines
    and an Expected section, parses back to exactly those test cases, whatever
    numbers the step lines carry; [save_test_cases] hands to [to_excel] one
    row for each record, with the steps numbered 1..len(steps) by position,
    and reports what became of that write; and the worked example parses to
    the record the spec gives. *)
Theorem C1_one_record_per_header_and_renumbering :
  (forall (self : TestCaseGenerator) (response : string),
      (exists p,
          _process_ai_response self response = Ok p
          /\ test_cases (self_after p)
             = (test_cases self ++ records_of response)%list)
      /\ List.length (records_of response)
         = List.length (header_lines (split LF response))
      /\ Forall2 header_of (header_lines (split LF response)) (records_of response))
  /\ (forall (cs : list case_text),
        Forall well_formed_case cs ->
        records_of (render_reply cs) = map record_of_case cs)
  /\ (forall (os : os_calls) (self : TestCaseGenerator) (output_path : string),
        test_cases self <> [] ->
        os_makedirs os (os_path_dirname os (os_path_abspath os output_path))
        = Ok tt ->
        save_test_cases os self output_path
        = match to_excel os (map numbered_row (test_cases self)) output_path with
          | Ok _ =>
              ([nl ++ "Test cases successfully saved to: " ++ output_path],
               Ok true)
          | Raise e =>
              if is_Exception e
              then (["Error saving test cases to Excel: " ++ str_of_exn e],
                    Ok false)
              else ([], Raise e)
          end)
  /\ _process_ai_response (new_generator EmptyString no_elements) login_reply
     = Ok {| printed := [];
             self_after :=
               {| elements_json_path := EmptyString; elements := no_elements;
                  test_cases := [login_case] |};
             returned := [login_case] |}.
Proof.
  split; [|split; [|split]].
  - intros self response. split; [|split].
    + apply process_appends_records.
    + symmetry. exact (Forall2_length (records_of_headers response)).
    + apply records_of_headers.
  - exact well_formed_reply_round_trip.
  - exact save_test_cases_writes_numbered_rows.
  - by_evaluation.
Qed.

(** ** Blank replies *)

Lemma generate_test_cases_blank (tpl : template_calls) (self : TestCaseGenerator)
    (stdin stdin' out0 out3 : list string) (template response : string) :
  elements_truthy (elements self) = true ->
  test_cases self = [] ->
  load_template tpl test_case_prompt_template = (out0, Ok template) ->
  (forall name url summary, exists prompt,
      format_template tpl template name url summary = Ok prompt) ->
  get_user_input paste_prompt stdin = (out3, response, stdin') ->
  nonempty (strip response) = false ->
  let g := generate_test_cases tpl self stdin in
  gen_result g = Ok []
  /\ gen_self g = self
  /\ exists out, gen_printed g
                 = (out ++ empty_response_warning :: no_test_cases_warning)%list.
Proof.
  intros Htruthy Hnone Hload Hfmt Hin Hblank.
  unfold generate_test_cases. rewrite Htruthy, Hload. cbn [negb].
  set (triple := match el_metadata (elements self) with
                 | Some meta => _ | None => _ end).
  destruct triple as [[site_name site_url] out1].
  destruct (Hfmt site_name site_url (_format_elements_for_prompt self))
    as [prompt ->].
  rewrite Hin, (process_blank self response Hblank).
  cbn [self_after printed]. rewrite Hnone.
  cbn [gen_result gen_self gen_printed].
  split; [reflexivity|]. split; [reflexivity|].
  match goal with
  | |- exists out, (_ ++ _ ++ ?o2 ++ _ ++ _ ++ _)%list = _ =>
      exists (out0 ++ out1 ++ o2 ++ out3)%list
  end.
  now rewrite <- !app_assoc.
Qed.

(** C4.  A reply that is empty or all whitespace makes [_process_ai_response]
    print its warning and return the empty list, leaving the generator as it
    was, without raising; and [generate_test_cases], when such a reply is
    pasted into a generator that holds no test cases, prints that warning and
    the "no test cases" warning and returns the empty list. *)
Theorem C4_blank_reply_warns :
  forall (self : TestCaseGenerator) (response : string),
    all_whitespace response = true ->
    _process_ai_response self response
    = Ok {| printed := [empty_response_warning]; self_after := self;
            returned := [] |}
    /\ forall (tpl : template_calls) (stdin stdin' out0 out3 : list string)
              (template : string),
         elements_truthy (elements self) = true ->
         test_cases self = [] ->
         load_template tpl test_case_prompt_template = (out0, Ok template) ->
         (forall name url summary, exists prompt,
             format_template tpl template name url summary = Ok prompt) ->
         get_user_input paste_prompt stdin = (out3, response, stdin') ->
         gen_result (generate_test_cases tpl self stdin) = Ok []
         /\ gen_self (generate_test_cases tpl self stdin) = self
         /\ exists out,
              gen_printed (generate_test_cases tpl self stdin)
              = (out ++ empty_response_warning :: no_test_cases_warning)%list.
Proof.
  intros self response Hws.
  assert (Hblank : nonempty (strip response) = false)
    by now rewrite (strip_all_whitespace _ Hws).
  split; [now apply process_blank|].
  intros tpl stdin stdin' out0 out3 template Ht Hn Hl Hf Hi.
  exact (generate_test_cases_blank tpl self stdin stdin' out0 out3 template
           response Ht Hn Hl Hf Hi Hblank).
Qed.

(** ** The records as objects: what is emitted is never touched again *)

Lemma store_update_elsewhere (objs : store) (r r' : ref) (tc : test_case) :
  r' <> r -> object_at (store_update objs r tc) r' = object_at objs r'.
Proof. intros H. cbn. now rewrite (proj2 (Nat.eqb_neq r' r) H). Qed.

Lemma store_update_here (objs : store) (r : ref) (tc : test_case) :
  object_at (store_update objs r tc) r = tc.
Proof. cbn. now rewrite Nat.eqb_refl. Qed.

Lemma process_line_on_store_sound (st st' : ref_state) (raw : string) :
  refs_ok st ->
  process_line_on_store st raw = Ok st' ->
  process_line (values st) raw = Ok (values st')
  /\ refs_ok st'
  /\ (exists delta, self_refs st' = (self_refs st ++ delta)%list)
  /\ (forall r, In r (self_refs st) ->
        object_at (objects st') r = object_at (objects st) r)
  /\ next_ref (objects st) <= next_ref (objects st').
Proof.
  destruct st as [objs cur sec refs]. intros Hok. pose proof Hok as [Hrefs Hcur].
  cbn [self_refs current_ref objects] in Hrefs, Hcur.
  unfold process_line_on_store, process_line, values, store_alloc.
  cbn [objects current_ref section_ref self_refs current_test_case section
       self_test_cases].
  assert (Same : forall sec',
            refs_ok {| objects := objs; current_ref := cur; section_ref := sec';
                       self_refs := refs |}
            /\ (exists delta, refs = (refs ++ delta)%list)
            /\ (forall r, In r refs -> object_at objs r = object_at objs r)
            /\ next_ref objs <= next_ref objs).
  { intros sec'. split; [exact Hok|]. split; [exists []; now rewrite app_nil_r|].
    split; [reflexivity|lia]. }
  destruct (nonempty (strip raw)); cbn [negb].
  2:{ intros [= <-]. split; [reflexivity|apply Same]. }
  destruct (is_header (strip raw)).
  { intros [= <-]. cbn [objects current_ref section_ref self_refs option_map
                        object_at next_ref].
    rewrite Nat.eqb_refl.
    assert (Hkeep : forall r, r < next_ref objs ->
              (if Nat.eqb r (next_ref objs) then open_test_case (strip raw)
               else object_at objs r) = object_at objs r).
    { intros r Hr. destruct (Nat.eqb_spec r (next_ref objs)); [lia|reflexivity]. }
    assert (Hmap : map (fun r : ref => if Nat.eqb r (next_ref objs)
                                 then open_test_case (strip raw)
                                 else object_at objs r) refs
                   = map (object_at objs) refs).
    { apply map_ext_in. intros r Hr. now apply Hkeep, Hrefs. }
    destruct cur as [r0|]; cbn [option_map].
    - destruct (Hcur r0 eq_refl) as [Hlt Hnot].
      split; [|split; [|split; [|split]]].
      + rewrite map_app, Hmap. cbn [map]. now rewrite (Hkeep r0 Hlt).
      + split; cbn [objects current_ref self_refs next_ref].
        * intros r Hr. apply in_app_or in Hr as [Hr|[<-|[]]];
            [apply Hrefs in Hr|]; lia.
        * intros r [= <-]. split; [lia|]. intros Hin.
          apply in_app_or in Hin as [Hin|[->|[]]]; [apply Hrefs in Hin|]; lia.
      + now exists [r0].
      + intros r Hr. now apply Hkeep, Hrefs.
      + lia.
    - split; [|split; [|split; [|split]]].
      + now rewrite Hmap.
      + split; cbn [objects current_ref self_refs next_ref].
        * intros r Hr. apply Hrefs in Hr. lia.
        * intros r [= <-]. split; [lia|]. intros Hin. apply Hrefs in Hin. lia.
      + exists []. now rewrite app_nil_r.
      + intros r Hr. now apply Hkeep, Hrefs.
      + lia. }
  destruct (is_steps_heading (strip raw)).
  { intros [= <-]. split; [reflexivity|apply Same]. }
  destruct (is_expected_heading (strip raw)).
  { intros [= <-]. split; [reflexivity|apply Same]. }
  assert (Hkeep : forall r0 r tc, cur = Some r0 -> In r refs ->
            object_at (store_update objs r0 tc) r = object_at objs r).
  { intros r0 r tc Hr0 Hr. apply store_update_elsewhere. intros ->.
    now apply (proj2 (Hcur r0 Hr0)). }
  assert (Hmap : forall r0 tc, cur = Some r0 ->
            map (object_at (store_update objs r0 tc)) refs
            = map (object_at objs) refs).
  { intros r0 tc Hr0. apply map_ext_in. intros r Hr. now apply (Hkeep r0). }
  destruct sec as [[|]|]; destruct cur as [r0|]; cbn [option_map];
    try (intros [= <-]; split; [reflexivity|apply Same]).
  - destruct (add_step_line (tc_steps (object_at objs r0)) (strip raw))
      as [steps'|e]; cbn [bind]; [|discriminate].
    intros [= <-]. cbn [objects current_ref section_ref self_refs option_map].
    rewrite store_update_here, (Hmap r0 _ eq_refl).
    split; [reflexivity|]. split; [exact Hok|].
    split; [exists []; now rewrite app_nil_r|].
    split; [|cbn; lia]. intros r Hr. now apply (Hkeep r0).
  - intros [= <-]. cbn [objects current_ref section_ref self_refs option_map].
    rewrite store_update_here, (Hmap r0 _ eq_refl).
    split; [reflexivity|]. split; [exact Hok|].
    split; [exists []; now rewrite app_nil_r|].
    split; [|cbn; lia]. intros r Hr. now apply (Hkeep r0).
Qed.

Lemma process_line_on_store_total (st : ref_state) (raw : string) :
  exists st', process_line_on_store st raw = Ok st'.
Proof.
  unfold process_line_on_store.
  destruct (nonempty (strip raw)) eqn:Hne; cbn [negb]; [|eauto].
  destruct (is_header (strip raw)); [unfold store_alloc; eauto|].
  destruct (is_steps_heading (strip raw)); [eauto|].
  destruct (is_expected_heading (strip raw)); [eauto|].
  destruct (section_ref st) as [[|]|]; destruct (current_ref st) as [r|]; eauto.
  destruct (add_step_line_total (tc_steps (object_at (objects st) r)) _ Hne)
    as [steps' ->].
  cbn [bind]. eauto.
Qed.

Lemma for_each_on_store_total (lines : list string) (st : ref_state) :
  exists st', for_each process_line_on_store lines st = Ok st'.
Proof.
  revert st. induction lines as [|l ls IH]; intros st; cbn [for_each].
  - eauto.
  - destruct (process_line_on_store_total st l) as [st1 ->]. cbn [bind]. apply IH.
Qed.

Lemma for_each_on_store_sound (lines : list string) (st st' : ref_state) :
  refs_ok st ->
  for_each process_line_on_store lines st = Ok st' ->
  for_each process_line lines (values st) = Ok (values st')
  /\ refs_ok st'
  /\ (exists delta, self_refs st' = (self_refs st ++ delta)%list)
  /\ (forall r, In r (self_refs st) ->
        object_at (objects st') r = object_at (objects st) r).
Proof.
  revert st. induction lines as [|l ls IH]; intros st Hok; cbn [for_each].
  - intros [= <-]. split; [reflexivity|]. split; [exact Hok|].
    split; [exists []; now rewrite app_nil_r|reflexivity].
  - destruct (process_line_on_store st l) as [st1|e] eqn:H1; cbn [bind];
      [|discriminate].
    intros H2.
    destruct (process_line_on_store_sound _ _ _ Hok H1)
      as (V1 & Hok1 & (d1 & E1) & K1 & _).
    destruct (IH st1 Hok1 H2) as (V2 & Hok2 & (d2 & E2) & K2).
    rewrite V1. cbn [bind]. split; [exact V2|]. split; [exact Hok2|]. split.
    + exists (d1 ++ d2)%list. now rewrite E2, E1, app_assoc.
    + intros r Hr. rewrite K2; [now apply K1|].
      rewrite E1. apply in_or_app. now left.
Qed.

Lemma flush_values (st : ref_state) :
  flush (values st) = map (object_at (objects st)) (flush_refs st).
Proof.
  unfold flush, flush_refs, values. cbn.
  destruct (current_ref st); cbn; [now rewrite map_app|reflexivity].
Qed.

(** The call on the store computes the values of the call on values, keeps
    every reference [self.test_cases] held, adds references after them, and
    leaves the objects behind the old references as they were. *)
Lemma process_on_store_sound (objs : store) (refs : list ref)
    (self : TestCaseGenerator) (response : string) :
  (forall r, In r refs -> r < next_ref objs) ->
  test_cases self = map (object_at objs) refs ->
  exists objs' refs' p,
    process_ai_response_on_store objs refs response = Ok (objs', refs')
    /\ _process_ai_response self response = Ok p
    /\ test_cases (self_after p) = map (object_at objs') refs'
    /\ (exists delta, refs' = (refs ++ delta)%list)
    /\ (forall r, In r refs -> object_at objs' r = object_at objs r)
    /\ (forall r, In r refs' -> r < next_ref objs').
Proof.
  intros Hrefs Hself. unfold process_ai_response_on_store.
  destruct (nonempty (strip response)) eqn:Hne; cbn [negb].
  - set (st0 := {| objects := objs; current_ref := None; section_ref := None;
                   self_refs := refs |}).
    assert (Hok0 : refs_ok st0) by (split; [exact Hrefs|discriminate]).
    destruct (for_each_on_store_total (response_lines response) st0) as [st' Hst'].
    destruct (for_each_on_store_sound _ _ _ Hok0 Hst')
      as (V & Hok' & (delta & E) & K).
    destruct (process_nonblank self response Hne) as (st & Hst & Hp).
    assert (Hv : values st0 = loop_start self).
    { unfold values, loop_start, st0. cbn. now rewrite Hself. }
    rewrite Hv, Hst in V. injection V as ->.
    rewrite Hst'. cbn [bind].
    eexists (objects st'), (flush_refs st'), _. split; [reflexivity|].
    split; [exact Hp|]. cbn [self_after set_test_cases test_cases].
    split; [apply flush_values|]. split; [|split].
    + unfold flush_refs. rewrite E. cbn [self_refs st0].
      destruct (current_ref st') as [r|].
      * exists (delta ++ [r])%list. now rewrite app_assoc.
      * now exists delta.
    + exact K.
    + intros r Hr. unfold flush_refs in Hr. destruct Hok' as [H1 H2].
      destruct (current_ref st') as [r'|].
      * apply in_app_or in Hr as [Hr|[<-|[]]]; [now apply H1|].
        now apply (H2 r').
      * now apply H1.
  - eexists objs, refs, _. split; [reflexivity|].
    split; [apply (process_blank self response Hne)|].
    cbn [self_after]. split; [exact Hself|]. split; [|split].
    + exists []. now rewrite app_nil_r.
    + reflexivity.
    + exact Hrefs.
Qed.

(** ** Two replies in succession *)

(** C10.  Parsing [r1] and then [r2] on the same generator leaves in
    [self.test_cases] what was there before, then the records of [r1], then
    the records of [r2]; the list after the first call is a prefix of the
    list after the second; on a generator as [__init__] leaves it the final
    list is the records of [r1] followed by the records of [r2]; and with the
    records as objects in a store, the second call keeps every reference the
    list held, adds its references after them and changes no object the list
    referred to. *)
Theorem C10_successive_replies_append :
  (forall (self : TestCaseGenerator) (r1 r2 : string),
      exists p1 p2,
        _process_ai_response self r1 = Ok p1
        /\ _process_ai_response (self_after p1) r2 = Ok p2
        /\ test_cases (self_after p1) = (test_cases self ++ records_of r1)%list
        /\ test_cases (self_after p2)
           = (test_cases (self_after p1) ++ records_of r2)%list
        /\ test_cases (self_after p2)
           = (test_cases self ++ records_of r1 ++ records_of r2)%list)
  /\ (forall (path : string) (e : elements_record) (r1 r2 : string),
        exists p1 p2,
          _process_ai_response (new_generator path e) r1 = Ok p1
          /\ _process_ai_response (self_after p1) r2 = Ok p2
          /\ test_cases (self_after p2) = (records_of r1 ++ records_of r2)%list)
  /\ (forall (objs : store) (refs : list ref) (r1 r2 : string),
        (forall r, In r refs -> r < next_ref objs) ->
        exists objs1 refs1 objs2 refs2 d1 d2,
          process_ai_response_on_store objs refs r1 = Ok (objs1, refs1)
          /\ process_ai_response_on_store objs1 refs1 r2 = Ok (objs2, refs2)
          /\ refs1 = (refs ++ d1)%list
          /\ refs2 = (refs1 ++ d2)%list
          /\ (forall r, In r refs1 -> object_at objs2 r = object_at objs1 r)
          /\ map (object_at objs1) refs1
             = (map (object_at objs) refs ++ records_of r1)%list
          /\ map (object_at objs2) refs2
             = (map (object_at objs) refs ++ records_of r1 ++ records_of r2)%list).
Proof.
  assert (G : forall self r1 r2, exists p1 p2,
             _process_ai_response self r1 = Ok p1
             /\ _process_ai_response (self_after p1) r2 = Ok p2
             /\ test_cases (self_after p1) = (test_cases self ++ records_of r1)%list
             /\ test_cases (self_after p2)
                = (test_cases (self_after p1) ++ records_of r2)%list
             /\ test_cases (self_after p2)
                = (test_cases self ++ records_of r1 ++ records_of r2)%list).
  { intros self r1 r2.
    destruct (process_appends_records self r1) as (p1 & H1 & E1).
    destruct (process_appends_records (self_after p1) r2) as (p2 & H2 & E2).
    exists p1, p2. repeat split; try assumption.
    now rewrite E2, E1, app_assoc. }
  split; [exact G|]. split.
  - intros path e r1 r2.
    destruct (G (new_generator path e) r1 r2) as (p1 & p2 & H1 & H2 & _ & _ & E).
    exists p1, p2. repeat split; assumption.
  - intros objs refs r1 r2 Hrefs.
    set (self := {| elements_json_path := EmptyString; elements := no_elements;
                    test_cases := map (object_at objs) refs |}).
    destruct (G self r1 r2) as (p1 & p2 & H1 & H2 & E1 & _ & E2).
    destruct (process_on_store_sound objs refs self r1 Hrefs eq_refl)
      as (objs1 & refs1 & q1 & S1 & Q1 & V1 & (d1 & D1) & _ & B1).
    rewrite H1 in Q1. injection Q1 as <-.
    destruct (process_on_store_sound objs1 refs1 (self_after p1) r2 B1 V1)
      as (objs2 & refs2 & q2 & S2 & Q2 & V2 & (d2 & D2) & K2 & _).
    rewrite H2 in Q2. injection Q2 as <-.
    exists objs1, refs1, objs2, refs2, d1, d2.
    repeat split; try assumption.
    + now rewrite <- V1, E1.
    + now rewrite <- V2, E2.
Qed.

(** ** The fence scanner *)

Lemma fence_close_not_open (l : string) :
  is_fence_close l = true -> is_fence_open l = false.
Proof.
  unfold is_fence_close, is_fence_open. intros H.
  apply String.eqb_eq in H. now rewrite H.
Qed.

Lemma scan_outside (ls code : list string) :
  (forall l, In l ls -> is_fence_open l = false) ->
  fold_left fence_step ls (code, false) = (code, false).
Proof.
  induction ls as [|l ls IH]; intros H; cbn [fold_left]; [reflexivity|].
  unfold fence_step at 2. rewrite (H l (or_introl eq_refl)), andb_false_r.
  apply IH. intros x Hx. apply H. now right.
Qed.

Lemma scan_open (l : string) (code : list string) (b : bool) :
  is_fence_open l = true -> fence_step (code, b) l = (code, true).
Proof. intros H. unfold fence_step. now rewrite H. Qed.

Lemma scan_close (l : string) (code : list string) :
  is_fence_close l = true -> fence_step (code, true) l = (code, false).
Proof.
  intros H. unfold fence_step. now rewrite (fence_close_not_open l H), H.
Qed.

Lemma scan_unclosed (ls code : list string) :
  (forall l, In l ls -> is_fence_close l = false) ->
  fold_left fence_step ls (code, true)
  = ((code ++ filter (fun l => negb (is_fence_open l)) ls)%list, true).
Proof.
  revert code. induction ls as [|l ls IH]; intros code H; cbn [fold_left filter].
  - now rewrite app_nil_r.
  - unfold fence_step at 2. rewrite (H l (or_introl eq_refl)).
    assert (H' : forall x, In x ls -> is_fence_close x = false)
      by (intros x Hx; apply H; now right).
    destruct (is_fence_open l); cbn [negb andb].
    + now apply IH.
    + rewrite (IH _ H'), <- app_assoc. reflexivity.
Qed.

Lemma scan_body (ls code : list string) :
  (forall l, In l ls -> is_fence_open l = false /\ is_fence_close l = false) ->
  fold_left fence_step ls (code, true) = ((code ++ ls)%list, true).
Proof.
  intros H. rewrite scan_unclosed by (intros l Hl; now apply H).
  f_equal. f_equal. apply forallb_filter_id. apply forallb_forall.
  intros l Hl. now rewrite (proj1 (H l Hl)).
Qed.

Lemma scan_block (b : fenced_block) (code : list string) :
  well_fenced b ->
  fold_left fence_step (block_lines b) (code, false)
  = ((code ++ fb_body b)%list, false).
Proof.
  intros (Hb & Ho & Hbody & Hc). unfold block_lines.
  rewrite fold_left_app, (scan_outside _ _ Hb). cbn [fold_left].
  rewrite (scan_open _ _ _ Ho), fold_left_app, (scan_body _ _ Hbody).
  cbn [fold_left]. now rewrite (scan_close _ _ Hc).
Qed.

Lemma scan_blocks (blocks : list fenced_block) (code : list string) :
  Forall well_fenced blocks ->
  fold_left fence_step (flat_map block_lines blocks) (code, false)
  = ((code ++ flat_map fb_body blocks)%list, false).
Proof.
  intros H. revert code. induction H as [|b bs Hb _ IH]; intros code.
  - cbn. now rewrite app_nil_r.
  - cbn [flat_map]. rewrite fold_left_app, (scan_block _ _ Hb), IH.
    now rewrite <- app_assoc.
Qed.

(** When the first loop collects something, that is the code body. *)
Lemma extract_fenced (response : string) (x : string) (xs : list string) :
  fenced_code_lines (response_lines response) = x :: xs ->
  _extract_code_from_response response = join nl (x :: xs).
Proof. intros H. unfold _extract_code_from_response. now rewrite H. Qed.

Lemma extract_collected (response : string) (code : list string) :
  fenced_code_lines (response_lines response) = code ->
  code <> [] ->
  _extract_code_from_response response = join nl code.
Proof.
  intros H Hne. destruct code as [|x xs]; [contradiction|].
  now apply extract_fenced.
Qed.

(** ** The import scanner *)

Lemma scan_no_import (ls : list string) :
  (forall l, In l ls -> is_import_line l = false) ->
  fold_left import_step ls ([], false) = ([], false).
Proof.
  induction ls as [|l ls IH]; intros H; cbn [fold_left]; [reflexivity|].
  unfold import_step at 2. rewrite (H l (or_introl eq_refl)).
  apply IH. intros x Hx. apply H. now right.
Qed.

(** ** The extractor *)

Lemma is_fence_open_strip (a b : string) :
  strip a = strip b -> is_fence_open a = is_fence_open b.
Proof. intros H. unfold is_fence_open. now rewrite H. Qed.

Lemma is_import_line_strip (a b : string) :
  strip a = strip b -> is_import_line a = is_import_line b.
Proof. intros H. unfold is_import_line. now rewrite H. Qed.

Lemma is_fence_close_strip (a b : string) :
  strip a = strip b -> is_fence_close a = is_fence_close b.
Proof. intros H. unfold is_fence_close. now rewrite H. Qed.

Lemma fence_open_nonblank (l : string) :
  is_fence_open l = true -> nonempty (strip l) = true.
Proof. unfold is_fence_open. now destruct (strip l). Qed.

Lemma fence_close_nonblank (l : string) :
  is_fence_close l = true -> nonempty (strip l) = true.
Proof. unfold is_fence_close. now destruct (strip l). Qed.

Lemma no_fence_open_within (ls' ls : list string) :
  strips_within ls' ls ->
  (forall l, In l ls -> is_fence_open l = false) ->
  forall l, In l ls' -> is_fence_open l = false.
Proof.
  intros W H l' Hl'. destruct (W l' Hl') as (l & Hl & E).
  rewrite (is_fence_open_strip _ _ E). now apply H.
Qed.

(** One block among the lines of the stripped reply. *)
Lemma extract_one_block (response : string) (pre : list string) (o : string)
    (body : list string) (c : string) (post : list string) :
  response_lines response = (pre ++ o :: body ++ c :: post)%list ->
  (forall l, In l pre -> is_fence_open l = false) ->
  is_fence_open o = true ->
  (forall l, In l body -> is_fence_open l = false /\ is_fence_close l = false) ->
  body <> [] ->
  is_fence_close c = true ->
  (forall l, In l post -> is_fence_open l = false) ->
  _extract_code_from_response response = join nl body.
Proof.
  intros Hlines Hpre Ho Hbody Hne Hc Hpost.
  apply extract_collected; [|exact Hne].
  unfold fenced_code_lines. rewrite Hlines.
  rewrite fold_left_app, (scan_outside _ _ Hpre). cbn [fold_left].
  rewrite (scan_open _ _ _ Ho), fold_left_app, (scan_body _ _ Hbody).
  cbn [fold_left]. rewrite (scan_close _ _ Hc), (scan_outside _ _ Hpost).
  reflexivity.
Qed.

(** C5.  When the lines of a reply are: lines that open no block, a
    python-fence-open marker, one or more lines of code that are no markers,
    a fence-close marker, and lines that open no block, the extractor returns
    the lines of code joined by line feeds: the output's lines are exactly
    the lines of the reply between the markers, in order and unchanged, and
    no marker is among them. *)
Theorem C5_fenced_block_is_extracted :
  forall (response : string) (pre : list string) (o : string)
         (body : list string) (c : string) (post : list string),
    split LF response = (pre ++ o :: body ++ c :: post)%list ->
    (forall l, In l pre -> is_fence_open l = false) ->
    is_fence_open o = true ->
    (forall l, In l body -> is_fence_open l = false /\ is_fence_close l = false) ->
    body <> [] ->
    is_fence_close c = true ->
    (forall l, In l post -> is_fence_open l = false) ->
    _extract_code_from_response response = join nl body
    /\ split LF (_extract_code_from_response response) = body
    /\ (forall l, In l (split LF (_extract_code_from_response response)) ->
          is_fence_open l = false /\ is_fence_close l = false).
Proof.
  intros response pre o body c post Hlines Hpre Ho Hbody Hne Hc Hpost.
  destruct (response_lines_between response pre o body c post Hlines
              (fence_open_nonblank o Ho) (fence_close_nonblank c Hc))
    as (pre' & o' & c' & post' & Hlines' & So & Sc & Wpre & Wpost).
  assert (E : _extract_code_from_response response = join nl body).
  { apply (extract_one_block response pre' o' body c' post' Hlines').
    - exact (no_fence_open_within _ _ Wpre Hpre).
    - now rewrite (is_fence_open_strip _ _ So).
    - exact Hbody.
    - exact Hne.
    - now rewrite (is_fence_close_strip _ _ Sc).
    - exact (no_fence_open_within _ _ Wpost Hpost). }
  assert (S : split LF (join nl body) = body).
  { apply split_join; [exact Hne|].
    intros l Hl. apply (split_one_line response). rewrite Hlines.
    apply in_or_app. right. right. apply in_or_app. now left. }
  rewrite E, S. repeat split; try apply Hbody; assumption.
Qed.

(** C6, as amended.  When no line of a reply is a python-fence-open marker or
    an import line, the extractor returns the reply without its leading and
    trailing whitespace, and so the reply itself when it has none. *)
Theorem C6_plain_reply_is_returned_stripped :
  forall (response : string),
    (forall l, In l (split LF response) ->
       is_fence_open l = false /\ is_import_line l = false) ->
    _extract_code_from_response response = strip response
    /\ (strip response = response -> _extract_code_from_response response = response).
Proof.
  intros response Hraw.
  assert (H : forall l, In l (response_lines response) ->
                is_fence_open l = false /\ is_import_line l = false).
  { intros l' Hl'. destruct (response_lines_strips response l' Hl') as (l & Hl & E).
    rewrite (is_fence_open_strip _ _ E), (is_import_line_strip _ _ E).
    now apply Hraw. }
  assert (E : _extract_code_from_response response = strip response).
  { unfold _extract_code_from_response, fenced_code_lines, import_code_lines.
    rewrite scan_outside by (intros l Hl; now apply H). cbn [fst].
    rewrite scan_no_import by (intros l Hl; now apply H). cbn [fst].
    pose proof (split_not_nil LF (strip response)) as Hnil.
    unfold response_lines in *.
    destruct (split LF (strip response)) as [|x xs] eqn:Hs; [contradiction|].
    rewrite <- Hs. apply join_split. }
  split; [exact E|]. intros Hid. now rewrite E.
Qed.

(** C6 as stated fails: the reply that [get_user_input] returns when the
    operator types "x = 1" and two empty lines has no fences and no import
    lines, ends with a line feed, and comes back without it. *)
Lemma C6_counterexample_trailing_newline_is_dropped :
  get_user_input paste_prompt ["x = 1"; EmptyString; EmptyString]
  = ([paste_prompt], plain_reply, [])
  /\ (forall l, In l (split LF plain_reply) ->
     is_fence_open l = false /\ is_fence_close l = false /\ is_import_line l = false)
  /\ _extract_code_from_response plain_reply = "x = 1"
  /\ _extract_code_from_response plain_reply <> plain_reply.
Proof.
  split; [by_evaluation|]. split; [|split].
  - intros l Hl. vm_compute in Hl. each_in Hl; vm_compute; auto.
  - by_evaluation.
  - vm_compute. discriminate.
Qed.

(** C9, as amended.  After any number of closed python-fenced blocks:
    (a) when a further opening marker is followed by no closing marker, the
    first loop collects the lines of the closed blocks and then every line
    after that opening marker through the end of the reply, except lines
    that are themselves opening markers; (b) when no further block opens,
    it collects the lines of all the blocks in order, and nothing between or
    outside them.  In both cases the extractor returns the collected lines
    joined by line feeds when at least one line was collected. *)
Theorem C9_unclosed_and_several_blocks :
  forall (response : string) (blocks : list fenced_block),
    Forall well_fenced blocks ->
    (forall (pre : list string) (o : string) (rest : list string),
        response_lines response
        = (flat_map block_lines blocks ++ pre ++ o :: rest)%list ->
        (forall l, In l pre -> is_fence_open l = false) ->
        is_fence_open o = true ->
        (forall l, In l rest -> is_fence_close l = false) ->
        let collected :=
          (flat_map fb_body blocks
           ++ filter (fun l => negb (is_fence_open l)) rest)%list in
        fenced_code_lines (response_lines response) = collected
        /\ (collected <> [] ->
            _extract_code_from_response response = join nl collected))
    /\ (forall (tail : list string),
          response_lines response = (flat_map block_lines blocks ++ tail)%list ->
          (forall l, In l tail -> is_fence_open l = false) ->
          fenced_code_lines (response_lines response) = flat_map fb_body blocks
          /\ (flat_map fb_body blocks <> [] ->
              _extract_code_from_response response
              = join nl (flat_map fb_body blocks))).
Proof.
  intros response blocks Hwf. split.
  - intros pre o rest Hlines Hpre Ho Hrest collected.
    assert (E : fenced_code_lines (response_lines response) = collected).
    { unfold fenced_code_lines. rewrite Hlines.
      rewrite fold_left_app, (scan_blocks _ _ Hwf).
      rewrite fold_left_app, (scan_outside _ _ Hpre). cbn [fold_left].
      rewrite (scan_open _ _ _ Ho), (scan_unclosed _ _ Hrest). reflexivity. }
    split; [exact E|]. intros Hne. now apply extract_collected.
  - intros tail Hlines Htail.
    assert (E : fenced_code_lines (response_lines response)
                = flat_map fb_body blocks).
    { unfold fenced_code_lines. rewrite Hlines.
      rewrite fold_left_app, (scan_blocks _ _ Hwf), (scan_outside _ _ Htail).
      reflexivity. }
    split; [exact E|]. intros Hne. now apply extract_collected.
Qed.

(** C9 as stated fails.  A reply with two python-fenced blocks that are both
    empty comes back whole, markers and the text between the blocks included;
    and a second opening marker inside an unclosed block is not collected. *)
Lemma C9_counterexample_empty_blocks_return_whole_reply :
  response_lines empty_blocks_reply
  = flat_map block_lines [empty_block; empty_block_after_x]
  /\ well_fenced empty_block
  /\ well_fenced empty_block_after_x
  /\ _extract_code_from_response empty_blocks_reply = empty_blocks_reply
  /\ _extract_code_from_response empty_blocks_reply
     <> join nl (flat_map fb_body [empty_block; empty_block_after_x])
  /\ response_lines reopened_reply = ["```python"; "a"; "```python"; "b"]
  /\ _extract_code_from_response reopened_reply = join nl ["a"; "b"]
  /\ _extract_code_from_response reopened_reply <> join nl ["a"; "```python"; "b"].
Proof.
  assert (W : forall before, (forall l, In l before -> is_fence_open l = false) ->
              well_fenced {| fb_before := before; fb_open := "```python";
                             fb_body := []; fb_close := "```" |}).
  { intros before Hb. split; [exact Hb|]. split; [by_evaluation|].
    split; [intros l []|by_evaluation]. }
  split; [by_evaluation|].
  split; [apply W; intros l []|].
  split; [apply W; intros l Hl; each_in Hl; by_evaluation|].
  split; [by_evaluation|].
  split; [vm_compute; discriminate|].
  split; [by_evaluation|].
  split; [by_evaluation|].
  vm_compute; discriminate.
Qed.

(** ** The digest *)

Import Format.

(** Every line of an entry starts with two spaces. *)
Lemma format_button_indented entry : indented (format_button entry).
Proof. destruct entry. exact (startswith_app "  " _). Qed.

Lemma format_link_indented entry : indented (format_link entry).
Proof. destruct entry. exact (startswith_app "  " _). Qed.

Lemma format_input_indented entry x : In x (format_input entry) -> indented x.
Proof.
  destruct entry as [idx f]. unfold format_input.
  destruct (_ =? "input")%string;
    [intros [<-|[]]; exact (startswith_app "  " _)|].
  destruct (_ =? "textarea")%string;
    [intros [<-|[]]; exact (startswith_app "  " _)|].
  destruct (_ =? "select")%string;
    [intros [<-|[]]; exact (startswith_app "  " _)|].
  intros [].
Qed.

Lemma format_form_input_indented entry : indented (format_form_input entry).
Proof. destruct entry. exact (startswith_app "  " _). Qed.

Lemma format_form_indented entry x : In x (format_form entry) -> indented x.
Proof.
  destruct entry as [idx f]. unfold format_form.
  intros [<-|Hin]; [exact (startswith_app "  " _)|].
  destruct (present_nonempty (form_inputs f)); [|destruct Hin].
  apply in_map_iff in Hin as (y & <- & _). apply format_form_input_indented.
Qed.

Lemma format_header_indented h : indented (format_header h).
Proof. exact (startswith_app "  " _). Qed.

Lemma format_nav_item_indented entry : indented (format_nav_item entry).
Proof. destruct entry. exact (startswith_app "  " _). Qed.

Lemma format_nav_indented nav x : In x (format_nav nav) -> indented x.
Proof.
  unfold format_nav. intros [<-|Hin]; [exact (startswith_app "  " _)|].
  apply in_app_or in Hin as [Hin|Hin].
  - apply in_map_iff in Hin as (y & <- & _). apply format_nav_item_indented.
  - destruct (5 <? _)%nat; [|destruct Hin].
    destruct Hin as [<-|[]]. exact (startswith_app "  " _).
Qed.



Lemma category_header_shape (c : category) :
  startswith "  " (category_header c) = false
  /\ startswith "SITE DESCRIPTION: " (category_header c) = false.
Proof. destruct c; split; reflexivity. Qed.


Lemma enumerate_nth_error {A : Type} (l : list A) (k i : nat) (a : A) :
  nth_error l i = Some a -> In ((k + i)%nat, a) (enumerate k l).
Proof.
  revert k i. induction l as [|x l IH]; intros k i H.
  - destruct i; discriminate.
  - destruct i as [|i]; cbn in H.
    + injection H as ->. rewrite Nat.add_0_r. now left.
    + right. rewrite <- Nat.add_succ_comm. now apply IH.
Qed.

Lemma flat_map_in_the_middle {A B : Type} (f : A -> list B) (l : list A) (a : A) :
  In a l -> exists before after, flat_map f l = (before ++ f a ++ after)%list.
Proof.
  intros H. apply in_split in H as (l1 & l2 & ->).
  exists (flat_map f l1), (flat_map f l2).
  now rewrite flat_map_app.
Qed.


(** *** The digest as text *)

Lemma split_app_LF (a b : string) :
  split LF (a ++ String LF b) = (split LF a ++ split LF b)%list.
Proof.
  induction a as [|c a IH].
  - cbn [append]. rewrite (split_cons_LF LF b) by reflexivity. reflexivity.
  - change (String c a ++ String LF b) with (String c (a ++ String LF b)).
    destruct (Ascii.eqb c LF) eqn:E.
    + rewrite !(split_cons_LF c) by exact E. now rewrite IH.
    + destruct (split LF a) as [|hd tl] eqn:Ea; [now apply split_not_nil in Ea|].
      rewrite (split_cons_other c a hd tl E Ea).
      rewrite (split_cons_other c (a ++ String LF b) hd (tl ++ split LF b)%list E)
        by (rewrite IH; reflexivity).
      reflexivity.
Qed.

(** The lines of a text joined from entries are the lines of the entries. *)
Lemma split_join_lines (entries : list string) :
  entries <> [] -> split LF (join nl entries) = lines_of entries.
Proof.
  induction entries as [|x entries IH]; [contradiction|]. intros _.
  destruct entries as [|y entries].
  - cbn. now rewrite app_nil_r.
  - change (join nl (x :: y :: entries))
      with (x ++ String LF (join nl (y :: entries))).
    rewrite split_app_LF, IH by discriminate. reflexivity.
Qed.

Lemma lines_of_app (a b : list string) :
  lines_of (a ++ b) = (lines_of a ++ lines_of b)%list.
Proof. apply flat_map_app. Qed.

Lemma lines_of_one_line (entries : list string) :
  (forall x, In x entries -> one_line x = true) -> lines_of entries = entries.
Proof.
  induction entries as [|x entries IH]; intros H; [reflexivity|].
  cbn [lines_of flat_map]. rewrite (split_single_line x) by (apply H; now left).
  cbn [List.app]. f_equal. apply IH. intros y Hy. apply H. now right.
Qed.

(** Consecutive entries take consecutive lines of the text. *)
Lemma lines_in_the_middle (before block after : list string) :
  block <> [] ->
  exists lines_before lines_after,
    split LF (join nl (before ++ block ++ after))
    = (lines_before ++ lines_of block ++ lines_after)%list.
Proof.
  intros Hb. exists (lines_of before), (lines_of after).
  rewrite split_join_lines, !lines_of_app; [reflexivity|].
  destruct before; [destruct block; [contradiction|discriminate]|discriminate].
Qed.

Lemma split_category_header (c : category) :
  In (header_line c) (split LF (category_header c))
  /\ forall l, In l (split LF (category_header c)) ->
       l = EmptyString \/ l = header_line c.
Proof.
  destruct c; (split; [vm_compute; tauto|]);
    intros l Hl; vm_compute in Hl; each_in Hl; tauto.
Qed.



(** *** Entries without line feeds *)

Lemma In_firstn {A : Type} (n : nat) (l : list A) (x : A) :
  In x (firstn n l) -> In x l.
Proof.
  intros H. rewrite <- (firstn_skipn n l). apply in_or_app. now left.
Qed.

Lemma all_digits_string_of_uint (d : Decimal.uint) :
  all_digits (NilEmpty.string_of_uint d) = true.
Proof. induction d; cbn; auto. Qed.

Lemma str_of_nat_one_line (n : nat) : one_line (str_of_nat n) = true.
Proof. apply all_digits_one_line, all_digits_string_of_uint. Qed.

Lemma one_line_get_or (field : option string) (default : string) :
  one_line_field field = true -> one_line default = true ->
  one_line (get_or field default) = true.
Proof. now destruct field. Qed.

Lemma one_line_join (sep : string) (l : list string) :
  one_line sep = true ->
  (forall x, In x l -> one_line x = true) ->
  one_line (join sep l) = true.
Proof.
  intros Hs. induction l as [|x l IH]; intros H; [reflexivity|].
  destruct l as [|y l]; [apply H; now left|].
  change (join sep (x :: y :: l)) with (x ++ sep ++ join sep (y :: l)).
  rewrite !one_line_app, Hs, (H x (or_introl eq_refl)).
  cbn [andb]. apply IH. intros z Hz. apply H. now right.
Qed.

(** The conjunctions of the hypotheses, taken apart. *)
Ltac split_andb :=
  repeat match goal with
         | H : _ && _ = true |- _ => apply andb_prop in H as [? ?]
         end.

(** A text put together from texts without line feeds has none. *)
Ltac one_line_parts :=
  rewrite ?one_line_app;
  repeat (apply andb_true_intro; split);
  try reflexivity;
  try apply str_of_nat_one_line;
  try (apply one_line_get_or; [assumption|reflexivity]).

Lemma format_button_one_line entry :
  single_line_button (snd entry) = true -> one_line (format_button entry) = true.
Proof.
  destruct entry as [idx b]. unfold single_line_button. cbn [snd]. intros H.
  split_andb. unfold format_button. one_line_parts.
Qed.

Lemma format_link_one_line entry :
  single_line_link (snd entry) = true -> one_line (format_link entry) = true.
Proof.
  destruct entry as [idx l]. unfold single_line_link. cbn [snd]. intros H.
  split_andb. unfold format_link. one_line_parts.
Qed.

Lemma options_text_one_line (options : list option_el) :
  forallb (fun opt => one_line_field (option_text opt)) options = true ->
  one_line (options_text options) = true.
Proof.
  intros H. unfold options_text.
  assert (J : one_line
                (join ", " (map (fun opt => get_or (option_text opt) "Option")
                              (firstn 5 options))) = true).
  { apply one_line_join; [reflexivity|]. intros x Hx.
    apply in_map_iff in Hx as (opt & <- & Hopt).
    apply one_line_get_or; [|reflexivity].
    apply (proj1 (forallb_forall _ _) H). exact (In_firstn _ _ _ Hopt). }
  destruct (5 <? _)%nat; [|exact J]. one_line_parts. exact J.
Qed.

Lemma format_input_one_line entry x :
  single_line_input (snd entry) = true ->
  In x (format_input entry) -> one_line x = true.
Proof.
  destruct entry as [idx f]. unfold single_line_input. cbn [snd]. intros H.
  split_andb. unfold format_input.
  destruct (_ =? "input")%string;
    [intros [<-|[]]; destruct (get_or (input_required f) false); one_line_parts|].
  destruct (_ =? "textarea")%string; [intros [<-|[]]; one_line_parts|].
  destruct (_ =? "select")%string; [|intros []].
  intros [<-|[]]. one_line_parts. now apply options_text_one_line.
Qed.

Lemma format_form_input_one_line entry :
  single_line_form_input (snd entry) = true ->
  one_line (format_form_input entry) = true.
Proof.
  destruct entry as [i f]. unfold single_line_form_input. cbn [snd]. intros H.
  split_andb. unfold format_form_input.
  destruct (_ =? "input")%string; one_line_parts.
Qed.

Lemma In_enumerate {A : Type} (k : nat) (l : list A) (i : nat) (a : A) :
  In (i, a) (enumerate k l) -> In a l.
Proof.
  revert k. induction l as [|b l IH]; intros k; [intros []|].
  cbn [enumerate]. intros [[= _ <-]|H]; [now left|right; exact (IH _ H)].
Qed.

Lemma format_form_one_line entry x :
  single_line_form (snd entry) = true ->
  In x (format_form entry) -> one_line x = true.
Proof.
  destruct entry as [idx f]. unfold single_line_form. cbn [snd]. intros H.
  split_andb. unfold format_form. intros [<-|Hin]; [one_line_parts|].
  destruct (present_nonempty (form_inputs f)); [|destruct Hin].
  apply in_map_iff in Hin as ([i fi] & <- & Hfi).
  apply format_form_input_one_line. cbn [snd].
  apply (proj1 (forallb_forall _ _) H0). exact (In_enumerate _ _ _ _ Hfi).
Qed.

Lemma format_header_one_line h :
  single_line_header h = true -> one_line (format_header h) = true.
Proof.
  unfold single_line_header. intros H. split_andb.
  unfold format_header. one_line_parts.
Qed.

Lemma format_nav_item_one_line entry :
  single_line_nav_item (snd entry) = true ->
  one_line (format_nav_item entry) = true.
Proof.
  destruct entry as [i item]. unfold single_line_nav_item. cbn [snd]. intros H.
  split_andb. unfold format_nav_item. one_line_parts.
Qed.

Lemma format_nav_one_line nav x :
  single_line_nav nav = true -> In x (format_nav nav) -> one_line x = true.
Proof.
  unfold single_line_nav. intros H. split_andb.
  unfold format_nav. intros [<-|Hin]; [one_line_parts|].
  apply in_app_or in Hin as [Hin|Hin].
  - apply in_map_iff in Hin as ([i item] & <- & Hitem).
    apply format_nav_item_one_line. cbn [snd].
    apply (proj1 (forallb_forall _ _) H0).
    exact (In_firstn _ _ _ (In_enumerate _ _ _ _ Hitem)).
  - destruct (5 <? _)%nat; [|destruct Hin].
    destruct Hin as [<-|[]]. one_line_parts.
Qed.

Lemma formatted_elements_entries (e : elements_record) (x : string) :
  single_line_record e = true ->
  In x (formatted_elements e) -> digest_entry e x.
Proof.
  unfold single_line_record, formatted_elements, digest_entry. intros S H.
  apply andb_prop in S as [S Sforms]. apply andb_prop in S as [S Sinputs].
  apply andb_prop in S as [S Slinks]. apply andb_prop in S as [Smeta Sbuttons].
  repeat (apply in_app_or in H as [H|H]).
  - right. right. unfold description_part in H.
    destruct (el_metadata e) as [meta|]; [|destruct H].
    apply andb_prop in Smeta as [Sd _].
    destruct (meta_description meta) as [d|]; [|destruct H].
    destruct H as [<-|[]]. now exists d.
  - unfold buttons_part in H.
    destruct (present_nonempty (el_buttons e)) eqn:Hp; [|destruct H].
    destruct H as [<-|H]; [left; now exists Buttons|right; left].
    apply in_map_iff in H as ([i b] & <- & Hb).
    split; [apply format_button_indented|apply format_button_one_line].
    apply (proj1 (forallb_forall _ _) Sbuttons). exact (In_enumerate _ _ _ _ Hb).
  - unfold links_part in H.
    destruct (present_nonempty (el_links e)) eqn:Hp; [|destruct H].
    destruct H as [<-|H]; [left; now exists Links|right; left].
    apply in_map_iff in H as ([i b] & <- & Hb).
    split; [apply format_link_indented|apply format_link_one_line].
    apply (proj1 (forallb_forall _ _) Slinks). exact (In_enumerate _ _ _ _ Hb).
  - unfold inputs_part in H.
    destruct (present_nonempty (el_inputs e)) eqn:Hp; [|destruct H].
    destruct H as [<-|H]; [left; now exists Inputs|right; left].
    apply in_flat_map in H as ([i f] & Hf & H).
    split; [exact (format_input_indented _ _ H)|].
    apply (format_input_one_line (i, f)); [|exact H].
    apply (proj1 (forallb_forall _ _) Sinputs). exact (In_enumerate _ _ _ _ Hf).
  - unfold forms_part in H.
    destruct (present_nonempty (el_forms e)) eqn:Hp; [|destruct H].
    destruct H as [<-|H]; [left; now exists Forms|right; left].
    apply in_flat_map in H as ([i f] & Hf & H).
    split; [exact (format_form_indented _ _ H)|].
    apply (format_form_one_line (i, f)); [|exact H].
    apply (proj1 (forallb_forall _ _) Sforms). exact (In_enumerate _ _ _ _ Hf).
  - unfold page_structure_part in H.
    destruct (el_metadata e) as [meta|] eqn:Hm; [|destruct H].
    apply andb_prop in Smeta as [_ Sps].
    destruct (meta_page_structure meta) as [ps|] eqn:Hps; [|destruct H].
    assert (Hof : page_structure_of e = Some ps)
      by (unfold page_structure_of; now rewrite Hm).
    apply andb_prop in Sps as [Sh Sn].
    apply in_app_or in H as [H|H].
    + unfold headers_part in H.
      destruct (present_nonempty (ps_headers ps)) eqn:Hp; [|destruct H].
      destruct H as [<-|H].
      * left. exists Headers. split; [reflexivity|]. cbn. now rewrite Hof.
      * right. left. apply in_map_iff in H as (h & <- & Hh).
        split; [apply format_header_indented|apply format_header_one_line].
        exact (proj1 (forallb_forall _ _) Sh h Hh).
    + unfold navigation_part in H.
      destruct (present_nonempty (ps_navigation ps)) eqn:Hp; [|destruct H].
      destruct H as [<-|H].
      * left. exists Navigation. split; [reflexivity|]. cbn. now rewrite Hof.
      * right. left. apply in_flat_map in H as (nav & Hnav & H).
        split; [exact (format_nav_indented _ _ H)|].
        apply (format_nav_one_line nav); [|exact H].
        exact (proj1 (forallb_forall _ _) Sn nav Hnav).
Qed.

Lemma formatted_digest_lines (self : TestCaseGenerator) :
  formatted_elements (elements self) <> [] ->
  split LF (_format_elements_for_prompt self)
  = lines_of (formatted_elements (elements self)).
Proof.
  intros H. unfold _format_elements_for_prompt. now apply split_join_lines.
Qed.

(** The lines of the returned digest when no text of the record holds a line
    feed. *)
Lemma digest_line_kinds (self : TestCaseGenerator) (l : string) :
  single_line_record (elements self) = true ->
  In l (split LF (_format_elements_for_prompt self)) ->
  l = EmptyString
  \/ (exists c, l = header_line c /\ category_nonempty (elements self) c = true)
  \/ (indented l /\ In l (formatted_elements (elements self)))
  \/ startswith "SITE DESCRIPTION: " l = true.
Proof.
  intros S H.
  destruct (formatted_elements (elements self)) as [|x0 xs] eqn:E.
  { unfold _format_elements_for_prompt in H. rewrite E in H.
    destruct H as [<-|[]]. now left. }
  rewrite formatted_digest_lines in H by (rewrite E; discriminate).
  rewrite <- E. rewrite E in H. rewrite <- E in H. clear E x0 xs.
  apply in_flat_map in H as (x & Hx & Hl).
  destruct (formatted_elements_entries _ x S Hx)
    as [(c & -> & Hc)|[[Hi Ho]|(d & -> & Hd)]].
  - destruct (proj2 (split_category_header c) l Hl) as [->| ->];
      [now left|right; left; now exists c].
  - rewrite (split_single_line x Ho) in Hl. destruct Hl as [<-|[]].
    right. right. left. now split.
  - rewrite <- append_assoc in Hl. unfold nl in Hl.
    rewrite (split_line_then ("SITE DESCRIPTION: " ++ d) EmptyString) in Hl
      by (rewrite one_line_app, Hd; reflexivity).
    destruct Hl as [<-|[<-|[]]]; [|now left].
    right. right. right. exact (startswith_app "SITE DESCRIPTION: " d).
Qed.


(** Consecutive entries take consecutive lines of the returned digest. *)
Lemma block_in_digest (self : TestCaseGenerator)
    (before block after : list string) :
  formatted_elements (elements self) = (before ++ block ++ after)%list ->
  block <> [] ->
  exists lines_before lines_after,
    split LF (_format_elements_for_prompt self)
    = (lines_before ++ lines_of block ++ lines_after)%list.
Proof.
  intros E Hb. unfold _format_elements_for_prompt. rewrite E.
  now apply lines_in_the_middle.
Qed.


(** A record without buttons whose description holds a line feed. *)
Lemma header_line_out_of_a_description :
  let self :=
    new_generator "output/elements.json" described_record in
  category_nonempty (elements self) Buttons = false
  /\ In (header_line Buttons) (split LF (_format_elements_for_prompt self)).
Proof. split; [reflexivity|vm_compute; tauto]. Qed.


(** ** The save paths *)

(** C8.  When a call inside [save_test_cases] raises an exception of class
    [Exception], the method prints the error and returns [False], so that no
    such exception ever leaves it; when the spreadsheet write inside
    [save_scripts] raises, the exception reaches the caller. *)
Theorem C8_save_test_cases_catches_save_scripts_propagates :
  (forall (os : os_calls) (self : TestCaseGenerator) (output_path : string)
          (e : exn),
      is_Exception e = true ->
      test_cases self <> [] ->
      (os_makedirs os (os_path_dirname os (os_path_abspath os output_path)) = Raise e
       -> save_test_cases os self output_path
          = (["Error saving test cases to Excel: " ++ str_of_exn e], Ok false))
      /\ (forall u,
            os_makedirs os (os_path_dirname os (os_path_abspath os output_path))
            = Ok u ->
            to_excel os (map processed_case (test_cases self)) output_path
            = Raise e ->
            save_test_cases os self output_path
            = (["Error saving test cases to Excel: " ++ str_of_exn e], Ok false)))
  /\ (forall (os : os_calls) (self : TestCaseGenerator) (output_path : string)
            (out : list string) (e : exn),
        save_test_cases os self output_path = (out, Raise e) ->
        is_Exception e = false)
  /\ (forall (os : os_calls) (scripts : TestScriptGenerator) (output_path : string)
            (e : exn),
        to_excel os (map script_row (test_scripts scripts)) output_path = Raise e ->
        save_scripts os scripts output_path = Raise e).
Proof.
  split; [|split].
  - intros os self output_path e He Hne. unfold save_test_cases.
    destruct (test_cases self) as [|tc tcs] eqn:Htc; [contradiction|].
    split.
    + intros ->. unfold try_except_Exception. now rewrite He.
    + intros u -> ->. unfold try_except_Exception. now rewrite He.
  - intros os self output_path out e. unfold save_test_cases.
    destruct (test_cases self) as [|tc tcs]; [discriminate|].
    unfold try_except_Exception.
    destruct (os_makedirs os _) as [u|e1].
    + destruct (to_excel os _ _) as [u'|e2]; [discriminate|].
      destruct (is_Exception e2) eqn:H2; [discriminate|].
      now intros [= _ <-].
    + destruct (is_Exception e1) eqn:H1; [discriminate|].
      now intros [= _ <-].
  - intros os scripts output_path e. unfold save_scripts. now intros ->.
Qed.

(** ** The extractor keeps lines of the reply *)

Lemma kept_in_order_refl {A : Type} (l : list A) : kept_in_order l l.
Proof. induction l; constructor; assumption. Qed.

Lemma kept_in_order_nil {A : Type} (l : list A) : kept_in_order [] l.
Proof. induction l; constructor; assumption. Qed.

Lemma kept_in_order_suffix {A : Type} (pre l : list A) :
  kept_in_order l (pre ++ l).
Proof.
  induction pre as [|x pre IH]; [apply kept_in_order_refl|].
  cbn. now constructor.
Qed.

Lemma kept_in_order_In {A : Type} (sub l : list A) (x : A) :
  kept_in_order sub l -> In x sub -> In x l.
Proof.
  induction 1 as [|y sub l _ IH|y sub l _ IH]; intros Hin.
  - exact Hin.
  - right. now apply IH.
  - destruct Hin as [->|Hin]; [now left|right; now apply IH].
Qed.

(** What the first loop adds to [code_lines]: lines of the reply in their
    order, none of them a marker. *)
Lemma fence_scan_keeps (ls code : list string) (b : bool) :
  exists sub b',
    fold_left fence_step ls (code, b) = ((code ++ sub)%list, b')
    /\ kept_in_order sub ls
    /\ forall l, In l sub -> is_fence_open l = false /\ is_fence_close l = false.
Proof.
  revert code b. induction ls as [|l ls IH]; intros code b.
  - exists [], b. cbn. rewrite app_nil_r.
    split; [reflexivity|]. split; [constructor|intros l []].
  - cbn [fold_left]. unfold fence_step at 2.
    destruct (is_fence_open l) eqn:Ho.
    + destruct (IH code true) as (sub & b' & E & K & M).
      exists sub, b'. split; [exact E|]. split; [now constructor|exact M].
    + destruct (is_fence_close l && b) eqn:Hc.
      * destruct (IH code false) as (sub & b' & E & K & M).
        exists sub, b'. split; [exact E|]. split; [now constructor|exact M].
      * destruct b.
        -- destruct (IH (code ++ [l])%list true) as (sub & b' & E & K & M).
           exists (l :: sub), b'. rewrite E, <- app_assoc. split; [reflexivity|].
           split; [now constructor|].
           rewrite andb_true_r in Hc.
           intros x [<-|Hx]; [now split|now apply M].
        -- destruct (IH code false) as (sub & b' & E & K & M).
           exists sub, b'. split; [exact E|]. split; [now constructor|exact M].
Qed.

Lemma fenced_code_lines_kept (ls : list string) :
  kept_in_order (fenced_code_lines ls) ls
  /\ forall l, In l (fenced_code_lines ls) ->
       is_fence_open l = false /\ is_fence_close l = false.
Proof.
  unfold fenced_code_lines.
  destruct (fence_scan_keeps ls [] false) as (sub & b' & E & K & M).
  rewrite E. cbn. now split.
Qed.

(** The second loop, once [in_code] is set, takes every line. *)
Lemma import_scan_started (ls code : list string) :
  fold_left import_step ls (code, true) = ((code ++ ls)%list, true).
Proof.
  revert code. induction ls as [|l ls IH]; intros code; cbn [fold_left].
  - now rewrite app_nil_r.
  - unfold import_step at 2.
    replace (if is_import_line l then true else true) with true
      by now destruct (is_import_line l).
    now rewrite IH, <- app_assoc.
Qed.

Lemma import_code_lines_from_first (pre : list string) (i : string)
    (rest : list string) :
  (forall l, In l pre -> is_import_line l = false) ->
  is_import_line i = true ->
  import_code_lines (pre ++ i :: rest)%list = i :: rest.
Proof.
  intros Hpre Hi. unfold import_code_lines.
  rewrite fold_left_app, (scan_no_import pre Hpre). cbn [fold_left].
  unfold import_step at 2. rewrite Hi. now rewrite import_scan_started.
Qed.

Lemma import_code_lines_kept (ls : list string) :
  kept_in_order (import_code_lines ls) ls.
Proof.
  unfold import_code_lines.
  assert (G : forall code,
             (exists pre i rest, ls = (pre ++ i :: rest)%list
                /\ fold_left import_step ls (code, false)
                   = ((code ++ i :: rest)%list, true))
             \/ fold_left import_step ls (code, false) = (code, false)).
  { induction ls as [|l ls IH]; intros code; [now right|].
    cbn [fold_left]. unfold import_step at 2 4.
    destruct (is_import_line l) eqn:Hl.
    - left. exists [], l, ls. split; [reflexivity|].
      now rewrite import_scan_started, <- app_assoc.
    - destruct (IH code) as [(pre & i & rest & -> & E)|E].
      + left. exists (l :: pre), i, rest. split; [reflexivity|exact E].
      + now right. }
  destruct (G []) as [(pre & i & rest & -> & E)|E]; rewrite E; cbn [fst List.app].
  - apply kept_in_order_suffix.
  - apply kept_in_order_nil.
Qed.

(** X1 (_extract_code_from_response, the import fallback).  When no line of
    the stripped reply opens a python fence, the result starts at the first
    line that begins with "import " or "from " and runs to the end of the
    stripped reply: every later line is taken, code or not. *)
Theorem X1_extract_from_first_import_line (response : string)
    (pre : list string) (i : string) (rest : list string) :
  response_lines response = (pre ++ i :: rest)%list ->
  (forall l, In l (response_lines response) -> is_fence_open l = false) ->
  (forall l, In l pre -> is_import_line l = false) ->
  is_import_line i = true ->
  _extract_code_from_response response = join nl (i :: rest).
Proof.
  intros E Hf Hpre Hi. unfold _extract_code_from_response, fenced_code_lines.
  rewrite (scan_outside _ [] Hf). cbn [fst].
  rewrite E, (import_code_lines_from_first pre i rest Hpre Hi). reflexivity.
Qed.

(** X2 (_extract_code_from_response).  Whatever the reply, the result is the
    join by line feeds of a non-empty selection of the lines of the stripped
    reply, in their order: the extractor never edits, reorders or invents a
    line. *)
Theorem X2_extract_selects_lines_in_order (response : string) :
  exists code_lines,
    _extract_code_from_response response = join nl code_lines
    /\ code_lines <> []
    /\ kept_in_order code_lines (response_lines response).
Proof.
  unfold _extract_code_from_response.
  destruct (fenced_code_lines (response_lines response)) as [|x xs] eqn:F.
  - destruct (import_code_lines (response_lines response)) as [|y ys] eqn:I.
    + exists (response_lines response). split; [reflexivity|].
      split; [apply split_not_nil|apply kept_in_order_refl].
    + exists (y :: ys). split; [reflexivity|]. split; [discriminate|].
      rewrite <- I. apply import_code_lines_kept.
  - exists (x :: xs). split; [reflexivity|]. split; [discriminate|].
    rewrite <- F. apply fenced_code_lines_kept.
Qed.

(** X3 (_extract_code_from_response, the first loop).  When the first loop
    collects at least one line, no line of the text returned is a fence
    marker: neither an opening "```python..." line nor a closing "```"
    line. *)
Theorem X3_extract_fenced_code_has_no_markers (response : string) :
  fenced_code_lines (response_lines response) <> [] ->
  forall l, In l (split LF (_extract_code_from_response response)) ->
    is_fence_open l = false /\ is_fence_close l = false.
Proof.
  intros Hne l Hl.
  rewrite (extract_collected response _ eq_refl Hne) in Hl.
  destruct (fenced_code_lines_kept (response_lines response)) as [K M].
  rewrite split_join in Hl; [now apply M|exact Hne|].
  intros x Hx. apply (response_lines_one_line response).
  exact (kept_in_order_In _ _ x K Hx).
Qed.

(** ** get_user_input *)

Lemma no_blank_pair_snoc (lines : list string) (x : string) :
  no_blank_pair (lines ++ [x])
  = no_blank_pair lines
    && negb (match lines with [] => false | _ :: _ => true end
             && blank (last lines EmptyString) && blank x).
Proof.
  induction lines as [|a lines IH]; [reflexivity|].
  destruct lines as [|b lines].
  - cbn. now rewrite !andb_true_r.
  - change (no_blank_pair ((a :: b :: lines) ++ [x]))
      with (negb (blank a && blank b) && no_blank_pair ((b :: lines) ++ [x])).
    rewrite IH.
    change (no_blank_pair (a :: b :: lines))
      with (negb (blank a && blank b) && no_blank_pair (b :: lines)).
    change (last (a :: b :: lines) EmptyString) with (last (b :: lines) EmptyString).
    now rewrite andb_assoc.
Qed.

Lemma no_blank_pair_prefix (l1 l2 : list string) :
  no_blank_pair (l1 ++ l2) = true -> no_blank_pair l1 = true.
Proof.
  revert l1. induction l2 as [|x l2 IH] using rev_ind; intros l1 H.
  - now rewrite app_nil_r in H.
  - rewrite app_assoc, no_blank_pair_snoc in H.
    apply andb_prop in H as [H _]. now apply IH.
Qed.

(** The loop invariant, with what the loop has read so far in [lines]. *)
Lemma read_reply_spec (stdin lines : list string) :
  no_blank_pair lines = true ->
  exists read,
    fst (read_reply stdin lines) = (lines ++ read)%list
    /\ no_blank_pair (lines ++ read) = true
    /\ ((stdin = read /\ snd (read_reply stdin lines) = [])
        \/ exists sentinel,
             stdin = (read ++ sentinel :: snd (read_reply stdin lines))%list
             /\ blank sentinel = true
             /\ (lines ++ read)%list <> []
             /\ blank (last (lines ++ read) EmptyString) = true).
Proof.
  revert lines. induction stdin as [|line rest IH]; intros lines Hl.
  - exists []. cbn. rewrite app_nil_r. split; [reflexivity|]. split; [exact Hl|].
    now left.
  - cbn [read_reply]. fold (blank line). fold (blank (last lines EmptyString)).
    destruct (blank line && match lines with [] => false | _ :: _ => true end
              && blank (last lines EmptyString)) eqn:Hstop.
    + exists []. cbn. rewrite app_nil_r. split; [reflexivity|]. split; [exact Hl|].
      right. exists line.
      apply andb_prop in Hstop as [Hstop Hlast].
      apply andb_prop in Hstop as [Hline Hne].
      split; [reflexivity|]. split; [exact Hline|]. split; [|exact Hlast].
      destruct lines; discriminate.
    + assert (Hl' : no_blank_pair (lines ++ [line]) = true).
      { rewrite no_blank_pair_snoc, Hl. cbn [andb].
        destruct (blank line), lines; cbn in Hstop |- *; try reflexivity;
          now rewrite ?Hstop, ?andb_false_r. }
      destruct (IH (lines ++ [line])%list Hl') as (read & E & N & C).
      exists (line :: read).
      rewrite <- app_assoc in E, N, C. cbn [List.app] in E, N, C.
      split; [exact E|]. split; [exact N|].
      destruct C as [[-> R]|(s & Es & Bs & Ne & Bl)].
      * now left.
      * right. exists s. split; [cbn; now rewrite <- Es|]. now split.
Qed.

(** Lines without a blank pair are all read. *)
Lemma read_reply_no_blank_pair (body lines : list string) (stdin : list string) :
  no_blank_pair (lines ++ body) = true ->
  read_reply (body ++ stdin) lines = read_reply stdin (lines ++ body).
Proof.
  revert lines. induction body as [|line body IH]; intros lines H.
  - now rewrite app_nil_r.
  - rewrite <- app_comm_cons. cbn [read_reply].
    replace (lines ++ line :: body)%list with ((lines ++ [line]) ++ body)%list in *
      by now rewrite <- app_assoc.
    pose proof (no_blank_pair_prefix _ _ H) as Hp.
    rewrite no_blank_pair_snoc in Hp. apply andb_prop in Hp as [_ Hp].
    fold (blank line). fold (blank (last lines EmptyString)).
    replace (blank line && match lines with [] => false | _ :: _ => true end
             && blank (last lines EmptyString)) with false.
    + now apply IH.
    + destruct (blank line), lines, (blank (last _ EmptyString));
        try reflexivity; discriminate.
Qed.

(** X4 (get_user_input).  Reading stops at the first blank line that directly
    follows a blank line.  The text returned ends with the first of the two;
    the second is consumed and dropped; the lines after it stay unread on the
    input, where the next call finds them. *)
Theorem X4_get_user_input_stops_at_second_blank_line (prompt : string)
    (body : list string) (b1 b2 : string) (rest : list string) :
  no_blank_pair (body ++ [b1]) = true ->
  blank b1 = true ->
  blank b2 = true ->
  get_user_input prompt (body ++ b1 :: b2 :: rest)
  = ([prompt], join nl (body ++ [b1]), rest).
Proof.
  intros N B1 B2. unfold get_user_input.
  replace (body ++ b1 :: b2 :: rest)%list with ((body ++ [b1]) ++ b2 :: rest)%list
    by now rewrite <- app_assoc.
  rewrite (read_reply_no_blank_pair (body ++ [b1]) [] (b2 :: rest) N).
  cbn [List.app read_reply]. fold (blank b2). rewrite B2, last_last.
  fold (blank b1). rewrite B1.
  destruct (body ++ [b1])%list eqn:E; [now destruct body|reflexivity].
Qed.

(** X5 (get_user_input, the EOFError branch).  When the input ends before a
    blank line has followed a blank line, every line typed is returned,
    joined by line feeds, and nothing is left to read. *)
Theorem X5_get_user_input_reads_to_end_of_input (prompt : string)
    (stdin : list string) :
  no_blank_pair stdin = true ->
  get_user_input prompt stdin = ([prompt], join nl stdin, []).
Proof.
  intros N. unfold get_user_input.
  pose proof (read_reply_no_blank_pair stdin [] [] N) as E.
  rewrite app_nil_r in E. rewrite E. reflexivity.
Qed.

(** X6 (get_user_input).  On every input the function prints the prompt and
    returns the join of a prefix of the lines typed in which no blank line
    follows a blank line.  Either that prefix is the whole input, or exactly
    one line is lost between the prefix and the lines left unread: a blank
    line that follows the blank line the prefix ends with. *)
Theorem X6_get_user_input_loses_one_blank_line_at_most (prompt : string)
    (stdin : list string) :
  exists lines rest,
    get_user_input prompt stdin = ([prompt], join nl lines, rest)
    /\ no_blank_pair lines = true
    /\ ((stdin = lines /\ rest = [])
        \/ exists sentinel,
             stdin = (lines ++ sentinel :: rest)%list
             /\ blank sentinel = true
             /\ lines <> []
             /\ blank (last lines EmptyString) = true).
Proof.
  destruct (read_reply_spec stdin [] eq_refl) as (read & E & N & C).
  cbn [List.app] in E, N, C.
  exists read, (snd (read_reply stdin [])).
  split; [|split; [exact N|exact C]].
  unfold get_user_input. destruct (read_reply stdin []) as [lines rest].
  cbn in E. now subst.
Qed.

(** ** generate_test_cases as a whole *)

Lemma self_after_keeps_the_rest (self : TestCaseGenerator) (response : string)
    (p : processed) :
  _process_ai_response self response = Ok p ->
  self_after p = set_test_cases self (test_cases (self_after p)).
Proof.
  destruct (nonempty (strip response)) eqn:Hne.
  - destruct (process_nonblank self response Hne) as (st & _ & ->).
    intros [= <-]. reflexivity.
  - rewrite (process_blank _ _ Hne). intros [= <-]. now destruct self.
Qed.

(** The success path of [generate_test_cases]. *)
Lemma generate_test_cases_reads_one_reply
    (tpl : template_calls) (self : TestCaseGenerator) (stdin : list string)
    (out0 : list string) (template : string) :
  elements_truthy (elements self) = true ->
  load_template tpl test_case_prompt_template = (out0, Ok template) ->
  (forall name url summary,
      exists prompt, format_template tpl template name url summary = Ok prompt) ->
  let reply := join nl (fst (read_reply stdin [])) in
  let g := generate_test_cases tpl self stdin in
  gen_result g = Ok (test_cases self ++ records_of reply)%list
  /\ gen_self g = set_test_cases self (test_cases self ++ records_of reply)%list
  /\ gen_stdin g = snd (read_reply stdin []).
Proof.
  intros Ht Hl Hf reply g. subst g reply.
  unfold generate_test_cases. rewrite Ht, Hl. cbn [negb].
  set (site := match el_metadata (elements self) with
               | Some meta => _ | None => _ end).
  destruct site as [[name url] out1].
  destruct (Hf name url (_format_elements_for_prompt self)) as [prompt ->].
  unfold get_user_input. destruct (read_reply stdin []) as [lines rest].
  cbn [fst snd].
  destruct (process_appends_records self (join nl lines)) as (p & Hp & E).
  rewrite Hp. cbn [gen_result gen_self gen_stdin].
  rewrite (self_after_keeps_the_rest _ _ _ Hp), E.
  split; [reflexivity|]. split; reflexivity.
Qed.

(** X7 (generate_test_cases).  When the Element Record is not empty, the
    template loads and formatting it succeeds, the call reads one reply from
    the console as [get_user_input] does, returns the records the generator
    already held followed by the records of that reply, stores the same list
    in the generator and leaves the unread lines on the input. *)
Theorem X7_generate_test_cases_appends_the_records_of_the_reply
    (tpl : template_calls) (self : TestCaseGenerator) (stdin : list string)
    (out0 : list string) (template : string) :
  elements_truthy (elements self) = true ->
  load_template tpl test_case_prompt_template = (out0, Ok template) ->
  (forall name url summary,
      exists prompt, format_template tpl template name url summary = Ok prompt) ->
  let reply := join nl (fst (read_reply stdin [])) in
  let g := generate_test_cases tpl self stdin in
  gen_result g = Ok (test_cases self ++ records_of reply)%list
  /\ gen_self g = set_test_cases self (test_cases self ++ records_of reply)%list
  /\ gen_stdin g = snd (read_reply stdin []).
Proof.
  exact (generate_test_cases_reads_one_reply tpl self stdin out0 template).
Qed.

(** X8 (generate_test_cases).  With a console that delivers lines of text,
    a call that raises an exception of class [Exception] has read nothing
    from the console and has left the generator as it was: the [ValueError]
    of the empty record, the exceptions of [load_template] and those of
    [str.format] all come before the operator is asked for the reply. *)
Theorem X8_generate_test_cases_failure_changes_nothing
    (tpl : template_calls) (self : TestCaseGenerator) (stdin : list string)
    (e : exn) :
  is_Exception e = true ->
  gen_result (generate_test_cases tpl self stdin) = Raise e ->
  gen_self (generate_test_cases tpl self stdin) = self
  /\ gen_stdin (generate_test_cases tpl self stdin) = stdin.
Proof.
  intros _. unfold generate_test_cases.
  destruct (negb (elements_truthy (elements self))); [now split|].
  destruct (load_template tpl test_case_prompt_template) as [out0 [template|e0]].
  - set (site := match el_metadata (elements self) with
                 | Some meta => _ | None => _ end).
    destruct site as [[name url] out1].
    destruct (format_template tpl template name url _); [|now split].
    destruct (get_user_input paste_prompt stdin) as [[out3 reply] rest].
    destruct (process_appends_records self reply) as (p & -> & _).
    discriminate.
  - destruct e0; now split.
Qed.

(** ** What the records depend on *)

Lemma lstrip_head (s : string) (c : ascii) (s' : string) :
  lstrip s = String c s' -> isspace c = false.
Proof.
  induction s as [|a s IH]; [discriminate|].
  cbn [lstrip]. destruct (isspace a) eqn:Ha; [exact IH|].
  intros [= <- _]. exact Ha.
Qed.

Lemma strip_cons_nonspace (c : ascii) (s : string) :
  isspace c = false -> nonempty (strip (String c s)) = true.
Proof.
  intros Hc. unfold strip. rewrite rstrip_cons.
  destruct (rstrip s); rewrite ?Hc; cbn [lstrip]; rewrite Hc; reflexivity.
Qed.

Lemma nonblank_reply_has_a_nonblank_line (r : string) :
  nonempty (strip r) = true -> nonblank_lines (split LF r) <> [].
Proof.
  intros H. rewrite <- nonblank_lines_strip.
  destruct (strip r) as [|c s] eqn:E; [discriminate|].
  assert (Hc : isspace c = false) by exact (lstrip_head _ _ _ E).
  assert (Hlf : Ascii.eqb c LF = false).
  { destruct (Ascii.eqb c LF) eqn:X; [|reflexivity].
    apply Ascii.eqb_eq in X. subst c. discriminate. }
  destruct (split LF s) as [|hd tl] eqn:Es; [now apply split_not_nil in Es|].
  rewrite (split_cons_other c s hd tl Hlf Es).
  rewrite nonblank_lines_cons_nonblank by now apply strip_cons_nonspace.
  discriminate.
Qed.

Lemma blank_reply_has_no_nonblank_line (r : string) :
  nonempty (strip r) = false -> nonblank_lines (split LF r) = [].
Proof.
  intros H. rewrite <- nonblank_lines_strip.
  destruct (strip r); [reflexivity|discriminate].
Qed.

(** X9 (_process_ai_response).  Two replies whose lines, stripped and with
    the blank ones left out, are the same have the same effect on every
    generator: the same lines printed, the same records, the same value
    returned.  Indentation, trailing spaces and blank lines never matter. *)
Theorem X9_only_the_stripped_nonblank_lines_matter
    (self : TestCaseGenerator) (r1 r2 : string) :
  nonblank_lines (split LF r1) = nonblank_lines (split LF r2) ->
  _process_ai_response self r1 = _process_ai_response self r2.
Proof.
  intros H. unfold _process_ai_response.
  destruct (nonempty (strip r1)) eqn:H1, (nonempty (strip r2)) eqn:H2; cbn [negb].
  - rewrite !for_each_response_lines.
    rewrite <- (for_each_nonblank_lines (split LF r1)),
            <- (for_each_nonblank_lines (split LF r2)), H.
    reflexivity.
  - exfalso. apply (nonblank_reply_has_a_nonblank_line r1 H1).
    rewrite H. now apply blank_reply_has_no_nonblank_line.
  - exfalso. apply (nonblank_reply_has_a_nonblank_line r2 H2).
    rewrite <- H. now apply blank_reply_has_no_nonblank_line.
  - reflexivity.
Qed.

Lemma records_of_split (r : string) :
  records_of r = records_of_lines (split LF r).
Proof.
  unfold records_of, records_of_lines.
  destruct (nonempty (strip r)) eqn:Hne.
  - destruct (process_nonblank (new_generator EmptyString no_elements) r Hne)
      as (st & Hst & ->).
    rewrite for_each_response_lines in Hst. rewrite Hst. reflexivity.
  - rewrite (process_blank _ _ Hne).
    rewrite <- for_each_nonblank_lines, (blank_reply_has_no_nonblank_line r Hne).
    reflexivity.
Qed.

Lemma process_line_same_records (st1 st2 st1' : loop_state) (raw : string) :
  same_records st1 st2 ->
  process_line st1 raw = Ok st1' ->
  exists st2', process_line st2 raw = Ok st2' /\ same_records st1' st2'.
Proof.
  destruct st1 as [cur1 sec1 acc1], st2 as [cur2 sec2 acc2].
  intros (Hc & Ha & Hs). cbn in Hc, Ha, Hs. subst cur2 acc2.
  unfold process_line. cbn [current_test_case section self_test_cases].
  destruct (negb (nonempty (strip raw))).
  { intros [= <-]. eexists. split; [reflexivity|]. now repeat split. }
  destruct (is_header (strip raw)).
  { intros [= <-]. eexists. split; [reflexivity|].
    split; [reflexivity|]. split; [reflexivity|now right]. }
  destruct (is_steps_heading (strip raw)).
  { intros [= <-]. eexists. split; [reflexivity|].
    split; [reflexivity|]. split; [reflexivity|now right]. }
  destruct (is_expected_heading (strip raw)).
  { intros [= <-]. eexists. split; [reflexivity|].
    split; [reflexivity|]. split; [reflexivity|now right]. }
  destruct Hs as [-> | ->].
  - destruct sec1 as [[|]|], sec2 as [[|]|]; intros [= <-];
      eexists; (split; [reflexivity|]); split; try reflexivity;
      split; try reflexivity; now left.
  - intros H. exists st1'. split; [exact H|].
    split; [reflexivity|]. split; [reflexivity|now right].
Qed.

Lemma for_each_same_records (lines : list string) (st1 st2 st1' : loop_state) :
  same_records st1 st2 ->
  for_each process_line lines st1 = Ok st1' ->
  exists st2', for_each process_line lines st2 = Ok st2' /\ same_records st1' st2'.
Proof.
  revert st1 st2. induction lines as [|l lines IH]; intros st1 st2 R.
  - intros [= <-]. exists st2. now split.
  - cbn [for_each]. destruct (process_line st1 l) as [st|e] eqn:E; [|discriminate].
    destruct (process_line_same_records _ _ _ _ R E) as (st' & -> & R').
    cbn [bind]. now apply IH.
Qed.

Lemma for_each_before_first_header (pre : list string) (st st' : loop_state) :
  (forall l, In l pre -> is_header (strip l) = false) ->
  current_test_case st = None ->
  for_each process_line pre st = Ok st' ->
  same_records st' st.
Proof.
  revert st. induction pre as [|l pre IH]; intros st Hpre Hc.
  - intros [= <-]. split; [reflexivity|]. split; [reflexivity|now right].
  - cbn [for_each]. destruct (process_line st l) as [st1|e] eqn:E; [|discriminate].
    cbn [bind]. intros H.
    assert (R1 : same_records st1 st /\ current_test_case st1 = None).
    { revert E. unfold process_line.
      destruct (negb (nonempty (strip l))).
      { intros [= <-]. split; [|exact Hc].
        split; [reflexivity|]. split; [reflexivity|now right]. }
      rewrite (Hpre l (or_introl eq_refl)).
      destruct (is_steps_heading (strip l)).
      { intros [= <-]. cbn. split; [|exact Hc].
        split; [reflexivity|]. split; [reflexivity|now left]. }
      destruct (is_expected_heading (strip l)).
      { intros [= <-]. cbn. split; [|exact Hc].
        split; [reflexivity|]. split; [reflexivity|now left]. }
      rewrite Hc. destruct (section st) as [[|]|]; intros [= <-];
        (split; [|exact Hc]); split; try reflexivity; split; try reflexivity;
        now right. }
    destruct R1 as [R1 Hc1].
    assert (R : same_records st' st1)
      by (apply (IH st1); [intros x Hx; apply Hpre; now right|exact Hc1|exact H]).
    destruct R as (A & B & C), R1 as (A1 & B1 & C1).
    split; [congruence|]. split; [congruence|].
    left. congruence.
Qed.

Lemma same_records_flush (st st' : loop_state) :
  same_records st st' -> flush st = flush st'.
Proof. intros (A & B & _). unfold flush. now rewrite A, B. Qed.

(** X10 (_process_ai_response).  Lines that come before the first header
    line of a reply, section headings among them, leave no trace in the
    records: the reply parses to the records of the reply without them. *)
Theorem X10_text_before_the_first_header_is_ignored (r1 r2 : string)
    (pre : list string) :
  split LF r1 = (pre ++ split LF r2)%list ->
  (forall l, In l pre -> is_header (strip l) = false) ->
  records_of r1 = records_of r2.
Proof.
  intros E Hpre. rewrite !records_of_split, E. unfold records_of_lines.
  rewrite for_each_app.
  set (st0 := loop_start (new_generator EmptyString no_elements)).
  destruct (for_each_process_line_total pre st0) as [st1 H1]. rewrite H1.
  cbn [bind].
  pose proof (for_each_before_first_header pre st0 st1 Hpre eq_refl H1) as R.
  destruct (for_each_process_line_total (split LF r2) st1) as [st2 H2].
  destruct (for_each_same_records _ _ _ _ R H2) as (st2' & H2' & R').
  rewrite H2, H2'. now apply same_records_flush.
Qed.

(** Outside a section, a line that is no header and no heading does nothing. *)
Lemma process_line_without_section (st : loop_state) (raw : string) :
  section st = None ->
  is_header (strip raw) = false ->
  is_steps_heading (strip raw) = false ->
  is_expected_heading (strip raw) = false ->
  process_line st raw = Ok st.
Proof.
  intros S A B C. unfold process_line. rewrite A, B, C, S.
  now destruct (negb (nonempty (strip raw))).
Qed.

Lemma for_each_without_section (lines : list string) (st : loop_state) :
  section st = None ->
  (forall l, In l lines ->
     is_header (strip l) = false
     /\ is_steps_heading (strip l) = false
     /\ is_expected_heading (strip l) = false) ->
  for_each process_line lines st = Ok st.
Proof.
  intros S H. induction lines as [|l lines IH]; [reflexivity|].
  cbn [for_each].
  destruct (H l (or_introl eq_refl)) as (A & B & C).
  rewrite (process_line_without_section st l S A B C). cbn [bind].
  apply IH. intros x Hx. apply H. now right.
Qed.

(** X11 (_process_ai_response).  Lines between a header line and the first
    section heading after it are dropped: while [section] is [None], a line
    that is no header and no heading is added to no record. *)
Theorem X11_text_between_header_and_first_heading_is_ignored (r1 r2 : string)
    (pre : list string) (header : string) (mid rest : list string) :
  split LF r1 = (pre ++ header :: mid ++ rest)%list ->
  split LF r2 = (pre ++ header :: rest)%list ->
  is_header (strip header) = true ->
  (forall l, In l mid ->
     is_header (strip l) = false
     /\ is_steps_heading (strip l) = false
     /\ is_expected_heading (strip l) = false) ->
  records_of r1 = records_of r2.
Proof.
  intros E1 E2 Hh Hmid. rewrite !records_of_split, E1, E2.
  unfold records_of_lines. rewrite !for_each_app.
  set (st0 := loop_start (new_generator EmptyString no_elements)).
  destruct (for_each_process_line_total pre st0) as [st1 H1]. rewrite H1.
  cbn [bind for_each]. rewrite (process_line_header st1 header Hh). cbn [bind].
  rewrite for_each_app.
  rewrite (for_each_without_section mid (opened (strip header) (flush st1))
             eq_refl Hmid).
  reflexivity.
Qed.

(** ** The skeleton of the digest *)

Lemma unindented_lines_app (a b : list string) :
  unindented_lines (a ++ b) = (unindented_lines a ++ unindented_lines b)%list.
Proof. apply filter_app. Qed.

Lemma unindented_lines_indented (ls : list string) :
  (forall x, In x ls -> indented x) -> unindented_lines ls = [].
Proof.
  induction ls as [|l ls IH]; intros H; [reflexivity|].
  change (unindented_lines (l :: ls))
    with (if negb (startswith "  " l)
          then l :: unindented_lines ls else unindented_lines ls).
  rewrite (H l (or_introl eq_refl)). cbn [negb].
  apply IH. intros x Hx. apply H. now right.
Qed.

(** A block of the method: nothing, or its header and indented lines. *)
Lemma unindented_lines_block (present : bool) (header : string)
    (entries : list string) :
  startswith "  " header = false ->
  (forall x, In x entries -> indented x) ->
  unindented_lines (if present then header :: entries else [])
  = if present then [header] else [].
Proof.
  intros Hh He. destruct present; [|reflexivity].
  change (unindented_lines (header :: entries))
    with (if negb (startswith "  " header)
          then header :: unindented_lines entries
          else unindented_lines entries).
  rewrite Hh. cbn [negb]. now rewrite (unindented_lines_indented entries He).
Qed.

(** The entries of [formatted_elements] that are not indented are the site
    description, when there is one, followed by the headers of the categories
    that are not empty, each once, in the order of the method's blocks. *)
Lemma entries_skeleton (e : elements_record) :
  unindented_lines (formatted_elements e)
  = (description_part e
     ++ map category_header (filter (category_nonempty e) all_categories))%list.
Proof.
  unfold formatted_elements. rewrite !unindented_lines_app.
  assert (D : unindented_lines (description_part e) = description_part e).
  { unfold description_part. destruct (el_metadata e) as [meta|]; [|reflexivity].
    destruct (meta_description meta); reflexivity. }
  rewrite D. f_equal.
  unfold buttons_part, links_part, inputs_part, forms_part.
  rewrite !unindented_lines_block; try reflexivity.
  2:{ intros x Hx. apply in_flat_map in Hx as (y & _ & Hx).
      now apply format_form_indented in Hx. }
  2:{ intros x Hx. apply in_flat_map in Hx as (y & _ & Hx).
      now apply format_input_indented in Hx. }
  2:{ intros x Hx. apply in_map_iff in Hx as (y & <- & _).
      apply format_link_indented. }
  2:{ intros x Hx. apply in_map_iff in Hx as (y & <- & _).
      apply format_button_indented. }
  assert (P : unindented_lines (page_structure_part e)
              = map category_header
                  (filter (category_nonempty e) [Headers; Navigation])).
  { unfold page_structure_part. cbn [filter category_nonempty].
    unfold page_structure_of.
    destruct (el_metadata e) as [meta|]; [|reflexivity].
    destruct (meta_page_structure meta) as [ps|]; [|reflexivity].
    rewrite unindented_lines_app. unfold headers_part, navigation_part.
    rewrite !unindented_lines_block; try reflexivity.
    - destruct (present_nonempty (ps_headers ps)),
               (present_nonempty (ps_navigation ps)); reflexivity.
    - intros x Hx. apply in_flat_map in Hx as (y & _ & Hx).
      now apply format_nav_indented in Hx.
    - intros x Hx. apply in_map_iff in Hx as (y & <- & _).
      apply format_header_indented. }
  rewrite P. unfold all_categories. cbn [filter category_nonempty].
  destruct (present_nonempty (el_buttons e)), (present_nonempty (el_links e)),
    (present_nonempty (el_inputs e)), (present_nonempty (el_forms e));
    reflexivity.
Qed.

(** ** generate_scripts *)

Lemma getitem_cell (r : row) (key : string) :
  getitem r key
  = match cell key r with
    | Some v => Ok v
    | None => Raise (KeyError ("'" ++ key ++ "'"))
    end.
Proof.
  induction r as [|[k v] r IH]; [reflexivity|].
  cbn [getitem cell]. now destruct (k =? key)%string.
Qed.

(** A well-ended paste is read whole, and nothing after it. *)
Lemma read_reply_well_ended (p : paste) (more : list string) :
  well_ended p ->
  read_reply (keystrokes p ++ more) [] = (typed p, more).
Proof.
  intros (N & Ne & B & S). unfold keystrokes.
  rewrite <- app_assoc.
  rewrite (read_reply_no_blank_pair (typed p) [] _ N).
  cbn [List.app read_reply]. fold (blank (sentinel p)).
  fold (blank (last (typed p) EmptyString)). rewrite S, B.
  destruct (typed p); [contradiction|reflexivity].
Qed.

(** One pass of the loop on a row that has its columns, with the reply for it
    at the front of the input. *)
Lemma script_for_row_pasted (tpl : script_template_calls) (template : string)
    (total i : nat) (st : scripting) (r : row) (p : paste) (more : list string) :
  (forall test_id test_scenario steps expected_result,
      exists prompt,
        format_script_template tpl template test_id test_scenario steps
          expected_result = Ok prompt) ->
  has_script_columns r ->
  well_ended p ->
  scr_stdin st = (keystrokes p ++ more)%list ->
  let st' := script_for_row tpl template total st (i, r) in
  scr_raised st' = None
  /\ scr_stdin st' = more
  /\ scr_self st' = append_script (scr_self st) (script_of (r, p)).
Proof.
  intros Hf Hr Hp Hin. unfold script_for_row. rewrite !getitem_cell.
  destruct (cell "Test Case ID" r) as [test_id|] eqn:E1;
    [|exfalso; apply (Hr "Test Case ID"); [cbn; tauto|exact E1]].
  destruct (cell "Test Scenario" r) as [test_scenario|] eqn:E2;
    [|exfalso; apply (Hr "Test Scenario"); [cbn; tauto|exact E2]].
  destruct (cell "Steps to Execute" r) as [steps|] eqn:E3;
    [|exfalso; apply (Hr "Steps to Execute"); [cbn; tauto|exact E3]].
  destruct (cell "Expected Result" r) as [expected_result|] eqn:E4;
    [|exfalso; apply (Hr "Expected Result"); [cbn; tauto|exact E4]].
  cbn [bind].
  destruct (Hf test_id test_scenario steps expected_result) as [prompt ->].
  cbn [bind]. unfold get_user_input.
  rewrite Hin, (read_reply_well_ended p more Hp).
  cbn [scr_raised scr_stdin scr_self].
  split; [reflexivity|]. split; [reflexivity|].
  unfold script_of. cbn [fst snd]. now rewrite E1, E2.
Qed.

(** The loop over rows that have their columns, with one reply for each. *)
Lemma script_loop_pasted (tpl : script_template_calls) (template : string)
    (total : nat) (entries : list (row * paste)) (more : list string) :
  (forall test_id test_scenario steps expected_result,
      exists prompt,
        format_script_template tpl template test_id test_scenario steps
          expected_result = Ok prompt) ->
  Forall (fun entry => has_script_columns (fst entry) /\ well_ended (snd entry))
         entries ->
  forall (k : nat) (later : list (nat * row)) (st : scripting),
    scr_raised st = None ->
    scr_stdin st = (flat_map keystrokes (map snd entries) ++ more)%list ->
    exists st',
      script_loop (script_for_row tpl template total)
        (enumerate k (map fst entries) ++ later) st
      = script_loop (script_for_row tpl template total) later st'
      /\ scr_raised st' = None
      /\ scr_stdin st' = more
      /\ test_cases_path (scr_self st') = test_cases_path (scr_self st)
      /\ loaded_test_cases (scr_self st') = loaded_test_cases (scr_self st)
      /\ test_scripts (scr_self st')
         = (test_scripts (scr_self st) ++ map script_of entries)%list.
Proof.
  intros Hf Hall. induction Hall as [|[r p] entries [Hr Hp] _ IH];
    intros k later st Hn Hin.
  - exists st. cbn. rewrite app_nil_r. now repeat split.
  - cbn [map fst snd flat_map enumerate List.app] in *.
    rewrite <- app_assoc in Hin.
    destruct (script_for_row_pasted tpl template total k st r p _ Hf Hr Hp Hin)
      as (R & I & S).
    cbn [script_loop]. rewrite R.
    destruct (IH (Datatypes.S k) later _ R I) as (st' & E & R' & I' & P & L & T).
    exists st'. split; [exact E|]. split; [exact R'|]. split; [exact I'|].
    rewrite S in P, L, T. cbn [append_script test_cases_path loaded_test_cases
                                 test_scripts] in P, L, T.
    split; [exact P|]. split; [exact L|].
    rewrite T, <- app_assoc. reflexivity.
Qed.

(** X13 (generate_scripts).  When the template loads and formats, every row
    has the four columns, and the operator pastes one reply for each row, each
    ended by a blank line after a blank line, the call raises nothing, reads
    exactly those replies, and appends one script for each row, in the order
    of the rows: the row's ID and scenario with the code extracted from the
    reply pasted for that row. *)
Theorem X13_generate_scripts_one_script_per_row
    (tpl : script_template_calls) (self : TestScriptGenerator)
    (out0 : list string) (template : string) (pastes : list paste)
    (more : list string) :
  load_script_template tpl test_script_prompt_template = (out0, Ok template) ->
  (forall test_id test_scenario steps expected_result,
      exists prompt,
        format_script_template tpl template test_id test_scenario steps
          expected_result = Ok prompt) ->
  Forall has_script_columns (loaded_test_cases self) ->
  Forall well_ended pastes ->
  List.length pastes = List.length (loaded_test_cases self) ->
  let done :=
    generate_scripts tpl self (flat_map keystrokes pastes ++ more)%list in
  scr_raised done = None
  /\ scr_stdin done = more
  /\ test_scripts (scr_self done)
     = (test_scripts self
        ++ map script_of (combine (loaded_test_cases self) pastes))%list
  /\ loaded_test_cases (scr_self done) = loaded_test_cases self.
Proof.
  intros Hl Hf Hrows Hpastes Hlen done. subst done.
  unfold generate_scripts. rewrite Hl.
  set (entries := combine (loaded_test_cases self) pastes).
  assert (E1 : map fst entries = loaded_test_cases self)
    by (subst entries; clear -Hlen; revert pastes Hlen;
        induction (loaded_test_cases self) as [|r rows IH];
        intros [|p pastes] Hlen; try discriminate; [reflexivity|];
        cbn; f_equal; apply IH; now injection Hlen).
  assert (E2 : map snd entries = pastes)
    by (subst entries; clear -Hlen; revert pastes Hlen;
        induction (loaded_test_cases self) as [|r rows IH];
        intros [|p pastes] Hlen; try discriminate; [reflexivity|];
        cbn; f_equal; apply IH; now injection Hlen).
  assert (Hall : Forall (fun entry => has_script_columns (fst entry)
                                      /\ well_ended (snd entry)) entries).
  { apply Forall_forall. intros [r p] Hin. cbn [fst snd]. split.
    - apply (proj1 (Forall_forall _ _) Hrows). rewrite <- E1.
      apply in_map_iff. now exists (r, p).
    - apply (proj1 (Forall_forall _ _) Hpastes). rewrite <- E2.
      apply in_map_iff. now exists (r, p). }
  rewrite <- E2.
  match goal with |- context [script_loop _ _ ?s] => set (st0 := s) end.
  pose proof (script_loop_pasted tpl template
                (List.length (loaded_test_cases self)) entries more Hf Hall 1 []
                st0 eq_refl eq_refl) as (st' & E & R & I & P & L & T).
  rewrite E1, app_nil_r in E. rewrite E. cbn [script_loop]. rewrite R.
  cbn [scr_raised scr_stdin scr_self] in *.
  split; [reflexivity|]. split; [exact I|]. split; [exact T|exact L].
Qed.

(** X14 (generate_scripts).  A row that lacks one of the four columns stops
    the call with the [KeyError] of a column it lacks, before anything is
    printed or read for that row.  The scripts of the rows before it stay in
    [self.test_scripts], and the replies pasted for them stay consumed. *)
Theorem X14_generate_scripts_missing_column_keeps_earlier_scripts
    (tpl : script_template_calls) (self : TestScriptGenerator)
    (out0 : list string) (template : string)
    (before : list row) (bad : row) (after : list row)
    (pastes : list paste) (more : list string) (column : string) :
  load_script_template tpl test_script_prompt_template = (out0, Ok template) ->
  (forall test_id test_scenario steps expected_result,
      exists prompt,
        format_script_template tpl template test_id test_scenario steps
          expected_result = Ok prompt) ->
  loaded_test_cases self = (before ++ bad :: after)%list ->
  Forall has_script_columns before ->
  Forall well_ended pastes ->
  List.length pastes = List.length before ->
  In column script_columns ->
  cell column bad = None ->
  let done :=
    generate_scripts tpl self (flat_map keystrokes pastes ++ more)%list in
  (exists missing,
      In missing script_columns /\ cell missing bad = None
      /\ scr_raised done = Some (KeyError ("'" ++ missing ++ "'")))
  /\ scr_stdin done = more
  /\ test_scripts (scr_self done)
     = (test_scripts self ++ map script_of (combine before pastes))%list.
Proof.
  intros Hl Hf Hrows Hbefore Hpastes Hlen Hcol Hcell done. subst done.
  unfold generate_scripts. rewrite Hl, Hrows.
  set (entries := combine before pastes).
  assert (E1 : map fst entries = before)
    by (subst entries; clear -Hlen; revert pastes Hlen;
        induction before as [|r rows IH];
        intros [|p pastes] Hlen; try discriminate; [reflexivity|];
        cbn; f_equal; apply IH; now injection Hlen).
  assert (E2 : map snd entries = pastes)
    by (subst entries; clear -Hlen; revert pastes Hlen;
        induction before as [|r rows IH];
        intros [|p pastes] Hlen; try discriminate; [reflexivity|];
        cbn; f_equal; apply IH; now injection Hlen).
  assert (Hall : Forall (fun entry => has_script_columns (fst entry)
                                      /\ well_ended (snd entry)) entries).
  { apply Forall_forall. intros [r p] Hin. cbn [fst snd]. split.
    - apply (proj1 (Forall_forall _ _) Hbefore). rewrite <- E1.
      apply in_map_iff. now exists (r, p).
    - apply (proj1 (Forall_forall _ _) Hpastes). rewrite <- E2.
      apply in_map_iff. now exists (r, p). }
  assert (En : forall k,
             enumerate k (before ++ bad :: after)
             = (enumerate k before
                ++ enumerate (k + List.length before) (bad :: after))%list).
  { clear. induction before as [|r rows IH]; intros k.
    - cbn [List.app List.length enumerate]. now rewrite Nat.add_0_r.
    - cbn [List.app List.length enumerate]. rewrite IH.
      now rewrite Nat.add_succ_r. }
  rewrite En. rewrite <- E2.
  replace (enumerate 1 before) with (enumerate 1 (map fst entries))
    by now rewrite E1.
  set (total := List.length (before ++ bad :: after)).
  match goal with |- context [script_loop _ _ ?s] => set (st0 := s) end.
  pose proof (script_loop_pasted tpl template total entries more Hf Hall 1
                (enumerate (1 + List.length before) (bad :: after))
                st0 eq_refl eq_refl) as (st' & E & R & I & P & L & T).
  rewrite E. cbn [enumerate script_loop].
  assert (B : exists missing,
             In missing script_columns /\ cell missing bad = None
             /\ script_for_row tpl template total st'
                  (1 + List.length before, bad)
                = {| scr_printed := scr_printed st'; scr_stdin := scr_stdin st';
                     scr_self := scr_self st';
                     scr_raised := Some (KeyError ("'" ++ missing ++ "'")) |}).
  { unfold script_for_row. rewrite !getitem_cell.
    destruct (cell "Test Case ID" bad) eqn:C1;
      [|exists "Test Case ID"; cbn; tauto].
    destruct (cell "Test Scenario" bad) eqn:C2;
      [|exists "Test Scenario"; cbn; tauto].
    destruct (cell "Steps to Execute" bad) eqn:C3;
      [|exists "Steps to Execute"; cbn; tauto].
    destruct (cell "Expected Result" bad) eqn:C4;
      [|exists "Expected Result"; cbn; tauto].
    exfalso. cbn in Hcol.
    destruct Hcol as [<-|[<-|[<-|[<-|[]]]]]; congruence. }
  destruct B as (missing & Hm & Hc & ->). cbn [scr_raised scr_stdin scr_self].
  split; [now exists missing|]. split; [exact I|exact T].
Qed.

(** ** The template files *)

Lemma append_inj_l (s a b : string) : s ++ a = s ++ b -> a = b.
Proof. induction s as [|c s IH]; [easy|]. intros [= H]. now apply IH. Qed.

Lemma endswith_char_app (c : ascii) (s1 : string) (a : ascii) (s2 : string) :
  Utils.endswith_char c (s1 ++ String a s2) = Utils.endswith_char c (String a s2).
Proof.
  induction s1 as [|b s1 IH]; [reflexivity|].
  change (String b s1 ++ String a s2) with (String b (s1 ++ String a s2)).
  cbn [Utils.endswith_char]. destruct (s1 ++ String a s2) eqn:E; [|exact IH].
  now destruct s1.
Qed.

(** [os.path.join] with a name after a directory that does not end with a
    slash. *)
Lemma os_path_join_name (s1 : string) (a : ascii) (s2 name : string) :
  Utils.endswith_char "/" (String a s2) = false ->
  startswith "/" name = false ->
  Utils.os_path_join (s1 ++ String a s2) name
  = (s1 ++ String a s2) ++ "/" ++ name.
Proof.
  intros He Hn. unfold Utils.os_path_join. rewrite Hn, endswith_char_app, He.
  now destruct s1.
Qed.

(** The templates directory is some prefix followed by "templates". *)
Lemma templates_dir_shape (project_root : string) :
  exists prefix, Utils.templates_dir project_root = prefix ++ "templates".
Proof.
  unfold Utils.templates_dir, Utils.os_path_join.
  change (startswith "/" "templates") with false. cbn iota.
  destruct (negb (nonempty project_root) || Utils.endswith_char "/" project_root).
  - now exists project_root.
  - exists (project_root ++ "/"). now rewrite append_assoc.
Qed.

Lemma templates_dir_join (project_root name : string) :
  startswith "/" name = false ->
  Utils.os_path_join (Utils.templates_dir project_root) name
  = Utils.templates_dir project_root ++ "/" ++ name.
Proof.
  intros Hn. destruct (templates_dir_shape project_root) as [prefix ->].
  now apply os_path_join_name.
Qed.

Lemma ai_prompts_dir_join (project_root name : string) :
  startswith "/" name = false ->
  Utils.os_path_join (ai_prompts_dir project_root) name
  = Utils.templates_dir project_root ++ "/ai_prompts/" ++ name.
Proof.
  intros Hn. unfold ai_prompts_dir. rewrite templates_dir_join by reflexivity.
  destruct (templates_dir_shape project_root) as [prefix ->].
  rewrite !append_assoc.
  change ("templates" ++ "/" ++ "ai_prompts") with "templates/ai_prompts".
  rewrite (os_path_join_name prefix "t" "emplates/ai_prompts" name eq_refl Hn).
  rewrite !append_assoc. reflexivity.
Qed.

(** The three paths of the templates, below the templates directory. *)
Lemma test_case_prompt_path_eq (project_root : string) :
  Utils.test_case_prompt_path project_root
  = Utils.templates_dir project_root
    ++ "/ai_prompts/test_case_prompt_template.txt".
Proof.
  exact (ai_prompts_dir_join project_root "test_case_prompt_template.txt"
           eq_refl).
Qed.

Lemma test_script_prompt_path_eq (project_root : string) :
  Utils.test_script_prompt_path project_root
  = Utils.templates_dir project_root
    ++ "/ai_prompts/test_script_prompt_template.txt".
Proof.
  exact (ai_prompts_dir_join project_root "test_script_prompt_template.txt"
           eq_refl).
Qed.

Lemma requested_test_case_prompt_path_eq (project_root : string) :
  requested_test_case_prompt_path project_root
  = Utils.templates_dir project_root
    ++ "/templates/ai_prompts/test_case_prompt_template.txt".
Proof.
  exact (templates_dir_join project_root test_case_prompt_template eq_refl).
Qed.

Lemma requested_path_is_no_default_path (project_root : string) :
  requested_test_case_prompt_path project_root
  <> Utils.test_case_prompt_path project_root
  /\ requested_test_case_prompt_path project_root
     <> Utils.test_script_prompt_path project_root.
Proof.
  rewrite requested_test_case_prompt_path_eq, test_case_prompt_path_eq,
    test_script_prompt_path_eq.
  split; intros H; apply append_inj_l in H; discriminate H.
Qed.

Lemma default_paths_differ (project_root : string) :
  Utils.test_case_prompt_path project_root
  <> Utils.test_script_prompt_path project_root.
Proof.
  rewrite test_case_prompt_path_eq, test_script_prompt_path_eq.
  intros H; apply append_inj_l in H; discriminate H.
Qed.

(** What a write leaves alone. *)
Lemma write_if_missing_frame (fs fs' : Utils.file_system) (path text : string) :
  Utils.write_if_missing fs path text = Ok fs' ->
  Utils.is_dir fs' = Utils.is_dir fs
  /\ (forall p, p <> path -> Utils.file_at fs' p = Utils.file_at fs p)
  /\ (forall p t, Utils.file_at fs p = Some t -> Utils.file_at fs' p = Some t).
Proof.
  unfold Utils.write_if_missing, Utils.os_path_exists, Utils.open_write.
  destruct (Utils.is_dir fs path) eqn:D; cbn [orb negb].
  { intros [= <-]. now repeat split. }
  destruct (Utils.file_at fs path) eqn:F; cbn [negb].
  { intros [= <-]. now repeat split. }
  destruct (Utils.parent_exists fs path); [|discriminate].
  intros [= <-]. cbn [Utils.is_dir Utils.file_at].
  split; [reflexivity|]. split.
  - intros p Hp. destruct (String.eqb_spec p path); [contradiction|reflexivity].
  - intros p t Hp. destruct (String.eqb_spec p path); [congruence|exact Hp].
Qed.

Lemma create_default_templates_frame (project_root : string)
    (fs : Utils.file_system) :
  let fs' := fst (Utils.create_default_templates project_root fs) in
  Utils.is_dir fs' = Utils.is_dir fs
  /\ (forall p, p <> Utils.test_case_prompt_path project_root ->
        p <> Utils.test_script_prompt_path project_root ->
        Utils.file_at fs' p = Utils.file_at fs p)
  /\ (forall p t, Utils.file_at fs p = Some t -> Utils.file_at fs' p = Some t).
Proof.
  unfold Utils.create_default_templates.
  destruct (Utils.write_if_missing fs _ _) as [fs1|e] eqn:W1;
    [|cbn; now repeat split].
  destruct (write_if_missing_frame _ _ _ _ W1) as (D1 & O1 & K1).
  destruct (Utils.write_if_missing fs1 _ _) as [fs2|e] eqn:W2; cbn [fst].
  - destruct (write_if_missing_frame _ _ _ _ W2) as (D2 & O2 & K2).
    split; [congruence|]. split.
    + intros p H1 H2. rewrite (O2 p H2). now apply O1.
    + intros p t H. apply K2. now apply K1.
  - split; [exact D1|]. split.
    + intros p H1 _. now apply O1.
    + exact K1.
Qed.

(** [dirname] of a name without a slash, placed in a directory that does not
    end with a slash. *)
Lemma head_of_no_slash (name : string) :
  contains "/" name = false -> Utils.head_of name = EmptyString.
Proof.
  destruct name as [|c name]; [reflexivity|]. cbn [Utils.head_of].
  now intros ->.
Qed.

Lemma head_of_in_directory (d name : string) :
  contains "/" name = false ->
  Utils.head_of (d ++ "/" ++ name) = d ++ "/".
Proof.
  intros Hn. induction d as [|c d IH].
  - change (EmptyString ++ "/" ++ name) with (String "/" name).
    cbn [Utils.head_of]. rewrite contains_char_cons. cbn [Ascii.eqb orb].
    change (Ascii.eqb "/" "/") with true. cbn [orb].
    now rewrite (head_of_no_slash name Hn).
  - change (String c d ++ "/" ++ name) with (String c (d ++ "/" ++ name)).
    cbn [Utils.head_of]. rewrite contains_char_cons, contains_char_app.
    change (contains "/" ("/" ++ name)) with (contains "/" (String "/" name)).
    rewrite (contains_char_cons "/" "/" name).
    change (Ascii.eqb "/" "/") with true.
    rewrite !orb_true_r, IH. reflexivity.
Qed.

Lemma rstrip_sep_after (s1 : string) (a : ascii) :
  Ascii.eqb a "/" = false ->
  Utils.rstrip_sep (s1 ++ String a "/") = s1 ++ String a EmptyString.
Proof.
  intros Ha. induction s1 as [|c s1 IH].
  - cbn. now rewrite Ha.
  - change (String c s1 ++ String a "/") with (String c (s1 ++ String a "/")).
    cbn [Utils.rstrip_sep]. rewrite IH. now destruct s1.
Qed.

Lemma dirname_in_directory (s1 : string) (a : ascii) (name : string) :
  Ascii.eqb a "/" = false ->
  contains "/" name = false ->
  Utils.dirname ((s1 ++ String a EmptyString) ++ "/" ++ name)
  = s1 ++ String a EmptyString.
Proof.
  intros Ha Hn. unfold Utils.dirname.
  rewrite (head_of_in_directory _ name Hn), append_assoc.
  change (String a EmptyString ++ "/") with (String a "/").
  rewrite (rstrip_sep_after s1 a Ha). now destruct s1.
Qed.

Lemma ai_prompts_dir_eq (project_root : string) :
  ai_prompts_dir project_root
  = Utils.templates_dir project_root ++ "/ai_prompts".
Proof. exact (templates_dir_join project_root "ai_prompts" eq_refl). Qed.

Lemma dirname_of_default_paths (project_root : string) :
  Utils.dirname (Utils.test_case_prompt_path project_root)
  = ai_prompts_dir project_root
  /\ Utils.dirname (Utils.test_script_prompt_path project_root)
     = ai_prompts_dir project_root.
Proof.
  rewrite test_case_prompt_path_eq, test_script_prompt_path_eq, ai_prompts_dir_eq.
  set (T := Utils.templates_dir project_root).
  assert (E : forall name,
             T ++ "/ai_prompts/" ++ name
             = ((T ++ "/ai_prompt") ++ "s") ++ "/" ++ name)
    by (intros name; rewrite !append_assoc; reflexivity).
  assert (D : (T ++ "/ai_prompt") ++ "s" = T ++ "/ai_prompts")
    by (rewrite append_assoc; reflexivity).
  split.
  - change (T ++ "/ai_prompts/test_case_prompt_template.txt")
      with (T ++ "/ai_prompts/" ++ "test_case_prompt_template.txt").
    rewrite E, <- D. now apply dirname_in_directory.
  - change (T ++ "/ai_prompts/test_script_prompt_template.txt")
      with (T ++ "/ai_prompts/" ++ "test_script_prompt_template.txt").
    rewrite E, <- D. now apply dirname_in_directory.
Qed.

Lemma ai_prompts_dir_nonempty (project_root : string) :
  nonempty (ai_prompts_dir project_root) = true.
Proof.
  rewrite ai_prompts_dir_eq.
  destruct (templates_dir_shape project_root) as [prefix ->].
  now destruct prefix.
Qed.

Lemma dirname_of_ai_prompts_dir (project_root : string) :
  Utils.dirname (ai_prompts_dir project_root) = Utils.templates_dir project_root.
Proof.
  rewrite ai_prompts_dir_eq.
  destruct (templates_dir_shape project_root) as [prefix ->].
  assert (E : prefix ++ "templates" = (prefix ++ "template") ++ "s")
    by (rewrite append_assoc; reflexivity).
  rewrite E.
  exact (dirname_in_directory (prefix ++ "template") "s" "ai_prompts"
           eq_refl eq_refl).
Qed.

(** Where the directory that holds [path] exists, what cannot be opened is
    not found. *)
Lemma cannot_open_in_directory (fs : Utils.file_system) (path : string) :
  Utils.parent_exists fs path = true ->
  Utils.cannot_open fs path
  = FileNotFoundError ("[Errno 2] No such file or directory: '" ++ path ++ "'").
Proof.
  intros H. unfold Utils.cannot_open.
  destruct (String.length path); cbn [Utils.below_a_file]; [reflexivity|].
  unfold Utils.parent_exists in H. now rewrite H.
Qed.

(** The same where the directory that holds [path] is missing from a
    directory that exists. *)
Lemma cannot_open_in_missing_directory (fs : Utils.file_system)
    (path : string) :
  nonempty (Utils.dirname path) = true ->
  Utils.os_path_exists fs (Utils.dirname path) = false ->
  Utils.is_dir fs (Utils.dirname (Utils.dirname path)) = true ->
  Utils.cannot_open fs path
  = FileNotFoundError ("[Errno 2] No such file or directory: '" ++ path ++ "'").
Proof.
  intros Hne Hmiss Hup. unfold Utils.os_path_exists in Hmiss.
  apply orb_false_elim in Hmiss as [Hd Hf].
  destruct (Utils.file_at fs (Utils.dirname path)) eqn:F; [discriminate|].
  assert (B : forall fuel, Utils.below_a_file fuel fs path = false).
  { intros [|fuel]; [reflexivity|]. cbn [Utils.below_a_file].
    rewrite Hne, Hd, F. cbn [negb orb].
    destruct (Utils.dirname path =? path)%string; [reflexivity|].
    destruct fuel as [|fuel]; [reflexivity|]. cbn [Utils.below_a_file].
    now rewrite Hup, orb_true_r. }
  unfold Utils.cannot_open. now rewrite B.
Qed.

(** In an existing ai_prompts directory, a default template that is missing
    is written. *)
Lemma write_if_missing_in_ai_prompts (project_root : string)
    (fs : Utils.file_system) (path text : string) :
  Utils.dirname path = ai_prompts_dir project_root ->
  Utils.is_dir fs (ai_prompts_dir project_root) = true ->
  exists fs',
    Utils.write_if_missing fs path text = Ok fs'
    /\ (Utils.os_path_exists fs path = false ->
        Utils.file_at fs' path = Some text).
Proof.
  intros Hd Hdir. unfold Utils.write_if_missing.
  destruct (Utils.os_path_exists fs path) eqn:Ex; cbn [negb].
  - exists fs. split; [reflexivity|discriminate].
  - unfold Utils.os_path_exists in Ex. apply orb_false_elim in Ex as [D F].
    unfold Utils.open_write, Utils.parent_exists. rewrite D, Hd, Hdir, orb_true_r.
    eexists. split; [reflexivity|]. intros _. cbn [Utils.file_at].
    now rewrite String.eqb_refl.
Qed.

(** X15 (load_template, create_default_templates).  Whatever the file system
    and whatever the name, [load_template] changes no file that exists and
    creates no directory: the only files it can add are the two default
    templates, and only where nothing exists under their names. *)
Theorem X15_load_template_overwrites_nothing (project_root : string)
    (fs : Utils.file_system) (template_name : string) :
  let fs' := snd (fst (Utils.load_template project_root fs template_name)) in
  Utils.is_dir fs' = Utils.is_dir fs
  /\ (forall p text, Utils.file_at fs p = Some text ->
        Utils.file_at fs' p = Some text)
  /\ (forall p, p <> Utils.test_case_prompt_path project_root ->
        p <> Utils.test_script_prompt_path project_root ->
        Utils.file_at fs' p = Utils.file_at fs p).
Proof.
  unfold Utils.load_template.
  destruct (create_default_templates_frame project_root fs) as (D & O & K).
  destruct (Utils.open_read fs _) as [text|e]; [cbn; now repeat split|].
  destruct e; try (cbn; now repeat split).
  destruct (Utils.create_default_templates project_root fs) as [fs' [u|e]];
    cbn [fst snd] in *; (split; [exact D|]); split; assumption.
Qed.

(** X16 (load_template, the retry).  When the ai_prompts directory exists and
    nothing exists under the name of the script template, loading
    "ai_prompts/test_script_prompt_template.txt" prints the two lines of the
    handler, writes the default script template and returns its text. *)
Theorem X16_load_template_creates_the_missing_script_template
    (project_root : string) (fs : Utils.file_system) :
  Utils.is_dir fs (ai_prompts_dir project_root) = true ->
  Utils.os_path_exists fs (Utils.test_script_prompt_path project_root) = false ->
  exists fs',
    Utils.load_template project_root fs test_script_prompt_template
    = (["Template file not found: "
        ++ Utils.test_script_prompt_path project_root;
        "Creating default templates..."],
       fs', Ok Utils.default_test_script_prompt)
    /\ Utils.file_at fs' (Utils.test_script_prompt_path project_root)
       = Some Utils.default_test_script_prompt.
Proof.
  intros Hdir Hmiss.
  destruct (dirname_of_default_paths project_root) as [D1 D2].
  assert (P : Utils.os_path_join (Utils.templates_dir project_root)
                test_script_prompt_template
              = Utils.test_script_prompt_path project_root).
  { rewrite test_script_prompt_path_eq.
    exact (templates_dir_join project_root test_script_prompt_template eq_refl). }
  unfold Utils.load_template. rewrite P.
  pose proof Hmiss as Hm. unfold Utils.os_path_exists in Hm.
  apply orb_false_elim in Hm as [Md Mf].
  destruct (Utils.file_at fs (Utils.test_script_prompt_path project_root)) eqn:F;
    [discriminate|].
  unfold Utils.open_read at 1. rewrite F, Md.
  rewrite cannot_open_in_directory
    by (unfold Utils.parent_exists; now rewrite D2, Hdir, orb_true_r).
  unfold Utils.create_default_templates.
  destruct (write_if_missing_in_ai_prompts project_root fs
              (Utils.test_case_prompt_path project_root)
              Utils.default_test_case_prompt D1 Hdir) as (fs1 & W1 & _).
  rewrite W1.
  destruct (write_if_missing_frame _ _ _ _ W1) as (Dir1 & O1 & _).
  assert (Hdir1 : Utils.is_dir fs1 (ai_prompts_dir project_root) = true)
    by now rewrite Dir1.
  assert (Hmiss1 : Utils.os_path_exists fs1
                     (Utils.test_script_prompt_path project_root) = false).
  { unfold Utils.os_path_exists. rewrite Dir1, Md.
    rewrite (O1 _ (fun H => default_paths_differ project_root (eq_sym H))), F.
    reflexivity. }
  destruct (write_if_missing_in_ai_prompts project_root fs1
              (Utils.test_script_prompt_path project_root)
              Utils.default_test_script_prompt D2 Hdir1) as (fs2 & W2 & R2).
  rewrite W2. specialize (R2 Hmiss1).
  exists fs2. split; [|exact R2].
  unfold Utils.open_read. rewrite R2. reflexivity.
Qed.

Lemma cannot_open_file_error (fs : Utils.file_system) (path : string) :
  file_error (Utils.cannot_open fs path).
Proof.
  unfold Utils.cannot_open.
  destruct (Utils.below_a_file _ fs path);
    [right; eexists; reflexivity|left; eexists; reflexivity].
Qed.

Lemma open_read_file_error (fs : Utils.file_system) (path : string) (e : exn) :
  Utils.open_read fs path = Raise e -> file_error e.
Proof.
  unfold Utils.open_read.
  destruct (Utils.file_at fs path); [discriminate|].
  destruct (Utils.is_dir fs path); intros [= E]; subst e.
  - right. eexists. reflexivity.
  - apply cannot_open_file_error.
Qed.

Lemma write_if_missing_file_error (fs : Utils.file_system) (path text : string)
    (e : exn) :
  Utils.write_if_missing fs path text = Raise e -> file_error e.
Proof.
  unfold Utils.write_if_missing, Utils.open_write.
  destruct (negb (Utils.os_path_exists fs path)); [|discriminate].
  destruct (Utils.is_dir fs path).
  - intros [= E]. subst e. right. eexists. reflexivity.
  - destruct (Utils.parent_exists fs path); [discriminate|].
    intros [= E]. subst e. apply cannot_open_file_error.
Qed.

Lemma create_default_templates_file_error (project_root : string)
    (fs : Utils.file_system) (e : exn) :
  snd (Utils.create_default_templates project_root fs) = Raise e -> file_error e.
Proof.
  unfold Utils.create_default_templates.
  destruct (Utils.write_if_missing fs _ _) as [fs1|e1] eqn:W1.
  - destruct (Utils.write_if_missing fs1 _ _) as [fs2|e2] eqn:W2;
      [discriminate|].
    intros [= E]. subst e. exact (write_if_missing_file_error _ _ _ _ W2).
  - intros [= E]. subst e. exact (write_if_missing_file_error _ _ _ _ W1).
Qed.

(** Asked for a name under which no file exists and which is not the name of
    a default template, [load_template] raises. *)
Lemma load_template_missing (project_root : string) (fs : Utils.file_system)
    (template_name : string) :
  let path := Utils.os_path_join (Utils.templates_dir project_root) template_name in
  Utils.file_at fs path = None ->
  path <> Utils.test_case_prompt_path project_root ->
  path <> Utils.test_script_prompt_path project_root ->
  exists e,
    snd (Utils.load_template project_root fs template_name) = Raise e
    /\ file_error e.
Proof.
  intros path Hnone N1 N2. unfold Utils.load_template. fold path.
  destruct (Utils.open_read fs path) as [text|e] eqn:R.
  { unfold Utils.open_read in R. rewrite Hnone in R.
    destruct (Utils.is_dir fs path); discriminate. }
  pose proof (open_read_file_error _ _ _ R) as Fe.
  destruct e; try (exists (OSError msg); now split);
    try (destruct Fe as [[m Hm]|[m Hm]]; discriminate).
  destruct (create_default_templates_frame project_root fs) as (_ & O & _).
  pose proof (create_default_templates_file_error project_root fs) as Ce.
  destruct (Utils.create_default_templates project_root fs) as [fs' [u|e]];
    cbn [fst snd] in *.
  - destruct (Utils.open_read fs' path) as [text|e] eqn:R'.
    + unfold Utils.open_read in R'. rewrite (O path N1 N2), Hnone in R'.
      destruct (Utils.is_dir fs' path); discriminate.
    + exists e. split; [reflexivity|]. exact (open_read_file_error _ _ _ R').
  - exists e. split; [reflexivity|]. now apply Ce.
Qed.

(** X17 (generate_test_cases with load_template).  [generate_test_cases]
    asks for "templates/ai_prompts/test_case_prompt_template.txt", which
    [load_template] joins to the templates directory a second time.  Unless
    a file exists under that doubled name, the call raises on every non-empty
    Element Record, also when the default templates are in place or have just
    been created: the exception is the [FileNotFoundError] of the method or
    an [OSError], nothing is read from the console and the generator is left
    as it was. *)
Theorem X17_generate_test_cases_looks_under_templates_templates
    (project_root : string) (fs : Utils.file_system)
    (format : string -> string -> string -> string -> result string)
    (self : TestCaseGenerator) (stdin : list string) :
  elements_truthy (elements self) = true ->
  Utils.file_at fs (requested_test_case_prompt_path project_root) = None ->
  let g :=
    generate_test_cases (template_calls_on project_root fs format) self stdin in
  (gen_result g
   = Raise (FileNotFoundError
              "Test case prompt template not found. Please check the templates directory.")
   \/ exists msg, gen_result g = Raise (OSError msg))
  /\ gen_self g = self
  /\ gen_stdin g = stdin.
Proof.
  intros Ht Hnone g. subst g. unfold generate_test_cases. rewrite Ht. cbn [negb].
  destruct (requested_path_is_no_default_path project_root) as [N1 N2].
  destruct (load_template_missing project_root fs test_case_prompt_template
              Hnone N1 N2) as (e & L & Fe).
  cbn [load_template template_calls_on].
  destruct (Utils.load_template project_root fs test_case_prompt_template)
    as [[out fs'] r].
  cbn [snd] in L. subst r.
  destruct Fe as [[m ->]|[m ->]].
  - split; [now left|]. now split.
  - split; [right; now exists m|]. now split.
Qed.

(** Below a regular file nothing is found and nothing is created: the
    [NotADirectoryError] of the first [open] leaves [load_template] at once,
    before the handler prints. *)
Lemma load_template_below_a_file :
  Utils.load_template "/srv/app" templates_is_a_file test_script_prompt_template
  = ([], templates_is_a_file,
     Raise (OSError
              ("[Errno 20] Not a directory: '"
               ++ Utils.test_script_prompt_path "/srv/app" ++ "'"))).
Proof. by_evaluation. Qed.

(** X18 (load_template, create_default_templates).  [load_template] creates no
    directory: when the templates directory exists, its ai_prompts directory
    is missing and the script template is asked for, the handler prints its
    two lines, the first write of [create_default_templates] raises
    [FileNotFoundError], and that exception leaves [load_template] with the
    file system unchanged. *)
Theorem X18_load_template_needs_the_ai_prompts_directory
    (project_root : string) (fs : Utils.file_system) :
  Utils.is_dir fs (Utils.templates_dir project_root) = true ->
  Utils.os_path_exists fs (ai_prompts_dir project_root) = false ->
  Utils.os_path_exists fs (Utils.test_case_prompt_path project_root) = false ->
  Utils.os_path_exists fs (Utils.test_script_prompt_path project_root) = false ->
  exists msg,
    Utils.load_template project_root fs test_script_prompt_template
    = (["Template file not found: "
        ++ Utils.test_script_prompt_path project_root;
        "Creating default templates..."],
       fs, Raise (FileNotFoundError msg)).
Proof.
  intros Htpl Hdir H1 H2.
  destruct (dirname_of_default_paths project_root) as [D1 D2].
  assert (P : Utils.os_path_join (Utils.templates_dir project_root)
                test_script_prompt_template
              = Utils.test_script_prompt_path project_root).
  { rewrite test_script_prompt_path_eq.
    exact (templates_dir_join project_root test_script_prompt_template eq_refl). }
  assert (C : forall path,
             Utils.dirname path = ai_prompts_dir project_root ->
             Utils.cannot_open fs path
             = FileNotFoundError
                 ("[Errno 2] No such file or directory: '" ++ path ++ "'")).
  { intros path Hp. apply cannot_open_in_missing_directory; rewrite Hp.
    - apply ai_prompts_dir_nonempty.
    - exact Hdir.
    - now rewrite dirname_of_ai_prompts_dir. }
  pose proof Hdir as Hdir'. unfold Utils.os_path_exists in Hdir', H2.
  apply orb_false_elim in Hdir' as [Dd Df], H2 as [D2d D2f].
  destruct (Utils.file_at fs (Utils.test_script_prompt_path project_root)) eqn:F2;
    [discriminate|].
  unfold Utils.load_template. rewrite P.
  unfold Utils.open_read. rewrite F2, D2d, (C _ D2).
  unfold Utils.create_default_templates, Utils.write_if_missing. rewrite H1.
  cbn [negb]. unfold Utils.open_write.
  unfold Utils.os_path_exists in H1. apply orb_false_elim in H1 as [D1d _].
  rewrite D1d. unfold Utils.parent_exists.
  rewrite D1, Dd, (ai_prompts_dir_nonempty project_root). cbn [negb orb].
  rewrite (C _ D1). eexists. reflexivity.
Qed.

(** ** Headings and expected results *)

Lemma heading_is_no_header (line : string) :
  is_steps_heading line = true \/ is_expected_heading line = true ->
  is_header line = false.
Proof.
  destruct line as [|c s]; [reflexivity|].
  unfold is_header, startswith.
  destruct (ascii_dec c "T") as [->|Hc].
  - intros [H|H]; exfalso; revert H; unfold is_steps_heading, is_expected_heading,
      startswith; cbn; discriminate.
  - intros _. cbn [String.prefix].
    destruct (ascii_dec "T" c) as [E|_]; [now elim Hc|reflexivity].
Qed.

Lemma expected_heading_is_no_steps_heading (line : string) :
  is_expected_heading line = true -> is_steps_heading line = false.
Proof.
  destruct line as [|c s]; [discriminate|].
  unfold is_expected_heading, is_steps_heading, startswith.
  cbn [lower String.prefix String.eqb].
  destruct (ascii_dec "e" (lower_char c)) as [<-|He].
  - reflexivity.
  - replace (Ascii.eqb (lower_char c) "e") with false; [discriminate|].
    symmetry. apply Ascii.eqb_neq. congruence.
Qed.

(** What a heading line does, whatever else it holds. *)
Lemma process_steps_heading_line (st : loop_state) (raw : string) :
  is_steps_heading (strip raw) = true ->
  process_line st raw
  = Ok {| current_test_case := current_test_case st;
          section := Some Steps_to_Execute;
          self_test_cases := self_test_cases st |}.
Proof.
  intros H. unfold process_line.
  rewrite (heading_is_no_header _ (or_introl H)), H.
  destruct (strip raw); [discriminate|reflexivity].
Qed.

Lemma process_expected_heading_line (st : loop_state) (raw : string) :
  is_expected_heading (strip raw) = true ->
  process_line st raw
  = Ok {| current_test_case := current_test_case st;
          section := Some Expected_Result;
          self_test_cases := self_test_cases st |}.
Proof.
  intros H. unfold process_line.
  rewrite (heading_is_no_header _ (or_intror H)),
    (expected_heading_is_no_steps_heading _ H), H.
  destruct (strip raw); [discriminate|reflexivity].
Qed.

(** X19 (_process_ai_response, the section headings).  A line that starts
    with "steps to execute" or "expected result" in any letter case only
    switches the section: whatever else the line holds, such as the text
    after a colon, reaches no record.  Two replies that differ in one heading
    line of the same kind parse to the same records. *)
Theorem X19_text_on_a_heading_line_is_dropped (r1 r2 : string)
    (pre : list string) (h1 h2 : string) (rest : list string) :
  split LF r1 = (pre ++ h1 :: rest)%list ->
  split LF r2 = (pre ++ h2 :: rest)%list ->
  (is_steps_heading (strip h1) = true /\ is_steps_heading (strip h2) = true)
  \/ (is_expected_heading (strip h1) = true
      /\ is_expected_heading (strip h2) = true) ->
  records_of r1 = records_of r2.
Proof.
  intros E1 E2 H. rewrite !records_of_split, E1, E2.
  unfold records_of_lines. rewrite !for_each_app.
  destruct (for_each_process_line_total pre
              (loop_start (new_generator EmptyString no_elements))) as [st ->].
  cbn [bind for_each].
  destruct H as [[H1 H2]|[H1 H2]].
  - now rewrite (process_steps_heading_line st h1 H1),
      (process_steps_heading_line st h2 H2).
  - now rewrite (process_expected_heading_line st h1 H1),
      (process_expected_heading_line st h2 H2).
Qed.

(** The expected-result branch on a run of lines. *)
Lemma run_expected_lines (lines : list string) (tc : test_case)
    (saved : list test_case) :
  (forall l, In l lines ->
     is_header (strip l) = false
     /\ is_steps_heading (strip l) = false
     /\ is_expected_heading (strip l) = false) ->
  for_each process_line lines
    {| current_test_case := Some tc; section := Some Expected_Result;
       self_test_cases := saved |}
  = Ok {| current_test_case :=
            Some {| tc_id := tc_id tc; tc_scenario := tc_scenario tc;
                    tc_steps := tc_steps tc;
                    tc_expected :=
                      fold_left add_expected_line (nonblank_lines lines)
                        (tc_expected tc) |};
          section := Some Expected_Result;
          self_test_cases := saved |}.
Proof.
  revert tc. induction lines as [|l lines IH]; intros tc H.
  - cbn. now destruct tc.
  - cbn [for_each]. destruct (H l (or_introl eq_refl)) as (A & B & C).
    unfold process_line at 1. rewrite A, B, C.
    cbn [current_test_case section self_test_cases].
    destruct (nonempty (strip l)) eqn:Hne; cbn [negb bind].
    + rewrite IH by (intros x Hx; apply H; now right).
      cbn [tc_id tc_scenario tc_steps tc_expected].
      now rewrite (nonblank_lines_cons_nonblank l lines Hne).
    + rewrite IH by (intros x Hx; apply H; now right).
      replace (nonblank_lines (l :: lines)) with (nonblank_lines lines);
        [reflexivity|].
      unfold nonblank_lines. cbn [map filter]. now rewrite Hne.
Qed.

Lemma fold_add_expected_line (lines : list string) (first : string) :
  nonempty first = true ->
  fold_left add_expected_line lines first = join " " (first :: lines).
Proof.
  revert first. induction lines as [|l lines IH]; intros first Hf.
  - reflexivity.
  - cbn [fold_left]. unfold add_expected_line at 2. rewrite Hf.
    rewrite IH by (destruct first; [discriminate|reflexivity]).
    cbn [join String.concat]. destruct lines; cbn [String.concat];
      now rewrite ?append_assoc.
Qed.

Lemma nonblank_lines_nonempty (lines : list string) (l : string) :
  In l (nonblank_lines lines) -> nonempty l = true.
Proof. unfold nonblank_lines. intros H. now apply filter_In in H. Qed.

Lemma fold_add_expected_line_join (lines : list string) :
  (forall l, In l lines -> nonempty l = true) ->
  fold_left add_expected_line lines EmptyString = join " " lines.
Proof.
  destruct lines as [|l lines]; [reflexivity|]. intros H.
  cbn [fold_left]. change (add_expected_line EmptyString l) with l.
  apply fold_add_expected_line. apply H. now left.
Qed.

(** X20 (_process_ai_response, the expected-result branch).  In a reply made
    of a header line, an expected-result heading and lines that are neither
    headers nor headings, the record's expected result is those lines,
    stripped, the blank ones left out, joined by single spaces. *)
Theorem X20_expected_result_is_joined_by_spaces (r : string)
    (header heading : string) (lines : list string) :
  split LF r = header :: heading :: lines ->
  is_header (strip header) = true ->
  is_expected_heading (strip heading) = true ->
  (forall l, In l lines ->
     is_header (strip l) = false
     /\ is_steps_heading (strip l) = false
     /\ is_expected_heading (strip l) = false) ->
  records_of r
  = [{| tc_id := tc_id (open_test_case (strip header));
        tc_scenario := tc_scenario (open_test_case (strip header));
        tc_steps := [];
        tc_expected := join " " (nonblank_lines lines) |}].
Proof.
  intros E Hh He Hl. rewrite records_of_split, E.
  unfold records_of_lines. cbn [for_each].
  rewrite (process_line_header _ header Hh). cbn [bind].
  rewrite (process_expected_heading_line _ heading He). cbn [bind].
  cbn [opened current_test_case self_test_cases].
  rewrite (run_expected_lines lines _ _ Hl). unfold flush.
  cbn [current_test_case self_test_cases flush loop_start new_generator
       test_cases List.app].
  assert (X : tc_expected (open_test_case (strip header)) = EmptyString
              /\ tc_steps (open_test_case (strip header)) = [])
    by (unfold open_test_case; destruct (split1 ":" (strip header)); now split).
  destruct X as [X1 X2]. rewrite X1, X2.
  now rewrite (fold_add_expected_line_join _ (nonblank_lines_nonempty lines)).
Qed.

(** ** The task generate_tests *)

Lemma records_of_no_header (reply : string) :
  header_lines (split LF reply) = [] -> records_of reply = [].
Proof.
  intros H. pose proof (records_of_headers reply) as F. rewrite H in F.
  now inversion F.
Qed.

(** X21 (main, task generate_tests).  [main] does not look at the value of
    [save_test_cases].  When the generator holds no record and the reply
    pasted has no header line, the task raises nothing and its last two lines
    of output are "Error: No test cases to save." and "Test cases saved to"
    with the path, although nothing was written. *)
Theorem X21_main_reports_saved_test_cases_when_none_were_saved
    (tpl : template_calls) (os : os_calls) (test_generator : TestCaseGenerator)
    (stdin : list string) (test_cases_path : string)
    (out0 : list string) (template : string) :
  elements_truthy (elements test_generator) = true ->
  load_template tpl test_case_prompt_template = (out0, Ok template) ->
  (forall name url summary,
      exists prompt, format_template tpl template name url summary = Ok prompt) ->
  test_cases test_generator = [] ->
  header_lines (split LF (join nl (fst (read_reply stdin [])))) = [] ->
  exists printed_before,
    main_generate_tests tpl os test_generator stdin test_cases_path
    = ((printed_before
        ++ ["Error: No test cases to save.";
            ("Test cases saved to " ++ test_cases_path)%string])%list,
       Ok tt).
Proof.
  intros Ht Hl Hf Hnone Hh. unfold main_generate_tests.
  destruct (generate_test_cases_reads_one_reply tpl test_generator stdin out0
              template Ht Hl Hf) as (R & S & _).
  rewrite R, S. unfold save_test_cases. cbn [test_cases set_test_cases].
  rewrite Hnone, (records_of_no_header _ Hh). cbn [List.app].
  eexists. reflexivity.
Qed.

(** ** The digest up to five entries *)

(** Up to five, nothing is cut from the options of a select element and from
    the items of a navigation menu. *)
Lemma up_to_five_entries :
  (forall options,
      List.length options <= 5 ->
      Format.options_text options
      = join ", " (map (fun opt => get_or (option_text opt) "Option") options))
  /\ (forall nav items,
        nav_items nav = Some items ->
        List.length items <= 5 ->
        Format.format_nav nav
        = ("  - Navigation (id=" ++ get_or (nav_id nav) "[No ID]" ++ ", "
           ++ str_of_nat (List.length items) ++ " items)")
          :: map Format.format_nav_item (enumerate 1 items)).
Proof.
  split.
  - intros options H. unfold Format.options_text.
    rewrite firstn_all2 by exact H.
    apply Nat.ltb_ge in H. now rewrite H.
  - intros nav items Hi H. unfold Format.format_nav. rewrite Hi. cbn [get_or].
    rewrite firstn_all2 by exact H.
    apply Nat.ltb_ge in H. rewrite H. now rewrite app_nil_r.
Qed.

(** ** The outline of the returned digest *)

Lemma outline_app (a b : list string) :
  outline (a ++ b) = (outline a ++ outline b)%list.
Proof. apply filter_app. Qed.

Lemma outline_lines_of (entries : list string) :
  outline (lines_of entries)
  = flat_map (fun x => outline (split LF x)) entries.
Proof.
  induction entries as [|x entries IH]; [reflexivity|].
  cbn [lines_of flat_map]. rewrite outline_app. f_equal. exact IH.
Qed.

(** An indented line stands out nowhere. *)
Lemma outline_indented (x : string) :
  indented x -> one_line x = true -> outline (split LF x) = [].
Proof.
  intros Hi Ho. rewrite (split_single_line x Ho). unfold outline. cbn [filter].
  unfold indented in Hi. rewrite Hi. now rewrite andb_false_r.
Qed.

Lemma outline_category_header (c : category) :
  outline (split LF (category_header c)) = [header_line c].
Proof. destruct c; reflexivity. Qed.

Lemma outline_description (d : string) :
  one_line d = true ->
  outline (split LF ("SITE DESCRIPTION: " ++ d ++ nl))
  = ["SITE DESCRIPTION: " ++ d].
Proof.
  intros Hd. rewrite <- append_assoc. unfold nl.
  rewrite (split_line_then ("SITE DESCRIPTION: " ++ d) EmptyString)
    by (rewrite one_line_app, Hd; reflexivity).
  reflexivity.
Qed.

(** Entries that are indented add nothing to the outline. *)
Lemma outline_of_unindented_entries (entries : list string) :
  (forall x, In x entries -> indented x -> one_line x = true) ->
  flat_map (fun x => outline (split LF x)) entries
  = flat_map (fun x => outline (split LF x)) (unindented_lines entries).
Proof.
  induction entries as [|x entries IH]; intros H; [reflexivity|].
  change (unindented_lines (x :: entries))
    with (if negb (startswith "  " x)
          then x :: unindented_lines entries else unindented_lines entries).
  cbn [flat_map].
  rewrite IH by (intros y Hy; apply H; now right).
  destruct (startswith "  " x) eqn:Hx; cbn [negb]; [|reflexivity].
  now rewrite (outline_indented x Hx (H x (or_introl eq_refl) Hx)).
Qed.

Lemma description_part_line (e : elements_record) :
  single_line_record e = true ->
  flat_map (fun x => outline (split LF x)) (description_part e)
  = description_line e.
Proof.
  unfold single_line_record, description_part, description_line. intros S.
  destruct (el_metadata e) as [meta|]; [|reflexivity].
  destruct (meta_description meta) as [d|] eqn:Ed; [|reflexivity].
  repeat (apply andb_prop in S as [S _]). cbn [one_line_field] in S.
  cbn [flat_map]. rewrite (outline_description d S). reflexivity.
Qed.

Lemma outline_category_headers (cs : list category) :
  flat_map (fun x => outline (split LF x)) (map category_header cs)
  = map header_line cs.
Proof.
  induction cs as [|c cs IH]; [reflexivity|].
  cbn [map flat_map]. now rewrite outline_category_header, IH.
Qed.

(** X12 (_format_elements_for_prompt).  When no text of the Element Record
    holds a line feed, the lines of the returned digest that are neither
    empty nor indented are the site description, when there is one, followed
    by the header lines of the categories that are not empty, each once, in
    the fixed order buttons, links, input fields, forms, page headers,
    navigation menus. *)
Theorem X12_digest_headers_once_and_in_order (self : TestCaseGenerator) :
  single_line_record (elements self) = true ->
  outline (split LF (_format_elements_for_prompt self))
  = (description_line (elements self)
     ++ map header_line
          (filter (category_nonempty (elements self)) all_categories))%list.
Proof.
  intros S. pose proof (entries_skeleton (elements self)) as K.
  assert (G : flat_map (fun x => outline (split LF x))
                (formatted_elements (elements self))
              = (description_line (elements self)
                 ++ map header_line
                      (filter (category_nonempty (elements self))
                         all_categories))%list).
  { rewrite outline_of_unindented_entries.
    - rewrite K, flat_map_app, (description_part_line _ S).
      now rewrite outline_category_headers.
    - intros x Hx Hi.
      destruct (formatted_elements_entries _ x S Hx)
        as [(c & -> & _)|[[_ Ho]|(d & -> & _)]].
      + unfold indented in Hi.
        now rewrite (proj1 (category_header_shape c)) in Hi.
      + exact Ho.
      + discriminate Hi. }
  destruct (formatted_elements (elements self)) as [|x xs] eqn:E.
  - unfold _format_elements_for_prompt. rewrite E. rewrite <- G. reflexivity.
  - rewrite formatted_digest_lines by (rewrite E; discriminate).
    rewrite E, outline_lines_of. exact G.
Qed.

(** ** The returned digest up to five entries *)

(** The entries of an input field and of a navigation menu are entries of
    [formatted_elements]. *)
Lemma input_entries_in_digest (e : elements_record) (inputs : list input_el)
    (idx : nat) (f : input_el) (x : string) :
  el_inputs e = Some inputs ->
  nth_error inputs idx = Some f ->
  In x (format_input (S idx, f)) ->
  In x (formatted_elements e).
Proof.
  intros Hin Hnth Hx. unfold formatted_elements.
  do 3 (apply in_or_app; right). apply in_or_app. left.
  unfold inputs_part. rewrite Hin.
  assert (Hp : present_nonempty (Some inputs) = true)
    by (destruct inputs; [destruct idx; discriminate|reflexivity]).
  rewrite Hp. right. cbn [get_or].
  apply in_flat_map. exists (S idx, f). split; [|exact Hx].
  exact (enumerate_nth_error inputs 1 idx f Hnth).
Qed.

Lemma nav_entries_in_digest (e : elements_record) (ps : page_structure_el)
    (navs : list nav_el) (nav : nav_el) :
  page_structure_of e = Some ps ->
  ps_navigation ps = Some navs ->
  In nav navs ->
  exists before after,
    formatted_elements e = (before ++ format_nav nav ++ after)%list.
Proof.
  intros Hps Hnavs Hin.
  unfold formatted_elements, page_structure_part.
  unfold page_structure_of in Hps.
  destruct (el_metadata e) as [meta|]; [|discriminate]. rewrite Hps.
  unfold navigation_part. rewrite Hnavs.
  assert (Hp : present_nonempty (Some navs) = true)
    by (destruct navs; [destruct Hin|reflexivity]).
  rewrite Hp. cbn [get_or].
  destruct (flat_map_in_the_middle format_nav navs nav Hin)
    as (before & after & ->).
  exists (description_part e ++ buttons_part e ++ links_part e
          ++ inputs_part e ++ forms_part e ++ headers_part ps
          ++ (nl ++ "NAVIGATION MENUS:")%string :: before)%list, after.
  rewrite <- !app_assoc. cbn [List.app]. reflexivity.
Qed.

(** A numbered line is no "more items" line. *)
Lemma numbered_line_is_not_cut (indent number tail : string) :
  indent = "  " \/ indent = "    " ->
  all_digits number = true ->
  startswith ". " tail = true ->
  startswith "    ... (" (indent ++ number ++ tail) = false.
Proof.
  intros Hi Hn Ht.
  unfold startswith in Ht.
  destruct tail as [|t1 tail]; [discriminate Ht|]. cbn [String.prefix] in Ht.
  destruct (ascii_dec "." t1) as [<-|]; [|discriminate Ht].
  destruct tail as [|t2 tail]; [discriminate Ht|]. cbn [String.prefix] in Ht.
  destruct (ascii_dec " " t2) as [<-|]; [|discriminate Ht].
  destruct number as [|c number].
  - destruct Hi as [-> | ->]; reflexivity.
  - cbn [all_digits] in Hn. apply andb_prop in Hn as [Hc _].
    destruct Hi as [-> | ->];
      destruct c as [[] [] [] [] [] [] [] []];
      try discriminate Hc; reflexivity.
Qed.

(** [H] says that a numbered line starts as a "more items" line does. *)
Ltac not_cut H :=
  match type of H with
  | startswith _ (?i ++ ?n ++ ?t) = true =>
      rewrite (numbered_line_is_not_cut i n t) in H;
      [discriminate H
      |first [left; reflexivity|right; reflexivity]
      |apply all_digits_string_of_uint
      |first [reflexivity|exact (startswith_app ". " _)]]
  end.

(** Among the entries, only the last line of a navigation menu with more
    than five items starts as a "more items" line does. *)
Lemma cut_entry_is_of_a_long_menu (e : elements_record) (x : string) :
  In x (formatted_elements e) ->
  startswith "    ... (" x = true ->
  exists ps navs nav items,
    page_structure_of e = Some ps /\ ps_navigation ps = Some navs
    /\ In nav navs /\ nav_items nav = Some items /\ 5 < List.length items.
Proof.
  unfold formatted_elements. intros H Hx.
  repeat (apply in_app_or in H as [H|H]).
  - exfalso. unfold description_part in H.
    destruct (el_metadata e) as [meta|]; [|destruct H].
    destruct (meta_description meta); [|destruct H].
    destruct H as [<-|[]]. discriminate Hx.
  - exfalso. unfold buttons_part in H.
    destruct (present_nonempty (el_buttons e)); [|destruct H].
    destruct H as [<-|H]; [discriminate Hx|].
    apply in_map_iff in H as ([i b] & <- & _).
    unfold format_button in Hx. not_cut Hx.
  - exfalso. unfold links_part in H.
    destruct (present_nonempty (el_links e)); [|destruct H].
    destruct H as [<-|H]; [discriminate Hx|].
    apply in_map_iff in H as ([i b] & <- & _).
    unfold format_link in Hx. not_cut Hx.
  - exfalso. unfold inputs_part in H.
    destruct (present_nonempty (el_inputs e)); [|destruct H].
    destruct H as [<-|H]; [discriminate Hx|].
    apply in_flat_map in H as ([i f] & _ & H).
    unfold format_input in H.
    destruct (_ =? "input")%string; [destruct H as [<-|[]]; not_cut Hx|].
    destruct (_ =? "textarea")%string; [destruct H as [<-|[]]; not_cut Hx|].
    destruct (_ =? "select")%string; [destruct H as [<-|[]]; not_cut Hx|].
    destruct H.
  - exfalso. unfold forms_part in H.
    destruct (present_nonempty (el_forms e)); [|destruct H].
    destruct H as [<-|H]; [discriminate Hx|].
    apply in_flat_map in H as ([i f] & _ & H).
    unfold format_form in H. destruct H as [<-|H]; [not_cut Hx|].
    destruct (present_nonempty (form_inputs f)); [|destruct H].
    apply in_map_iff in H as ([j fi] & <- & _).
    unfold format_form_input in Hx. not_cut Hx.
  - unfold page_structure_part in H.
    destruct (el_metadata e) as [meta|] eqn:Hm; [|destruct H].
    destruct (meta_page_structure meta) as [ps|] eqn:Hps; [|destruct H].
    assert (Hof : page_structure_of e = Some ps)
      by (unfold page_structure_of; now rewrite Hm).
    apply in_app_or in H as [H|H].
    + exfalso. unfold headers_part in H.
      destruct (present_nonempty (ps_headers ps)); [|destruct H].
      destruct H as [<-|H]; [discriminate Hx|].
      apply in_map_iff in H as (h & <- & _). discriminate Hx.
    + unfold navigation_part in H.
      destruct (present_nonempty (ps_navigation ps)) eqn:Hp; [|destruct H].
      destruct H as [<-|H]; [discriminate Hx|].
      destruct (ps_navigation ps) as [navs|] eqn:Hn; [|discriminate Hp].
      cbn [get_or] in H.
      apply in_flat_map in H as (nav & Hnav & H).
      unfold format_nav in H. destruct H as [<-|H]; [discriminate Hx|].
      apply in_app_or in H as [H|H].
      * exfalso. apply in_map_iff in H as ([j item] & <- & _).
        unfold format_nav_item in Hx. not_cut Hx.
      * destruct (5 <? List.length (get_or (nav_items nav) []))%nat eqn:L;
          [|destruct H].
        destruct (nav_items nav) as [items|] eqn:Hi; [|discriminate L].
        exists ps, navs, nav, items. apply Nat.ltb_lt in L. now repeat split.
Qed.

(** The lines of an entry that is whole after five: the entry of a select
    element with up to five options. *)
Lemma select_entry_up_to_five (idx : nat) (f : input_el)
    (opts : list option_el) :
  input_element_type f = Some "select" ->
  input_options f = Some opts ->
  List.length opts <= 5 ->
  format_input (S idx, f)
  = [("  " ++ str_of_nat (S idx) ++ ". select dropdown (name="
      ++ get_or (input_name f) "[No name]" ++ ", options: "
      ++ join ", " (map (fun opt => get_or (option_text opt) "Option") opts)
      ++ ")")%string].
Proof.
  intros Hty Hopts Hlen. unfold format_input. rewrite Hty, Hopts. cbn [get_or].
  change ("select" =? "input")%string with false.
  change ("select" =? "textarea")%string with false.
  change ("select" =? "select")%string with true. cbn iota.
  rewrite (proj1 up_to_five_entries opts Hlen). reflexivity.
Qed.

(** X22 (_format_elements_for_prompt, the two truncations at their bound).
    In the returned digest, a select element with at most five options takes
    the lines of an entry that lists all of them, with no "more" suffix; a
    navigation menu with at most five items takes, one after the other, the
    lines of its header and of all its items; and when no text of the record
    holds a line feed and no menu has more than five items, no line of the
    digest starts as a "more items" line does. *)
Theorem X22_digest_shows_up_to_five_entries_in_full :
  forall (self : TestCaseGenerator),
    let e := elements self in
    let digest_lines := split LF (_format_elements_for_prompt self) in
    (forall inputs idx f opts,
        el_inputs e = Some inputs ->
        nth_error inputs idx = Some f ->
        input_element_type f = Some "select" ->
        input_options f = Some opts ->
        List.length opts <= 5 ->
        exists lines_before lines_after,
          digest_lines
          = (lines_before
             ++ lines_of
                  [("  " ++ str_of_nat (S idx) ++ ". select dropdown (name="
                    ++ get_or (input_name f) "[No name]" ++ ", options: "
                    ++ join ", "
                         (map (fun opt => get_or (option_text opt) "Option")
                            opts)
                    ++ ")")%string]
             ++ lines_after)%list)
    /\ (forall ps navs nav items,
          page_structure_of e = Some ps ->
          ps_navigation ps = Some navs ->
          In nav navs ->
          nav_items nav = Some items ->
          List.length items <= 5 ->
          exists lines_before lines_after,
            digest_lines
            = (lines_before
               ++ lines_of
                    (("  - Navigation (id=" ++ get_or (nav_id nav) "[No ID]"
                      ++ ", " ++ str_of_nat (List.length items)
                      ++ " items)")%string
                     :: map format_nav_item (enumerate 1 items))
               ++ lines_after)%list)
    /\ (single_line_record e = true ->
        (forall ps navs nav items,
            page_structure_of e = Some ps ->
            ps_navigation ps = Some navs ->
            In nav navs ->
            nav_items nav = Some items ->
            List.length items <= 5) ->
        forall l, In l digest_lines -> startswith "    ... (" l = false).
Proof.
  intros self e digest_lines. subst digest_lines. split; [|split].
  - intros inputs idx f opts Hin Hnth Hty Hopts Hlen.
    assert (H : In _ (formatted_elements e))
      by (apply (input_entries_in_digest e inputs idx f _ Hin Hnth);
          rewrite (select_entry_up_to_five idx f opts Hty Hopts Hlen);
          now left).
    apply in_split in H as (before & after & E).
    apply (block_in_digest self before [_] after); [exact E|discriminate].
  - intros ps navs nav items Hps Hnavs Hin Hitems Hlen.
    destruct (nav_entries_in_digest e ps navs nav Hps Hnavs Hin)
      as (before & after & E).
    rewrite (proj2 up_to_five_entries nav items Hitems Hlen) in E.
    apply (block_in_digest self before _ after); [exact E|discriminate].
  - intros S Hall l Hl.
    destruct (startswith "    ... (" l) eqn:Hx; [exfalso|reflexivity].
    destruct (digest_line_kinds self l S Hl)
      as [->|[(c & -> & _)|[[_ Hin]|Hd]]].
    + discriminate Hx.
    + destruct c; discriminate Hx.
    + destruct (cut_entry_is_of_a_long_menu e l Hin Hx)
        as (ps & navs & nav & items & Hps & Hnavs & Hnav & Hitems & Hlong).
      pose proof (Hall ps navs nav items Hps Hnavs Hnav Hitems). lia.
    + destruct l as [|c l]; [discriminate Hd|].
      unfold startswith in Hd, Hx. cbn [String.prefix] in Hd, Hx.
      destruct (ascii_dec "S" c) as [<-|]; [|discriminate Hd].
      discriminate Hx.
Qed.
(** ** generate_scripts at the end of the input *)

Lemma script_for_row_at_end_of_input (tpl : script_template_calls)
    (template : string) (total i : nat) (st : scripting) (r : row) :
  (forall test_id test_scenario steps expected_result,
      exists prompt,
        format_script_template tpl template test_id test_scenario steps
          expected_result = Ok prompt) ->
  has_script_columns r ->
  scr_stdin st = [] ->
  let st' := script_for_row tpl template total st (i, r) in
  scr_raised st' = None
  /\ scr_stdin st' = []
  /\ scr_self st' = append_script (scr_self st) (empty_script_of r).
Proof.
  intros Hf Hr Hin. unfold script_for_row. rewrite !getitem_cell.
  destruct (cell "Test Case ID" r) as [test_id|] eqn:E1;
    [|exfalso; apply (Hr "Test Case ID"); [cbn; tauto|exact E1]].
  destruct (cell "Test Scenario" r) as [test_scenario|] eqn:E2;
    [|exfalso; apply (Hr "Test Scenario"); [cbn; tauto|exact E2]].
  destruct (cell "Steps to Execute" r) as [steps|] eqn:E3;
    [|exfalso; apply (Hr "Steps to Execute"); [cbn; tauto|exact E3]].
  destruct (cell "Expected Result" r) as [expected_result|] eqn:E4;
    [|exfalso; apply (Hr "Expected Result"); [cbn; tauto|exact E4]].
  cbn [bind].
  destruct (Hf test_id test_scenario steps expected_result) as [prompt ->].
  cbn [bind]. rewrite Hin. unfold get_user_input. cbn [read_reply].
  cbn [scr_raised scr_stdin scr_self].
  split; [reflexivity|]. split; [reflexivity|].
  unfold empty_script_of. now rewrite E1, E2.
Qed.

(** X23 (generate_scripts with get_user_input at EOFError).  When the input
    has ended, the call does not fail: for every row that has the four columns
    it appends a script with the row's ID and scenario and with empty code,
    and it raises nothing. *)
Theorem X23_generate_scripts_at_end_of_input_appends_empty_scripts
    (tpl : script_template_calls) (self : TestScriptGenerator)
    (out0 : list string) (template : string) :
  load_script_template tpl test_script_prompt_template = (out0, Ok template) ->
  (forall test_id test_scenario steps expected_result,
      exists prompt,
        format_script_template tpl template test_id test_scenario steps
          expected_result = Ok prompt) ->
  Forall has_script_columns (loaded_test_cases self) ->
  let done := generate_scripts tpl self [] in
  scr_raised done = None
  /\ scr_stdin done = []
  /\ test_scripts (scr_self done)
     = (test_scripts self ++ map empty_script_of (loaded_test_cases self))%list.
Proof.
  intros Hl Hf Hrows done. subst done. unfold generate_scripts. rewrite Hl.
  set (total := List.length (loaded_test_cases self)).
  assert (L : forall rows k st,
             Forall has_script_columns rows ->
             scr_raised st = None -> scr_stdin st = [] ->
             let st' :=
               script_loop (script_for_row tpl template total)
                 (enumerate k rows) st in
             scr_raised st' = None /\ scr_stdin st' = []
             /\ test_scripts (scr_self st')
                = (test_scripts (scr_self st) ++ map empty_script_of rows)%list).
  { induction rows as [|r rows IH]; intros k st Hall Hn Hin.
    - cbn. rewrite app_nil_r. now repeat split.
    - inversion Hall as [|? ? Hr Hrest]; subst.
      cbn [enumerate script_loop].
      destruct (script_for_row_at_end_of_input tpl template total k st r Hf Hr Hin)
        as (R & I & S).
      rewrite R.
      destruct (IH (Datatypes.S k) _ Hrest R I) as (R' & I' & T').
      split; [exact R'|]. split; [exact I'|].
      rewrite T', S. cbn [append_script test_scripts map].
      now rewrite <- app_assoc. }
  match goal with |- context [script_loop _ _ ?s] => set (st0 := s) end.
  destruct (L (loaded_test_cases self) 1 st0 Hrows eq_refl eq_refl)
    as (R & I & T).
  rewrite R. cbn [scr_raised scr_stdin scr_self].
  split; [reflexivity|]. split; [exact I|exact T].
Qed.

(** ** The theorems at concrete inputs *)

Lemma C3_trailing_record_is_emitted_at_login_reply :
  exists p front tc st_end,
    _process_ai_response (new_generator EmptyString no_elements) login_reply = Ok p
    /\ returned p = ([] ++ front ++ [tc])%list
    /\ test_cases (self_after p) = returned p
    /\ List.length front = List.length (header_lines [])
    /\ header_of (strip "Test Case 1: Login") tc
    /\ for_each process_line
         ["Steps to Execute"; "1. Open page"; "2. Enter credentials";
          "Expected Result"; "User is logged in"]
         (opened (strip "Test Case 1: Login") []) = Ok st_end
    /\ current_test_case st_end = Some tc.
Proof.
  apply (C3_trailing_record_is_emitted
           (new_generator EmptyString no_elements) login_reply []
           "Test Case 1: Login"
           ["Steps to Execute"; "1. Open page"; "2. Enter credentials";
            "Expected Result"; "User is logged in"]).
  - vm_compute. reflexivity.
  - vm_compute. reflexivity.
  - intros l Hl. each_in Hl; vm_compute; reflexivity.
Defined.

Lemma C4_blank_reply_warns_at_one_space :
  all_whitespace " " = true
  /\ _process_ai_response login_generator " "
     = Ok {| printed := [empty_response_warning]; self_after := login_generator;
             returned := [] |}
  /\ gen_result
       (generate_test_cases plain_templates
          (new_generator "output/elements.json" six_item_record) blank_stdin)
     = Ok [].
Proof.
  split; [reflexivity|]. split.
  - exact (proj1 (C4_blank_reply_warns login_generator " " eq_refl)).
  - apply (proj2 (C4_blank_reply_warns
                    (new_generator "output/elements.json" six_item_record)
                    " " eq_refl)
             plain_templates blank_stdin [] [] [paste_prompt]
             "{elements_summary}");
      try reflexivity.
    intros name url summary. exists summary. reflexivity.
Defined.

Lemma C5_fenced_block_is_extracted_at_fenced_reply :
  _extract_code_from_response fenced_reply
  = join nl ["import time"; "  time.sleep(1)"]
  /\ split LF (_extract_code_from_response fenced_reply)
     = ["import time"; "  time.sleep(1)"]
  /\ (forall l, In l (split LF (_extract_code_from_response fenced_reply)) ->
        is_fence_open l = false /\ is_fence_close l = false).
Proof.
  apply (C5_fenced_block_is_extracted fenced_reply
           ["Here is the script:"] "```python"
           ["import time"; "  time.sleep(1)"] "```" ["Done."; EmptyString]).
  - vm_compute. reflexivity.
  - intros l [<-|[]]. vm_compute. reflexivity.
  - vm_compute. reflexivity.
  - intros l [<-|[<-|[]]]; split; vm_compute; reflexivity.
  - discriminate.
  - vm_compute. reflexivity.
  - intros l [<-|[<-|[]]]; vm_compute; reflexivity.
Defined.

Lemma C6_plain_reply_is_returned_stripped_at_assignment :
  _extract_code_from_response "x = 1" = strip "x = 1"
  /\ (strip "x = 1" = "x = 1" -> _extract_code_from_response "x = 1" = "x = 1").
Proof.
  apply (C6_plain_reply_is_returned_stripped "x = 1").
  intros l Hl. vm_compute in Hl. destruct Hl as [<-|[]].
  split; vm_compute; reflexivity.
Defined.


Lemma C8_save_paths_on_a_full_disk :
  save_test_cases full_disk login_generator "output/test_cases.xlsx"
  = (["Error saving test cases to Excel: No space left on device"], Ok false)
  /\ save_scripts full_disk login_scripts "output/test_scripts.xlsx"
     = Raise (OSError "No space left on device").
Proof.
  split.
  - apply (proj2 (proj1 C8_save_test_cases_catches_save_scripts_propagates
                    full_disk login_generator "output/test_cases.xlsx"
                    (OSError "No space left on device") eq_refl
                    ltac:(discriminate))
             tt); reflexivity.
  - apply (proj2 (proj2 C8_save_test_cases_catches_save_scripts_propagates)
             full_disk login_scripts "output/test_scripts.xlsx"
             (OSError "No space left on device")).
    reflexivity.
Defined.

Lemma C9_unclosed_and_several_blocks_at_unclosed_reply :
  fenced_code_lines (response_lines unclosed_reply) = ["a = 1"; "b = 2"; "c = 3"]
  /\ _extract_code_from_response unclosed_reply
     = join nl ["a = 1"; "b = 2"; "c = 3"].
Proof.
  assert (Hwf : Forall well_fenced [first_block]).
  { constructor; [|constructor]. split; [|split; [|split]].
    - intros l [].
    - vm_compute. reflexivity.
    - intros l [<-|[]]. split; vm_compute; reflexivity.
    - vm_compute. reflexivity. }
  destruct (proj1 (C9_unclosed_and_several_blocks unclosed_reply [first_block] Hwf)
              ["then"] "```python" ["b = 2"; "c = 3"]) as [E1 E2].
  - vm_compute. reflexivity.
  - intros l [<-|[]]. vm_compute. reflexivity.
  - vm_compute. reflexivity.
  - intros l [<-|[<-|[]]]; vm_compute; reflexivity.
  - split; [exact E1|]. apply E2. discriminate.
Defined.

Lemma C10_successive_replies_append_on_empty_store :
  exists objs1 refs1 objs2 refs2 d1 d2,
    process_ai_response_on_store empty_store [] login_reply = Ok (objs1, refs1)
    /\ process_ai_response_on_store objs1 refs1 fruit_reply = Ok (objs2, refs2)
    /\ refs1 = ([] ++ d1)%list
    /\ refs2 = (refs1 ++ d2)%list
    /\ (forall r, In r refs1 -> object_at objs2 r = object_at objs1 r)
    /\ map (object_at objs1) refs1
       = (map (object_at empty_store) [] ++ records_of login_reply)%list
    /\ map (object_at objs2) refs2
       = (map (object_at empty_store) [] ++ records_of login_reply
          ++ records_of fruit_reply)%list.
Proof.
  apply (proj2 (proj2 C10_successive_replies_append)
           empty_store [] login_reply fruit_reply).
  intros r [].
Defined.

Lemma C1_one_record_per_header_and_renumbering_at_other_numbers :
  Forall well_formed_case [renumbered_login]
  /\ records_of (render_reply [renumbered_login]) = [login_case]
  /\ save_test_cases
       (accepts_only
          [[("Test Case ID", "Test Case 1"); ("Test Scenario", "Login");
            ("Steps to Execute", "1. Open page" ++ nl ++ "2. Enter credentials");
            ("Expected Result", "User is logged in")]])
       renumbered_generator "output/test_cases.xlsx"
     = ([nl ++ "Test cases successfully saved to: output/test_cases.xlsx"],
        Ok true).
Proof.
  assert (Hwf : Forall well_formed_case [renumbered_login])
    by (repeat constructor).
  split; [exact Hwf|]. split.
  - exact (proj1 (proj2 C1_one_record_per_header_and_renumbering)
             [renumbered_login] Hwf).
  - exact (proj1 (proj2 (proj2 C1_one_record_per_header_and_renumbering))
             (accepts_only
                [[("Test Case ID", "Test Case 1"); ("Test Scenario", "Login");
                  ("Steps to Execute",
                   "1. Open page" ++ nl ++ "2. Enter credentials");
                  ("Expected Result", "User is logged in")]])
             renumbered_generator "output/test_cases.xlsx"
             ltac:(vm_compute; discriminate) eq_refl).
Defined.

Lemma X1_extract_from_first_import_line_at_import_reply :
  _extract_code_from_response import_reply
  = join nl ["from selenium import webdriver"; "driver = webdriver.Chrome()";
             "Good luck!"].
Proof.
  apply (X1_extract_from_first_import_line import_reply ["Sure, here it is:"]).
  - reflexivity.
  - intros l Hl. vm_compute in Hl. each_in Hl; reflexivity.
  - intros l Hl. each_in Hl. reflexivity.
  - reflexivity.
Defined.

Lemma X3_extract_fenced_code_has_no_markers_at_fenced_reply :
  fenced_code_lines (response_lines fenced_reply) <> []
  /\ Forall (fun l => is_fence_open l = false /\ is_fence_close l = false)
       (split LF (_extract_code_from_response fenced_reply)).
Proof.
  assert (H : fenced_code_lines (response_lines fenced_reply) <> [])
    by (vm_compute; discriminate).
  split; [exact H|]. apply Forall_forall.
  exact (X3_extract_fenced_code_has_no_markers fenced_reply H).
Defined.

Lemma X4_get_user_input_stops_at_second_blank_line_at_two_functions :
  get_user_input paste_prompt two_functions_pasted
  = ([paste_prompt], join nl ["def f():"; "    pass"; EmptyString],
     ["def g():"; "    pass"]).
Proof.
  apply (X4_get_user_input_stops_at_second_blank_line paste_prompt
           ["def f():"; "    pass"] EmptyString EmptyString
           ["def g():"; "    pass"]); reflexivity.
Defined.

Lemma X5_get_user_input_reads_to_end_of_input_at_one_function :
  get_user_input paste_prompt ["def f():"; "    pass"; EmptyString]
  = ([paste_prompt], join nl ["def f():"; "    pass"; EmptyString], []).
Proof.
  apply (X5_get_user_input_reads_to_end_of_input paste_prompt
           ["def f():"; "    pass"; EmptyString]).
  reflexivity.
Defined.

Lemma X7_generate_test_cases_appends_the_records_of_the_reply_at_login_reply :
  let g := generate_test_cases plain_templates login_generator
             (split LF login_reply ++ [EmptyString; EmptyString; "next"]) in
  gen_result g = Ok [login_case; login_case]
  /\ gen_self g = set_test_cases login_generator [login_case; login_case]
  /\ gen_stdin g = ["next"].
Proof.
  apply (X7_generate_test_cases_appends_the_records_of_the_reply plain_templates
           login_generator
           (split LF login_reply ++ [EmptyString; EmptyString; "next"]) []
           "{elements_summary}").
  - reflexivity.
  - reflexivity.
  - intros name url summary. exists summary. reflexivity.
Defined.

Lemma X8_generate_test_cases_failure_changes_nothing_without_elements :
  let g := generate_test_cases plain_templates
             (new_generator "output/elements.json" no_elements) ["pasted"] in
  gen_self g = new_generator "output/elements.json" no_elements
  /\ gen_stdin g = ["pasted"].
Proof.
  apply (X8_generate_test_cases_failure_changes_nothing plain_templates
           (new_generator "output/elements.json" no_elements) ["pasted"]
           (ValueError
              "No elements data available. Please check the elements JSON file."));
    reflexivity.
Defined.

Lemma X9_only_the_stripped_nonblank_lines_matter_at_spaced_login_reply :
  _process_ai_response login_generator spaced_login_reply
  = _process_ai_response login_generator login_reply.
Proof.
  apply (X9_only_the_stripped_nonblank_lines_matter login_generator
           spaced_login_reply login_reply).
  vm_compute. reflexivity.
Defined.

Lemma X10_text_before_the_first_header_is_ignored_at_chatty_login_reply :
  records_of chatty_login_reply = records_of noted_login_reply.
Proof.
  apply (X10_text_before_the_first_header_is_ignored chatty_login_reply
           noted_login_reply ["Here are your test cases:"; "Steps"; EmptyString]).
  - vm_compute. reflexivity.
  - intros l Hl. each_in Hl; vm_compute; reflexivity.
Defined.

Lemma X11_text_between_header_and_first_heading_is_ignored_at_noted_login_reply :
  records_of noted_login_reply = records_of spaced_login_reply.
Proof.
  apply (X11_text_between_header_and_first_heading_is_ignored noted_login_reply
           spaced_login_reply [] "  Test Case 1: Login" ["Priority: high"]
           ["Steps to Execute"; "   1. Open page"; EmptyString;
            "   2. Enter credentials"; "Expected Result"; "User is logged in";
            EmptyString]).
  - vm_compute. reflexivity.
  - vm_compute. reflexivity.
  - vm_compute. reflexivity.
  - intros l Hl. each_in Hl. repeat split; vm_compute; reflexivity.
Defined.

Lemma X13_generate_scripts_one_script_per_row_at_two_rows :
  let done :=
    generate_scripts plain_script_templates two_row_scripts
      (flat_map keystrokes [login_paste; logout_paste] ++ ["left over"])%list in
  scr_raised done = None
  /\ scr_stdin done = ["left over"]
  /\ test_scripts (scr_self done)
     = [{| ts_id := "Test Case 1"; ts_scenario := "Login";
           ts_code := "import time" |};
        {| ts_id := "Test Case 2"; ts_scenario := "Logout";
           ts_code := "x = 1" |}]
  /\ loaded_test_cases (scr_self done) = loaded_test_cases two_row_scripts.
Proof.
  apply (X13_generate_scripts_one_script_per_row plain_script_templates
           two_row_scripts [] "{steps}" [login_paste; logout_paste]
           ["left over"]).
  - reflexivity.
  - intros test_id test_scenario steps expected_result. exists steps. reflexivity.
  - repeat constructor; intros c Hc; each_in Hc; discriminate.
  - repeat constructor; discriminate.
  - reflexivity.
Defined.

Lemma X14_generate_scripts_missing_column_keeps_earlier_scripts_at_short_row :
  let done :=
    generate_scripts plain_script_templates short_row_scripts
      (flat_map keystrokes [login_paste] ++ ["left over"])%list in
  (exists missing,
      In missing script_columns /\ cell missing short_row = None
      /\ scr_raised done = Some (KeyError ("'" ++ missing ++ "'")))
  /\ scr_stdin done = ["left over"]
  /\ test_scripts (scr_self done)
     = [{| ts_id := "Test Case 1"; ts_scenario := "Login";
           ts_code := "import time" |}].
Proof.
  apply (X14_generate_scripts_missing_column_keeps_earlier_scripts
           plain_script_templates short_row_scripts [] "{steps}"
           [processed_case login_case] short_row [] [login_paste]
           ["left over"] "Steps to Execute").
  - reflexivity.
  - intros test_id test_scenario steps expected_result. exists steps. reflexivity.
  - reflexivity.
  - repeat constructor; intros c Hc; each_in Hc; discriminate.
  - repeat constructor; discriminate.
  - reflexivity.
  - cbn. tauto.
  - reflexivity.
Defined.

Lemma X16_load_template_creates_the_missing_script_template_in_srv_app :
  exists fs',
    Utils.load_template "/srv/app" no_templates_yet test_script_prompt_template
    = (["Template file not found: "
        ++ Utils.test_script_prompt_path "/srv/app";
        "Creating default templates..."],
       fs', Ok Utils.default_test_script_prompt)
    /\ Utils.file_at fs' (Utils.test_script_prompt_path "/srv/app")
       = Some Utils.default_test_script_prompt.
Proof.
  apply (X16_load_template_creates_the_missing_script_template "/srv/app"
           no_templates_yet); reflexivity.
Defined.

Lemma X17_generate_test_cases_looks_under_templates_templates_with_defaults_in_place :
  let g :=
    generate_test_cases
      (template_calls_on "/srv/app" default_templates_in_place
         (fun _ _ _ summary => Ok summary))
      (new_generator "output/elements.json" six_item_record) ["pasted"] in
  (gen_result g
   = Raise (FileNotFoundError
              "Test case prompt template not found. Please check the templates directory.")
   \/ exists msg, gen_result g = Raise (OSError msg))
  /\ gen_self g = new_generator "output/elements.json" six_item_record
  /\ gen_stdin g = ["pasted"].
Proof.
  apply (X17_generate_test_cases_looks_under_templates_templates
           "/srv/app" default_templates_in_place
           (fun _ _ _ summary => Ok summary)
           (new_generator "output/elements.json" six_item_record) ["pasted"]);
    reflexivity.
Defined.

Lemma X18_load_template_needs_the_ai_prompts_directory_in_empty_templates :
  exists msg,
    Utils.load_template "/srv/app" empty_templates_directory
      test_script_prompt_template
    = (["Template file not found: "
        ++ Utils.test_script_prompt_path "/srv/app";
        "Creating default templates..."],
       empty_templates_directory, Raise (FileNotFoundError msg)).
Proof.
  apply (X18_load_template_needs_the_ai_prompts_directory "/srv/app"
           empty_templates_directory); reflexivity.
Defined.

Lemma X19_text_on_a_heading_line_is_dropped_at_inline_login_reply :
  records_of inline_login_reply
  = [{| tc_id := "Test Case 1"; tc_scenario := "Login"; tc_steps := [];
        tc_expected := EmptyString |}].
Proof.
  apply (X19_text_on_a_heading_line_is_dropped inline_login_reply
           ("Test Case 1: Login" ++ nl ++ "Expected Result")
           ["Test Case 1: Login"]
           "Expected Result: User is logged in" "Expected Result" []).
  - vm_compute. reflexivity.
  - vm_compute. reflexivity.
  - right. split; vm_compute; reflexivity.
Defined.

Lemma X20_expected_result_is_joined_by_spaces_at_long_expected_reply :
  records_of long_expected_reply
  = [{| tc_id := "Test Case 1"; tc_scenario := "Login"; tc_steps := [];
        tc_expected :=
          "User is logged in and sees the dashboard within 2 seconds" |}].
Proof.
  apply (X20_expected_result_is_joined_by_spaces long_expected_reply
           "Test Case 1: Login" "Expected Result:"
           ["  User is logged in"; EmptyString; "and sees the dashboard  ";
            "within 2 seconds"]).
  - vm_compute. reflexivity.
  - vm_compute. reflexivity.
  - vm_compute. reflexivity.
  - intros l Hl. each_in Hl; repeat split; vm_compute; reflexivity.
Defined.

Lemma X21_main_reports_saved_test_cases_when_none_were_saved_on_a_full_disk :
  exists printed_before,
    main_generate_tests plain_templates full_disk
      (new_generator "output/elements.json" six_item_record) no_header_stdin
      "output/test_cases.xlsx"
    = ((printed_before
        ++ ["Error: No test cases to save.";
            "Test cases saved to output/test_cases.xlsx"])%list,
       Ok tt).
Proof.
  apply (X21_main_reports_saved_test_cases_when_none_were_saved plain_templates
           full_disk (new_generator "output/elements.json" six_item_record)
           no_header_stdin "output/test_cases.xlsx" [] "{elements_summary}").
  - reflexivity.
  - reflexivity.
  - intros name url summary. exists summary. reflexivity.
  - reflexivity.
  - vm_compute. reflexivity.
Defined.

Lemma X22_digest_shows_up_to_five_entries_in_full_at_five_items :
  let digest_lines :=
    split LF (_format_elements_for_prompt
                (new_generator "output/elements.json" small_record)) in
  digest_lines
  = [EmptyString; "INPUT FIELDS:";
     "  1. select dropdown (name=size, options: S, M)";
     EmptyString; "NAVIGATION MENUS:";
     "  - Navigation (id=main, 5 items)";
     "    1. a (href=/a)"; "    2. b (href=/b)"; "    3. c (href=/c)";
     "    4. d (href=/d)"; "    5. e (href=/e)"]
  /\ (exists lines_before lines_after,
        digest_lines
        = (lines_before
           ++ ["  1. select dropdown (name=size, options: S, M)"]
           ++ lines_after)%list)
  /\ (exists lines_before lines_after,
        digest_lines
        = (lines_before
           ++ ["  - Navigation (id=main, 5 items)";
               "    1. a (href=/a)"; "    2. b (href=/b)"; "    3. c (href=/c)";
               "    4. d (href=/d)"; "    5. e (href=/e)"]
           ++ lines_after)%list)
  /\ forall l, In l digest_lines -> startswith "    ... (" l = false.
Proof.
  intros digest_lines.
  pose proof (X22_digest_shows_up_to_five_entries_in_full
                (new_generator "output/elements.json" small_record))
    as (Hselect & Hnav & Hnone).
  split; [vm_compute; reflexivity|]. split; [|split].
  - exact (Hselect [two_option_select] 0 two_option_select
             [{| option_text := Some "S" |}; {| option_text := Some "M" |}]
             eq_refl eq_refl eq_refl eq_refl ltac:(cbn; lia)).
  - exact (Hnav {| ps_headers := None; ps_navigation := Some [five_item_nav] |}
             [five_item_nav] five_item_nav
             (map nav_item_named ["a"; "b"; "c"; "d"; "e"])
             eq_refl eq_refl (or_introl eq_refl) eq_refl ltac:(cbn; lia)).
  - apply Hnone; [reflexivity|].
    intros ps navs nav items Hps Hnavs Hnav' Hitems.
    injection Hps as <-. injection Hnavs as <-.
    destruct Hnav' as [<-|[]]. injection Hitems as <-. cbn. lia.
Defined.

Lemma X12_digest_headers_once_and_in_order_at_small_record :
  outline (split LF (_format_elements_for_prompt
                       (new_generator "output/elements.json" small_record)))
  = ["INPUT FIELDS:"; "NAVIGATION MENUS:"].
Proof.
  apply (X12_digest_headers_once_and_in_order
           (new_generator "output/elements.json" small_record)).
  reflexivity.
Defined.

Lemma X23_generate_scripts_at_end_of_input_appends_empty_scripts_at_two_rows :
  let done := generate_scripts plain_script_templates two_row_scripts [] in
  scr_raised done = None
  /\ scr_stdin done = []
  /\ test_scripts (scr_self done)
     = [{| ts_id := "Test Case 1"; ts_scenario := "Login";
           ts_code := EmptyString |};
        {| ts_id := "Test Case 2"; ts_scenario := "Logout";
           ts_code := EmptyString |}].
Proof.
  apply (X23_generate_scripts_at_end_of_input_appends_empty_scripts
           plain_script_templates two_row_scripts [] "{steps}").
  - reflexivity.
  - intros test_id test_scenario steps expected_result. exists steps. reflexivity.
  - repeat constructor; intros c Hc; each_in Hc; discriminate.
Defined.
